(** * Verification of the grievance classifier (rag-classifier)

    A shallow embedding of [rag-classifier/app.py] (class [RAGClassifier])
    and of [rag-classifier/enhanced_app.py] (class [EnhancedRAGClassifier]),
    with the properties of the design specification proved about it.

    Modelling conventions.
    - A Python [str] is a list of Unicode code points ([PyStr.str]).  The
      Unicode tables of the interpreter ([str.lower], [str.isalnum],
      [str.isspace], [str.isdecimal]) are library data, not code of the
      repository: they are section variables, and the few facts a proof
      needs about them are section hypotheses.  [Ascii7] gives the ASCII
      fragment of the tables, with which every definition can be evaluated.
    - A finite Python [float] is an exact rational ([Q]): [min], [max], [/]
      and the comparisons are the ones of the source, rounding is not
      modelled.  The numbers [json.loads] builds besides are modelled too:
      an [int] of any size, whose conversion to [float] raises
      [OverflowError] from [2^1024 - 2^970] on, and the floats [NaN],
      [Infinity] and [-Infinity].
    - A dictionary is an association list in insertion order.
    - Exceptions and the outbound call to the text-generation service are
      made explicit by a small monad that threads the trace of calls. *)

From Stdlib Require Import List NArith ZArith QArith Qminmax Bool Lia.
From Stdlib Require Import String Ascii.
Import ListNotations.

Set Implicit Arguments.
Set Warnings "-register-all".

(* ================================================================= *)
(** ** Python strings *)

Module PyStr.

(** A code point. *)
Definition char := N.

(** A Python [str]. *)
Definition str := list char.

(** A string literal of the source. *)
Definition lit (s : string) : str :=
  List.map N_of_ascii (list_ascii_of_string s).

Arguments lit : simpl never.

Definition SPACE : char := 32%N.
Definition UNDERSCORE : char := 95%N.

Definition char_eqb (a b : char) : bool := N.eqb a b.

Fixpoint eqb (a b : str) : bool :=
  match a, b with
  | [], [] => true
  | x :: a', y :: b' => char_eqb x y && eqb a' b'
  | _, _ => false
  end.

(** [s.startswith(p)] *)
Fixpoint startswith (p s : str) : bool :=
  match p, s with
  | [], _ => true
  | _ :: _, [] => false
  | x :: p', y :: s' => char_eqb x y && startswith p' s'
  end.

(** [sub in s] on strings: [sub] occurs as a contiguous substring. *)
Fixpoint contains (sub s : str) : bool :=
  startswith sub s
  || match s with
     | [] => false
     | _ :: s' => contains sub s'
     end.

(** [x in l] on a list of strings. *)
Definition mem (x : str) (l : list str) : bool := existsb (eqb x) l.

(** [sep.join(ws)] *)
Fixpoint join (sep : str) (ws : list str) : str :=
  match ws with
  | [] => []
  | [w] => w
  | w :: ws' => w ++ sep ++ join sep ws'
  end.

Section Tables.

(** The interpreter's Unicode tables. *)
Variable uni_lower : str -> str.       (* str.lower() *)
Variable uni_isalnum : char -> bool.   (* str.isalnum() on one character *)
Variable uni_isspace : char -> bool.   (* str.isspace() on one character *)

(** The class [\w] of [re] on [str] patterns: alphanumeric or underscore. *)
Definition re_word (c : char) : bool :=
  uni_isalnum c || char_eqb c UNDERSCORE.

(** The class [\s] of [re] on [str] patterns. *)
Definition re_space (c : char) : bool := uni_isspace c.

(** [re.sub(r'[^\w\s]', ' ', text)] *)
Definition re_sub_nonword (text : str) : str :=
  List.map (fun c => if re_word c || re_space c then c else SPACE) text.

(** [s.split()]: the maximal runs of non-whitespace characters. *)
Fixpoint split (s : str) : list str :=
  match s with
  | [] => []
  | c :: s' =>
      if uni_isspace c then split s'
      else match s' with
           | [] => [[c]]
           | d :: _ =>
               if uni_isspace d then [c] :: split s'
               else match split s' with
                    | w :: ws => (c :: w) :: ws
                    | [] => [[c]]
                    end
           end
  end.

(** [s.lstrip()] *)
Fixpoint lstrip (s : str) : str :=
  match s with
  | [] => []
  | c :: s' => if uni_isspace c then lstrip s' else s
  end.

(** [s.strip()] *)
Definition strip (s : str) : str := rev (lstrip (rev (lstrip s))).

(** [RAGClassifier.preprocess_text] (app.py):
<<
    if not text: return ""
    text = text.lower()
    text = re.sub(r'[^\w\s]', ' ', text)
    text = ' '.join(text.split())
>> *)
Definition preprocess_text (text : str) : str :=
  match text with
  | [] => []
  | _ :: _ =>
      let text := uni_lower text in
      let text := re_sub_nonword text in
      join [SPACE] (split text)
  end.

(** *** Facts about [split] and [join] *)

(** A word as [split] produces them: not empty, no whitespace in it. *)
Definition is_token (w : str) : Prop :=
  w <> [] /\ forall c, In c w -> uni_isspace c = false.

Lemma split_tokens (s : str) : Forall is_token (split s).
Proof.
  induction s as [|c s IH]; simpl; [constructor|].
  destruct (uni_isspace c) eqn:Hc; [exact IH|].
  assert (Hone : is_token [c]).
  { split; [discriminate|]. intros x [<-|[]]. exact Hc. }
  destruct s as [|d s']; [constructor; [exact Hone|constructor]|].
  destruct (uni_isspace d) eqn:Hd.
  - constructor; [exact Hone|exact IH].
  - destruct (split (d :: s')) as [|w ws] eqn:E.
    + constructor; [exact Hone|constructor].
    + inversion IH as [|? ? [Hw1 Hw2] Hws]; subst.
      constructor; [|exact Hws].
      split; [discriminate|].
      intros x [<-|Hx]; [exact Hc|apply Hw2, Hx].
Qed.

Lemma split_chars (s : str) (w : str) (c : char) :
  In w (split s) -> In c w -> In c s.
Proof.
  revert w. induction s as [|a s IH]; simpl; intros w Hw Hc; [contradiction|].
  destruct (uni_isspace a) eqn:Ha.
  - right. eapply IH; eauto.
  - destruct s as [|d s'].
    + destruct Hw as [<-|[]]. destruct Hc as [<-|[]]. now left.
    + destruct (uni_isspace d) eqn:Hd.
      * destruct Hw as [<-|Hw].
        -- destruct Hc as [<-|[]]. now left.
        -- right. eapply IH; eauto.
      * destruct (split (d :: s')) as [|w0 ws] eqn:E.
        -- destruct Hw as [<-|[]]. destruct Hc as [<-|[]]. now left.
        -- destruct Hw as [<-|Hw].
           ++ destruct Hc as [<-|Hc]; [now left|].
              right. apply (IH w0); [now left|exact Hc].
           ++ right. apply (IH w); [now right|exact Hc].
Qed.

Lemma split_nil_iff_join_nil (s : str) :
  join [SPACE] (split s) = [] <-> split s = [].
Proof.
  split; [|intros ->; reflexivity].
  pose proof (split_tokens s) as H.
  destruct (split s) as [|w ws]; [reflexivity|].
  inversion H as [|? ? [Hw _] _]; subst.
  destruct w; [congruence|].
  destruct ws; simpl; discriminate.
Qed.

Section SplitJoin.

Hypothesis space_isspace : uni_isspace SPACE = true.

Lemma split_cons2 (c d : char) (s : str) :
  uni_isspace c = false -> uni_isspace d = false ->
  split (c :: d :: s) =
  match split (d :: s) with
  | w :: ws => (c :: w) :: ws
  | [] => [[c]]
  end.
Proof.
  intros Hc Hd.
  change (split (c :: d :: s))
    with (if uni_isspace c then split (d :: s)
          else if uni_isspace d then [c] :: split (d :: s)
               else match split (d :: s) with
                    | w :: ws => (c :: w) :: ws
                    | [] => [[c]]
                    end).
  now rewrite Hc, Hd.
Qed.

Lemma split_token_app_space (w rest : str) :
  is_token w ->
  split (w ++ SPACE :: rest) = w :: split rest.
Proof.
  intros [Hne Hns].
  induction w as [|c w IH]; [congruence|].
  assert (Hc : uni_isspace c = false) by (apply Hns; now left).
  destruct w as [|d w'].
  - simpl. rewrite Hc, space_isspace. reflexivity.
  - assert (Hd : uni_isspace d = false) by (apply Hns; right; now left).
    change ((c :: d :: w') ++ SPACE :: rest)
      with (c :: d :: (w' ++ SPACE :: rest)).
    rewrite split_cons2 by assumption.
    change (d :: w' ++ SPACE :: rest)
      with ((d :: w') ++ SPACE :: rest).
    rewrite IH; [reflexivity|discriminate|].
    intros x Hx. apply Hns. now right.
Qed.

Lemma split_token (w : str) : is_token w -> split w = [w].
Proof.
  intros [Hne Hns].
  induction w as [|c w IH]; [congruence|].
  assert (Hc : uni_isspace c = false) by (apply Hns; now left).
  destruct w as [|d w'].
  - simpl. now rewrite Hc.
  - assert (Hd : uni_isspace d = false) by (apply Hns; right; now left).
    rewrite split_cons2 by assumption.
    rewrite IH; [reflexivity|discriminate|].
    intros x Hx. apply Hns. now right.
Qed.

(** Splitting what [join] built from tokens gives the tokens back. *)
Lemma split_join (ws : list str) :
  Forall is_token ws -> split (join [SPACE] ws) = ws.
Proof.
  induction ws as [|w ws IH]; intros H; [reflexivity|].
  inversion H as [|? ? Hw Hws]; subst.
  destruct ws as [|w' ws'].
  - simpl. now apply split_token.
  - change (join [SPACE] (w :: w' :: ws'))
      with (w ++ SPACE :: join [SPACE] (w' :: ws')).
    rewrite split_token_app_space by exact Hw.
    now rewrite IH.
Qed.

End SplitJoin.

Lemma join_chars (ws : list str) (c : char) :
  In c (join [SPACE] ws) -> c = SPACE \/ exists w, In w ws /\ In c w.
Proof.
  induction ws as [|w ws IH]; simpl; [contradiction|].
  destruct ws as [|w' ws'].
  - intros Hc. right. exists w. split; [now left|exact Hc].
  - intros Hc. apply in_app_or in Hc as [Hc|Hc].
    + right. exists w. split; [now left|exact Hc].
    + simpl in Hc. destruct Hc as [<-|Hc]; [now left|].
      destruct (IH Hc) as [->|[w0 [Hw0 Hc0]]]; [now left|].
      right. exists w0. split; [now right|exact Hc0].
Qed.

(** *** The normal form of [preprocess_text] *)

Section Idempotence.

(** What the proof uses of the interpreter's tables: U+0020 is whitespace
    and is its own lower case; the characters [str.lower] produces are their
    own lower case; and [str.lower] leaves a string of such characters as it
    is (only an upper-case character is mapped, or read in context). *)
Hypothesis space_isspace : uni_isspace SPACE = true.
Hypothesis lower_space : uni_lower [SPACE] = [SPACE].
Hypothesis lower_output_fixed :
  forall s c, In c (uni_lower s) -> uni_lower [c] = [c].
Hypothesis lower_fixed :
  forall s, (forall c, In c s -> uni_lower [c] = [c]) -> uni_lower s = s.

(** A word of already normalized text. *)
Definition is_normal_word (w : str) : Prop :=
  is_token w /\ forall c, In c w -> re_word c = true /\ uni_lower [c] = [c].

Lemma re_sub_nonword_fixed (s : str) :
  (forall c, In c s -> re_word c || re_space c = true) ->
  re_sub_nonword s = s.
Proof.
  unfold re_sub_nonword. induction s as [|c s IH]; intros H; [reflexivity|].
  simpl. rewrite (H c) by now left.
  f_equal. apply IH. intros x Hx. apply H. now right.
Qed.

Lemma preprocess_text_normal (ws : list str) :
  Forall is_normal_word ws ->
  preprocess_text (join [SPACE] ws) = join [SPACE] ws.
Proof.
  intros Hws.
  assert (Htok : Forall is_token ws).
  { eapply Forall_impl; [|exact Hws]. now intros w [Hw _]. }
  assert (Hchar : forall c, In c (join [SPACE] ws) ->
                   c = SPACE \/ (re_word c = true /\ uni_lower [c] = [c])).
  { intros c Hc. apply join_chars in Hc as [->|[w [Hw Hc]]]; [now left|].
    right. rewrite Forall_forall in Hws. now apply (Hws w Hw). }
  unfold preprocess_text.
  destruct (join [SPACE] ws) as [|a y] eqn:E; [reflexivity|].
  rewrite lower_fixed.
  - rewrite re_sub_nonword_fixed.
    + rewrite <- E. now rewrite split_join.
    + intros c Hc. destruct (Hchar c Hc) as [->|[Hw _]].
      * unfold re_space. rewrite space_isspace. apply orb_true_r.
      * now rewrite Hw.
  - intros c Hc. destruct (Hchar c Hc) as [->|[_ Hl]]; assumption.
Qed.

Lemma preprocess_text_words (text : str) :
  Forall is_normal_word (split (re_sub_nonword (uni_lower text))).
Proof.
  pose proof (split_tokens (re_sub_nonword (uni_lower text))) as Htok.
  rewrite Forall_forall in *. intros w Hw. split; [now apply Htok|].
  intros c Hc.
  destruct (Htok w Hw) as [_ Hns]. specialize (Hns c Hc).
  pose proof (split_chars _ _ _ Hw Hc) as Hin.
  unfold re_sub_nonword in Hin. apply in_map_iff in Hin as [c0 [Hc0 Hin0]].
  destruct (re_word c0 || re_space c0) eqn:Hk.
  - subst c0. split; [|now apply (lower_output_fixed text)].
    unfold re_space in Hk. rewrite Hns, orb_false_r in Hk. exact Hk.
  - subst c. congruence.
Qed.

End Idempotence.

End Tables.

(** ** The ASCII fragment of the interpreter's tables *)

Module Ascii7.

(** [c.lower()]: A..Z are mapped to a..z. *)
Definition lower_char (c : char) : char :=
  if (65 <=? c)%N && (c <=? 90)%N then (c + 32)%N else c.

Definition lower (s : str) : str := List.map lower_char s.

(** [c.isalnum()]: 0..9, A..Z, a..z. *)
Definition isalnum (c : char) : bool :=
  ((48 <=? c)%N && (c <=? 57)%N)
  || ((65 <=? c)%N && (c <=? 90)%N)
  || ((97 <=? c)%N && (c <=? 122)%N).

(** [c.isdecimal()]: 0..9. *)
Definition isdecimal (c : char) : bool := (48 <=? c)%N && (c <=? 57)%N.

(** [c.isspace()]: TAB, LF, VT, FF, CR, FS, GS, RS, US and the space. *)
Definition isspace (c : char) : bool :=
  ((9 <=? c)%N && (c <=? 13)%N)
  || ((28 <=? c)%N && (c <=? 32)%N).

Lemma lower_char_idem (c : char) : lower_char (lower_char c) = lower_char c.
Proof.
  unfold lower_char.
  destruct ((65 <=? c)%N && (c <=? 90)%N) eqn:E.
  - apply andb_true_iff in E as [E1 E2].
    apply N.leb_le in E1. apply N.leb_le in E2.
    destruct ((65 <=? c + 32)%N && (c + 32 <=? 90)%N) eqn:E'; [|reflexivity].
    apply andb_true_iff in E' as [_ E4]. apply N.leb_le in E4. lia.
  - now rewrite E.
Qed.

Lemma lower_output_fixed (s : str) (c : char) :
  In c (lower s) -> lower [c] = [c].
Proof.
  unfold lower. intros H. apply in_map_iff in H as [c0 [<- _]].
  simpl. now rewrite lower_char_idem.
Qed.

Lemma lower_fixed (s : str) :
  (forall c, In c s -> lower [c] = [c]) -> lower s = s.
Proof.
  unfold lower. induction s as [|c s IH]; intros H; [reflexivity|].
  simpl. f_equal.
  - specialize (H c (or_introl eq_refl)). simpl in H. congruence.
  - apply IH. intros x Hx. apply H. now right.
Qed.

End Ascii7.

End PyStr.

(* ================================================================= *)
(** ** Python values, exceptions and effects *)

Module Py.

Import PyStr.

(** A value as [json.loads] and [request.get_json] build them.  An object
    is the association list of the dictionary, the binding of a key being
    the first pair that carries it.  [JNum] is a finite [float], [JInt] an
    [int] of any size; [JNaN] and [JInf] are the floats that [json.loads]
    builds from [NaN], [Infinity] and [-Infinity] (and from a literal too
    large for a float). *)
Inductive json : Type :=
| JNull
| JBool (b : bool)
| JNum (q : Q)
| JStr (s : str)
| JArr (items : list json)
| JObj (fields : list (str * json))
| JInt (z : Z)
| JNaN
| JInf (negative : bool).

(** A [float]: finite, not a number, or an infinity. *)
Inductive pyfloat : Type :=
| Fin (q : Q)
| NaN
| Inf (negative : bool).

Definition of_float (f : pyfloat) : json :=
  match f with
  | Fin q => JNum q
  | NaN => JNaN
  | Inf negative => JInf negative
  end.

(** The exceptions the modelled code raises or meets. *)
Inductive exn : Type :=
| Exception (msg : str)
| ValueError (msg : str)
| TypeError
| AttributeError
| KeyError (key : str)
| JSONDecodeError
| ServiceError
| OverflowError.

Inductive outcome (A : Type) : Type :=
| Ok (a : A)
| Raise (e : exn).

Arguments Ok {A} a.
Arguments Raise {A} e.

(** A computation that may raise and that records the events of type [E]
    (the outbound calls) it performs, oldest first. *)
Definition M (E A : Type) : Type := list E -> outcome A * list E.

Definition ret {E A} (a : A) : M E A := fun tr => (Ok a, tr).

Definition raise {E A} (e : exn) : M E A := fun tr => (Raise e, tr).

Definition bind {E A B} (m : M E A) (k : A -> M E B) : M E B :=
  fun tr =>
    match m tr with
    | (Ok a, tr') => k a tr'
    | (Raise e, tr') => (Raise e, tr')
    end.

(** [try: m  except Exception as e: h e] *)
Definition try_except {E A} (m : M E A) (h : exn -> M E A) : M E A :=
  fun tr =>
    match m tr with
    | (Ok a, tr') => (Ok a, tr')
    | (Raise e, tr') => h e tr'
    end.

(** Records one event. *)
Definition emit {E} (ev : E) : M E unit := fun tr => (Ok tt, tr ++ [ev]).

Definition lift {E A} (o : outcome A) : M E A := fun tr => (o, tr).

Declare Scope py_scope.
Delimit Scope py_scope with py.
Notation "x <- m ;; k" := (bind m (fun x => k))
  (at level 61, m at next level, right associativity) : py_scope.
Notation "m ;;; k" := (bind m (fun _ => k))
  (at level 61, right associativity) : py_scope.

(** *** Dictionaries *)

Fixpoint dict_get {V} (k : str) (d : list (str * V)) : option V :=
  match d with
  | [] => None
  | (k', v) :: d' => if eqb k k' then Some v else dict_get k d'
  end.

(** [d[k] = v]: the value of an existing key is replaced where it stands,
    a new key goes to the end. *)
Fixpoint dict_set {V} (k : str) (v : V) (d : list (str * V))
  : list (str * V) :=
  match d with
  | [] => [(k, v)]
  | (k', v') :: d' =>
      if eqb k k' then (k', v) :: d' else (k', v') :: dict_set k v d'
  end.

Definition dict_has {V} (k : str) (d : list (str * V)) : bool :=
  match dict_get k d with Some _ => true | None => false end.

(** *** Operators on values *)

(** [x == s] for a string [s]. *)
Definition eq_str (x : json) (s : str) : bool :=
  match x with
  | JStr t => eqb t s
  | _ => false
  end.

(** [x in names] for a list of strings. *)
Definition in_strs (x : json) (names : list str) : bool :=
  existsb (eq_str x) names.

(** [key in x]: the keys of a dictionary, the items of a list, the
    substrings of a string; any other value is not iterable. *)
Definition py_in (key : str) (x : json) : outcome bool :=
  match x with
  | JObj d => Ok (dict_has key d)
  | JArr l => Ok (existsb (fun y => eq_str y key) l)
  | JStr s => Ok (contains key s)
  | _ => Raise TypeError
  end.

(** [x[key]] for a string key. *)
Definition py_getitem (x : json) (key : str) : outcome json :=
  match x with
  | JObj d =>
      match dict_get key d with
      | Some v => Ok v
      | None => Raise (KeyError key)
      end
  | _ => Raise TypeError
  end.

(** [x[key] = v] for a string key. *)
Definition py_setitem (x : json) (key : str) (v : json) : outcome json :=
  match x with
  | JObj d => Ok (JObj (dict_set key v d))
  | _ => Raise TypeError
  end.

(** [x.get(key, default)] *)
Definition py_get (x : json) (key : str) (default : json) : outcome json :=
  match x with
  | JObj d =>
      match dict_get key d with
      | Some v => Ok v
      | None => Ok default
      end
  | _ => Raise AttributeError
  end.

(** [not x] *)
Definition falsy (x : json) : bool :=
  match x with
  | JNull => true
  | JBool b => negb b
  | JNum q => Qeq_bool q 0
  | JInt z => Z.eqb z 0
  | JStr [] => true
  | JArr [] => true
  | JObj [] => true
  | _ => false
  end.

(** *** Numbers *)

Definition Qlt_bool (a b : Q) : bool := negb (Qle_bool b a).

(** [min(a, b)]: [b] when [b < a], else [a]. *)
Definition py_min (a b : Q) : Q := if Qlt_bool b a then b else a.

(** [max(a, b)]: [b] when [b > a], else [a]. *)
Definition py_max (a b : Q) : Q := if Qlt_bool a b then b else a.

Definition of_nat (n : nat) : Q := inject_Z (Z.of_nat n).

(** [float(z)] is defined: the integer rounds to a finite float, which
    it does below [2**1024 - 2**970] in absolute value; beyond, the
    conversion raises [OverflowError]. *)
Definition fits_float (z : Z) : bool :=
  (Z.abs z <? 2 ^ 1024 - 2 ^ 970)%Z.

(** [x + y] for a finite float [y].  An [int] is converted to a float
    first, which may overflow; a boolean is an [int]; a non-number raises
    [TypeError]. *)
Definition py_add_float (x : json) (y : Q) : outcome pyfloat :=
  match x with
  | JNum q => Ok (Fin (q + y))
  | JInt z =>
      if fits_float z then Ok (Fin (inject_Z z + y))
      else Raise OverflowError
  | JBool b => Ok (Fin ((if b then 1 else 0) + y))
  | JNaN => Ok NaN
  | JInf negative => Ok (Inf negative)
  | _ => Raise TypeError
  end.

(** [min(a, b)] for a float [a] and a finite float [b]: [b] when [b < a],
    a comparison that is false when [a] is not a number. *)
Definition float_min (a : pyfloat) (b : Q) : pyfloat :=
  match a with
  | Fin q => Fin (py_min q b)
  | NaN => NaN
  | Inf true => Inf true
  | Inf false => Fin b
  end.

(** [max(items, key=key)] on a non-empty sequence [x :: l]: the first of
    the items whose key is the largest. *)
Fixpoint max_by {A} (key : A -> nat) (x : A) (l : list A) : A :=
  match l with
  | [] => x
  | y :: l' => max_by key (if (key x <? key y)%nat then y else x) l'
  end.

(** *** Facts *)

Lemma Qlt_bool_iff (a b : Q) : Qlt_bool a b = true <-> a < b.
Proof.
  unfold Qlt_bool. rewrite negb_true_iff.
  split.
  - intros H. apply Qnot_le_lt. intros Hle.
    apply Qle_bool_iff in Hle. congruence.
  - intros H. destruct (Qle_bool b a) eqn:E; [|reflexivity].
    apply Qle_bool_iff in E. exfalso. now apply (Qlt_not_le a b).
Qed.

Lemma py_min_le_r (a b : Q) : py_min a b <= b.
Proof.
  unfold py_min. destruct (Qlt_bool b a) eqn:E; [apply Qle_refl|].
  apply Qnot_lt_le. intros H. apply Qlt_bool_iff in H. congruence.
Qed.

Lemma py_min_ge (a b c : Q) : c <= a -> c <= b -> c <= py_min a b.
Proof. unfold py_min. now destruct (Qlt_bool b a). Qed.

Lemma py_max_ge_r (a b : Q) : b <= py_max a b.
Proof.
  unfold py_max. destruct (Qlt_bool a b) eqn:E; [apply Qle_refl|].
  apply Qnot_lt_le. intros H. apply Qlt_bool_iff in H. congruence.
Qed.

Lemma py_max_ge_l (a b : Q) : a <= py_max a b.
Proof.
  unfold py_max. destruct (Qlt_bool a b) eqn:E; [|apply Qle_refl].
  apply Qlt_le_weak. now apply Qlt_bool_iff.
Qed.

Lemma py_max_le (a b c : Q) : a <= c -> b <= c -> py_max a b <= c.
Proof. unfold py_max. now destruct (Qlt_bool a b). Qed.


Lemma py_max_Qmax (a b : Q) : py_max a b = Qmax a b.
Proof.
  unfold py_max, Qmax, GenericMinMax.gmax.
  destruct (Qlt_bool a b) eqn:E.
  - apply Qlt_bool_iff in E. now rewrite (proj1 (Qlt_alt a b) E).
  - destruct (a ?= b) eqn:C; try reflexivity.
    pose proof (proj2 (Qlt_alt a b) C) as H.
    apply Qlt_bool_iff in H. congruence.
Qed.

Lemma max_by_in {A} (key : A -> nat) (x : A) (l : list A) :
  In (max_by key x l) (x :: l).
Proof.
  revert x. induction l as [|y l IH]; intros x; simpl; [now left|].
  destruct (IH (if (key x <? key y)%nat then y else x)) as [H|H].
  - rewrite <- H. destruct (key x <? key y)%nat; auto.
  - auto.
Qed.

Lemma max_by_ge {A} (key : A -> nat) (x : A) (l : list A) (y : A) :
  In y (x :: l) -> (key y <= key (max_by key x l))%nat.
Proof.
  revert x y. induction l as [|z l IH]; intros x y H; simpl.
  - destruct H as [<-|[]]. lia.
  - assert (Hx : (key x <= key (if (key x <? key z)%nat then z else x))%nat).
    { destruct (key x <? key z)%nat eqn:E; [apply Nat.ltb_lt in E|]; lia. }
    assert (Hz : (key z <= key (if (key x <? key z)%nat then z else x))%nat).
    { destruct (key x <? key z)%nat eqn:E; [|apply Nat.ltb_ge in E]; lia. }
    pose proof (IH (if (key x <? key z)%nat then z else x)) as IH'.
    destruct H as [<-|[<-|H]].
    + specialize (IH' _ (or_introl eq_refl)). lia.
    + specialize (IH' _ (or_introl eq_refl)). lia.
    + apply IH'. now right.
Qed.

Lemma eqb_eq (a b : str) : eqb a b = true <-> a = b.
Proof.
  revert b. induction a as [|x a IH]; intros [|y b]; simpl;
    try (split; [discriminate|congruence]); [tauto|].
  rewrite andb_true_iff. unfold char_eqb. rewrite N.eqb_eq, IH.
  split; [intros [-> ->]; reflexivity|intros H; inversion H; auto].
Qed.

Lemma eqb_refl (a : str) : eqb a a = true.
Proof. now apply eqb_eq. Qed.

Lemma mem_In (x : str) (l : list str) : mem x l = true <-> In x l.
Proof.
  unfold mem. rewrite existsb_exists. split.
  - intros [y [Hy E]]. apply eqb_eq in E. now subst.
  - intros H. exists x. split; [exact H|apply eqb_refl].
Qed.

Lemma in_strs_In (x : json) (names : list str) :
  in_strs x names = true <-> exists s, x = JStr s /\ In s names.
Proof.
  unfold in_strs. rewrite existsb_exists. split.
  - intros [n [Hn E]]. destruct x; simpl in E; try discriminate.
    apply eqb_eq in E. subst. eauto.
  - intros [s [-> Hs]]. exists s. split; [exact Hs|apply eqb_refl].
Qed.

Lemma dict_get_set_same {V} (k : str) (v : V) (d : list (str * V)) :
  dict_get k (dict_set k v d) = Some v.
Proof.
  induction d as [|[k' v'] d IH]; simpl.
  - now rewrite eqb_refl.
  - destruct (eqb k k') eqn:E; simpl; rewrite E; [reflexivity|exact IH].
Qed.

Lemma dict_get_set_other {V} (k k0 : str) (v : V) (d : list (str * V)) :
  eqb k0 k = false ->
  dict_get k0 (dict_set k v d) = dict_get k0 d.
Proof.
  intros Hne. induction d as [|[k' v'] d IH]; simpl.
  - now rewrite Hne.
  - destruct (eqb k k') eqn:E; simpl.
    + apply eqb_eq in E. subst k'. now rewrite Hne.
    + now rewrite IH.
Qed.

Lemma dict_set_in {V} (k : str) (v : V) (d : list (str * V)) k0 v0 :
  In (k0, v0) (dict_set k v d) ->
  In (k0, v0) d \/ (k0 = k /\ v0 = v).
Proof.
  induction d as [|[k' v'] d IH]; simpl.
  - intros [H|[]]. inversion H. now right.
  - destruct (eqb k k') eqn:E.
    + intros [H|H].
      * inversion H; subst. apply eqb_eq in E. subst. now right.
      * left. now right.
    + intros [H|H]; [left; now left|].
      destruct (IH H) as [H'|H']; [left; now right|now right].
Qed.

Lemma dict_has_In {V} (k : str) (d : list (str * V)) :
  dict_has k d = true <-> In k (List.map fst d).
Proof.
  unfold dict_has. induction d as [|[k' v'] d IH]; simpl.
  - split; [discriminate|tauto].
  - destruct (eqb k k') eqn:E.
    + apply eqb_eq in E. subst. split; auto.
    + rewrite IH. split; [auto|].
      intros [H|H]; [|exact H]. subst. rewrite eqb_refl in E. discriminate.
Qed.

End Py.

(* ================================================================= *)
(** ** The basic classifier: [RAGClassifier] of app.py *)

Module Basic.

Import PyStr Py.
Local Open Scope py_scope.

(** The keys of the [severity_scores] dictionary. *)
Inductive severity_key : Type := low | medium | high | critical.

(** An entry of [categories.json].  The file is not part of the sources;
    the entry has the fields the code reads ([name], [keywords],
    [severity_indicators]), the indicators being keyed by severity level
    as the data model states. *)
Record Category : Type := {
  name : str;
  keywords : list str;
  severity_indicators : list (severity_key * list str)
}.

(** [severity_scores = {'low': 0, 'medium': 0, 'high': 0, 'critical': 0}] *)
Record severity_scores : Type := {
  n_low : nat;
  n_medium : nat;
  n_high : nat;
  n_critical : nat
}.

Definition severity_scores0 : severity_scores :=
  {| n_low := 0; n_medium := 0; n_high := 0; n_critical := 0 |}.

Definition score_of (k : severity_key) (s : severity_scores) : nat :=
  match k with
  | low => n_low s
  | medium => n_medium s
  | high => n_high s
  | critical => n_critical s
  end.

(** [severity_scores[k] += 1] *)
Definition incr (k : severity_key) (s : severity_scores) : severity_scores :=
  match k with
  | low => {| n_low := S (n_low s); n_medium := n_medium s;
              n_high := n_high s; n_critical := n_critical s |}
  | medium => {| n_low := n_low s; n_medium := S (n_medium s);
                 n_high := n_high s; n_critical := n_critical s |}
  | high => {| n_low := n_low s; n_medium := n_medium s;
               n_high := S (n_high s); n_critical := n_critical s |}
  | critical => {| n_low := n_low s; n_medium := n_medium s;
                   n_high := n_high s; n_critical := S (n_critical s) |}
  end.

(** [severity_scores.items()], in insertion order. *)
Definition items (s : severity_scores) : list (severity_key * nat) :=
  [(low, n_low s); (medium, n_medium s); (high, n_high s);
   (critical, n_critical s)].

(** [k.capitalize()] on the four keys. *)
Definition capitalize (k : severity_key) : str :=
  match k with
  | low => lit "Low"
  | medium => lit "Medium"
  | high => lit "High"
  | critical => lit "Critical"
  end.

(** [valid_severities = ['Low', 'Medium', 'High', 'Critical']] *)
Definition valid_severities : list str :=
  [lit "Low"; lit "Medium"; lit "High"; lit "Critical"].

(** The value of [category_scores[name]]: the score and the keywords. *)
Definition category_score : Type := (nat * list str)%type.

(** The dictionary [keyword_classification] returns. *)
Record keyword_result : Type := {
  kr_category : str;
  kr_severity : str;
  kr_confidence : Q;
  kr_matched_keywords : list str;
  kr_category_scores : list (str * category_score);
  kr_severity_scores : severity_scores
}.

(** The [extractedInfo] of a response, one shape per branch. *)
Inductive extracted_info : Type :=
| InfoKeyword (matched_keywords : list str)
              (category_scores : list (str * category_score))
| InfoHybrid (openai_result : json) (keyword_result : keyword_result)
| InfoFallback (matched_keywords : list str) (note : str).

(** [extractedInfo['method']] *)
Definition method (i : extracted_info) : str :=
  match i with
  | InfoKeyword _ _ => lit "keyword"
  | InfoHybrid _ _ => lit "hybrid"
  | InfoFallback _ _ => lit "keyword_fallback"
  end.

(** The dictionary [hybrid_classification] returns. *)
Record response : Type := {
  success : bool;
  category : json;
  severity : json;
  confidence : json;
  extractedInfo : extracted_info
}.

(** What one call of [openai.ChatCompletion.create] is made of: the
    fields of the prompt. *)
Record llm_request : Type := {
  rq_title : str;
  rq_description : str;
  rq_location : str;
  rq_category_names : list str
}.

(** What the call gives: it raises, or
    [response.choices[0].message.content] is a string. *)
Inductive completion : Type :=
| NoCompletion
| Completion (content : str).

(** [if self.openai_api_key:] *)
Definition configured (key : option str) : bool :=
  match key with
  | Some (_ :: _) => true
  | _ => false
  end.

Section Classifier.

Variable uni_lower : str -> str.
Variable uni_isalnum : char -> bool.
Variable uni_isspace : char -> bool.

(** [self.categories], [self.openai_api_key] *)
Variable categories : list Category.
Variable openai_api_key : option str.

(** The text-generation service and [json.loads]. *)
Variable chat_completion : llm_request -> completion.
Variable json_loads : str -> option json.

(** [kw.lower() in processed_text] *)
Definition occurs (processed_text kw : str) : bool :=
  contains (uni_lower kw) processed_text.

(** The keywords of a category that occur, in the order of the table. *)
Definition match_keywords (processed_text : str) (kws : list str)
  : list str :=
  filter (occurs processed_text) kws.

(** The inner loops over [category['severity_indicators'].items()]. *)
Definition tally_indicators (processed_text : str)
  (inds : list (severity_key * list str)) (scores : severity_scores)
  : severity_scores :=
  fold_left
    (fun acc (entry : severity_key * list str) =>
       fold_left
         (fun acc indicator =>
            if occurs processed_text indicator
            then incr (fst entry) acc else acc)
         (snd entry) acc)
    inds scores.

(** The body of [for category in self.categories]. *)
Definition scan_category (processed_text : str)
  (st : list (str * category_score) * severity_scores) (c : Category)
  : list (str * category_score) * severity_scores :=
  let matched_keywords := match_keywords processed_text (keywords c) in
  let score := List.length matched_keywords in
  let severity_scores :=
    tally_indicators processed_text (severity_indicators c) (snd st) in
  let category_scores :=
    if (0 <? score)%nat
    then dict_set (name c) (score, matched_keywords) (fst st)
    else fst st in
  (category_scores, severity_scores).

Definition scan (processed_text : str)
  : list (str * category_score) * severity_scores :=
  fold_left (scan_category processed_text) categories
    ([], severity_scores0).

(** [max(category_scores.items(), key=lambda x: x[1]['score'])], with the
    defaults of the empty dictionary. *)
Definition best_of (category_scores : list (str * category_score))
  : str * category_score :=
  match category_scores with
  | [] => (lit "Other", (0%nat, []))
  | x :: l => max_by (fun x => fst (snd x)) x l
  end.

(** [max(severity_scores.items(), key=lambda x: x[1])] *)
Definition best_severity_of (s : severity_scores) : severity_key * nat :=
  max_by snd (low, n_low s)
    [(medium, n_medium s); (high, n_high s); (critical, n_critical s)].

(** [min(best_score / max(total_words * 0.1, 1), 1.0)
     if total_words > 0 else 0] *)
Definition confidence_of (best_score total_words : nat) : Q :=
  if (0 <? total_words)%nat
  then py_min (of_nat best_score / py_max (of_nat total_words * (1 # 10)) 1) 1
  else 0.

(** [RAGClassifier.keyword_classification] *)
Definition keyword_classification (title description : str)
  : keyword_result :=
  let text := title ++ [SPACE] ++ description in
  let processed_text := preprocess_text uni_lower uni_isalnum uni_isspace text in
  let st := scan processed_text in
  let category_scores := fst st in
  let severity_scores := snd st in
  let best := best_of category_scores in
  let best_category := fst best in
  let best_score := fst (snd best) in
  let matched_keywords := snd (snd best) in
  let best_severity := best_severity_of severity_scores in
  let severity :=
    if (0 <? snd best_severity)%nat
    then capitalize (fst best_severity) else lit "Medium" in
  let total_words := List.length (split uni_isspace processed_text) in
  {| kr_category := best_category;
     kr_severity := severity;
     kr_confidence := confidence_of best_score total_words;
     kr_matched_keywords := matched_keywords;
     kr_category_scores := category_scores;
     kr_severity_scores := severity_scores |}.

Definition category_names : list str := List.map name categories.

Definition request_of (title description location : str) : llm_request :=
  {| rq_title := title; rq_description := description;
     rq_location := location; rq_category_names := category_names |}.

(** The part of [openai_classification] from [# Validate response] to
    [return result]. *)
Definition validate_response (result : json) : M llm_request json :=
  has_category <- lift (py_in (lit "category") result) ;;
  invalid <-
    (if negb has_category then ret true
     else has_severity <- lift (py_in (lit "severity") result) ;;
          ret (negb has_severity)) ;;
  if invalid : bool
  then raise (ValueError (lit "Invalid response format from OpenAI"))
  else
    cat <- lift (py_getitem result (lit "category")) ;;
    result <-
      (if negb (in_strs cat category_names)
       then lift (py_setitem result (lit "category") (JStr (lit "Other")))
       else ret result) ;;
    sev <- lift (py_getitem result (lit "severity")) ;;
    result <-
      (if negb (in_strs sev valid_severities)
       then lift (py_setitem result (lit "severity") (JStr (lit "Medium")))
       else ret result) ;;
    result <- lift (py_setitem result (lit "method") (JStr (lit "openai"))) ;;
    ret result.

(** The body of the [try] of [openai_classification]. *)
Definition openai_classification_body (title description location : str)
  : M llm_request json :=
  emit (request_of title description location) ;;;
  content <- lift
    match chat_completion (request_of title description location) with
    | Completion c => Ok (strip uni_isspace c)
    | NoCompletion => Raise ServiceError
    end ;;
  result <- lift
    match json_loads content with
    | Some j => Ok j
    | None => Raise JSONDecodeError
    end ;;
  validate_response result.

(** [RAGClassifier.openai_classification] *)
Definition openai_classification (title description location : str)
  : M llm_request json :=
  if negb (configured openai_api_key)
  then raise (Exception (lit "OpenAI API key not configured"))
  else
    try_except (openai_classification_body title description location)
      (fun e =>
         match e with
         | JSONDecodeError =>
             raise (Exception (lit "Invalid response format from OpenAI"))
         | _ => raise e
         end).

(** The first [return] of [hybrid_classification]. *)
Definition keyword_response (kr : keyword_result) : response :=
  {| success := true;
     category := JStr (kr_category kr);
     severity := JStr (kr_severity kr);
     confidence := JNum (kr_confidence kr);
     extractedInfo :=
       InfoKeyword (kr_matched_keywords kr) (kr_category_scores kr) |}.

(** The last [return] of [hybrid_classification]. *)
Definition fallback_response (kr : keyword_result) : response :=
  {| success := true;
     category := JStr (kr_category kr);
     severity := JStr (kr_severity kr);
     confidence := JNum (py_max (kr_confidence kr) (3 # 10));
     extractedInfo :=
       InfoFallback (kr_matched_keywords kr)
         (lit "OpenAI classification failed, using keyword-based classification") |}.

(** The body of the [try] of [hybrid_classification]. *)
Definition hybrid_openai (kr : keyword_result)
  (title description location : str) : M llm_request response :=
  openai_result <- openai_classification title description location ;;
  final_category <- lift (py_getitem openai_result (lit "category")) ;;
  final_severity <- lift (py_getitem openai_result (lit "severity")) ;;
  final_confidence <-
    lift (py_get openai_result (lit "confidence") (JNum (8 # 10))) ;;
  openai_category <- lift (py_getitem openai_result (lit "category")) ;;
  final_confidence <-
    (if eq_str openai_category (kr_category kr)
     then boosted <- lift (py_add_float final_confidence (2 # 10)) ;;
          ret (of_float (float_min boosted 1))
     else ret final_confidence) ;;
  ret {| success := true;
         category := final_category;
         severity := final_severity;
         confidence := final_confidence;
         extractedInfo := InfoHybrid openai_result kr |}.

(** [RAGClassifier.hybrid_classification] *)
Definition hybrid_classification (title description location : str)
  : M llm_request response :=
  let keyword_result := keyword_classification title description in
  if Qle_bool (7 # 10) (kr_confidence keyword_result)
  then ret (keyword_response keyword_result)
  else
    answer <-
      (if configured openai_api_key
       then try_except
              (r <- hybrid_openai keyword_result title description location ;;
               ret (Some r))
              (fun _ => ret None)
       else ret None) ;;
    match answer with
    | Some r => ret r
    | None => ret (fallback_response keyword_result)
    end.

End Classifier.

(** *** The keyword classifier *)


Definition severity_key_eqb (a b : severity_key) : bool :=
  match a, b with
  | low, low | medium, medium | high, high | critical, critical => true
  | _, _ => false
  end.

Section KeywordProperties.

Variable uni_lower : str -> str.
Variable uni_isalnum : char -> bool.
Variable uni_isspace : char -> bool.
Variable categories : list Category.

(** The number of indicators of level [k] that occur in the text, over the
    whole catalog. *)
Definition indicator_hits (processed_text : str) (k : severity_key)
  (inds : list (severity_key * list str)) : nat :=
  list_sum
    (List.map
       (fun entry : severity_key * list str =>
          if severity_key_eqb (fst entry) k
          then List.length (filter (occurs uni_lower processed_text) (snd entry))
          else 0%nat)
       inds).

Definition indicator_count (processed_text : str) (k : severity_key) : nat :=
  list_sum
    (List.map
       (fun c => indicator_hits processed_text k (severity_indicators c))
       categories).

Lemma of_nat_nonneg (n : nat) : 0 <= of_nat n.
Proof.
  unfold of_nat, Qle. simpl. lia.
Qed.

Lemma confidence_of_range (best_score total_words : nat) :
  0 <= confidence_of best_score total_words
  /\ confidence_of best_score total_words <= 1.
Proof.
  unfold confidence_of.
  destruct (0 <? total_words)%nat; [|split; [apply Qle_refl|discriminate]].
  split; [|apply py_min_le_r].
  apply py_min_ge; [|discriminate].
  assert (Hd : 0 < py_max (of_nat total_words * (1 # 10)) 1).
  { apply Qlt_le_trans with 1; [reflexivity|apply py_max_ge_r]. }
  apply Qle_shift_div_l; [exact Hd|].
  rewrite Qmult_0_l. apply of_nat_nonneg.
Qed.




(** What [category_scores] holds while the catalog is scanned: under the
    name of a category, its matched keywords and their number, which is
    not zero. *)
Definition scores_sound (processed_text : str)
  (d : list (str * category_score)) : Prop :=
  forall k v, In (k, v) d ->
    exists c, In c categories /\ name c = k
      /\ snd v = match_keywords uni_lower processed_text (keywords c)
      /\ fst v = List.length (snd v)
      /\ snd v <> [].

Lemma scan_category_sound (p : str) st (c : Category) :
  In c categories -> scores_sound p (fst st) ->
  scores_sound p (fst (scan_category uni_lower p st c)).
Proof.
  intros Hc Hst. unfold scan_category. cbn [fst].
  destruct (0 <? List.length (match_keywords uni_lower p (keywords c)))%nat
    eqn:E; [|exact Hst].
  intros k v Hin. apply dict_set_in in Hin as [Hin|[-> ->]].
  - now apply Hst.
  - exists c. cbn [fst snd]. repeat split; try assumption; try reflexivity.
    intros Hnil. rewrite Hnil in E. discriminate.
Qed.

Lemma scan_fold_sound (p : str) (l : list Category) st :
  (forall c, In c l -> In c categories) -> scores_sound p (fst st) ->
  scores_sound p (fst (fold_left (scan_category uni_lower p) l st)).
Proof.
  revert st. induction l as [|c l IH]; intros st Hl Hst; [exact Hst|].
  simpl. apply IH.
  - intros x Hx. apply Hl. now right.
  - apply scan_category_sound; [apply Hl; now left|exact Hst].
Qed.

Lemma scan_sound (p : str) :
  scores_sound p (fst (scan uni_lower categories p)).
Proof.
  unfold scan. apply scan_fold_sound; [auto|].
  intros k v [].
Qed.

(** The counters of [severity_scores] after the scan are the numbers of
    indicators that occur. *)
Lemma score_of_incr (k key : severity_key) (s : severity_scores) :
  score_of k (incr key s)
  = (score_of k s + if severity_key_eqb key k then 1 else 0)%nat.
Proof. destruct k, key; simpl; lia. Qed.

Lemma tally_level (p : str) (k key : severity_key) (l : list str)
  (acc : severity_scores) :
  score_of k
    (fold_left
       (fun acc indicator =>
          if occurs uni_lower p indicator then incr key acc else acc) l acc)
  = (score_of k acc
     + if severity_key_eqb key k
       then List.length (filter (occurs uni_lower p) l) else 0)%nat.
Proof.
  revert acc. induction l as [|x l IH]; intros acc; simpl.
  - destruct (severity_key_eqb key k); lia.
  - rewrite IH. destruct (occurs uni_lower p x).
    + rewrite score_of_incr. destruct (severity_key_eqb key k); simpl; lia.
    + reflexivity.
Qed.

Lemma tally_indicators_spec (p : str) (k : severity_key)
  (inds : list (severity_key * list str)) (acc : severity_scores) :
  score_of k (tally_indicators uni_lower p inds acc)
  = (score_of k acc + indicator_hits p k inds)%nat.
Proof.
  unfold tally_indicators, indicator_hits.
  revert acc. induction inds as [|e inds IH]; intros acc; simpl; [lia|].
  rewrite IH, tally_level. lia.
Qed.

Lemma scan_fold_tally (p : str) (k : severity_key) (l : list Category) st :
  score_of k (snd (fold_left (scan_category uni_lower p) l st))
  = (score_of k (snd st)
     + list_sum
         (List.map (fun c => indicator_hits p k (severity_indicators c)) l))%nat.
Proof.
  revert st. induction l as [|c l IH]; intros st; [simpl; lia|].
  cbn [fold_left List.map list_sum fold_right].
  rewrite IH. unfold scan_category. cbn [snd].
  rewrite tally_indicators_spec. unfold list_sum. lia.
Qed.

Lemma scan_tally (p : str) (k : severity_key) :
  score_of k (snd (scan uni_lower categories p)) = indicator_count p k.
Proof.
  unfold scan, indicator_count. rewrite scan_fold_tally.
  destruct k; reflexivity.
Qed.

Lemma best_severity_of_in (s : severity_scores) :
  snd (best_severity_of s) = score_of (fst (best_severity_of s)) s.
Proof.
  unfold best_severity_of.
  pose proof (max_by_in snd (low, n_low s)
                [(medium, n_medium s); (high, n_high s);
                 (critical, n_critical s)]) as H.
  destruct H as [H|[H|[H|[H|[]]]]]; rewrite <- H; reflexivity.
Qed.

Lemma best_severity_of_max (s : severity_scores) (k : severity_key) :
  (score_of k s <= snd (best_severity_of s))%nat.
Proof.
  unfold best_severity_of.
  apply (@max_by_ge _ snd (low, n_low s)
           [(medium, n_medium s); (high, n_high s); (critical, n_critical s)]
           (k, score_of k s)).
  destruct k; simpl; auto 6.
Qed.

Lemma capitalize_valid (k : severity_key) : In (capitalize k) valid_severities.
Proof. destruct k; simpl; auto. Qed.

(** The severity of the keyword classifier. *)
Lemma keyword_severity (title description : str) :
  let r := keyword_classification uni_lower uni_isalnum uni_isspace
             categories title description in
  let p := preprocess_text uni_lower uni_isalnum uni_isspace
             (title ++ [SPACE] ++ description) in
  In (kr_severity r) valid_severities
  /\ ((forall k, indicator_count p k = 0%nat) ->
      kr_severity r = lit "Medium")
  /\ ((exists k, indicator_count p k <> 0%nat) ->
      exists k, kr_severity r = capitalize k
        /\ indicator_count p k <> 0%nat
        /\ forall k', (indicator_count p k' <= indicator_count p k)%nat).
Proof.
  intros r p. unfold r, keyword_classification. cbn [kr_severity]. fold p.
  set (sc := snd (scan uni_lower categories p)).
  pose proof (best_severity_of_in sc) as Hin.
  pose proof (best_severity_of_max sc) as Hmax.
  unfold sc in Hin, Hmax. rewrite scan_tally in Hin.
  assert (Hmax' : forall k, (indicator_count p k
            <= snd (best_severity_of (snd (scan uni_lower categories p))))%nat).
  { intros k. rewrite <- scan_tally. apply Hmax. }
  fold sc in Hin, Hmax'. clear Hmax.
  destruct (0 <? snd (best_severity_of sc))%nat eqn:E.
  - apply Nat.ltb_lt in E. repeat split.
    + apply capitalize_valid.
    + intros Hz. rewrite Hin, Hz in E. lia.
    + intros _. exists (fst (best_severity_of sc)). repeat split.
      * lia.
      * intros k'. rewrite <- Hin. apply Hmax'.
  - apply Nat.ltb_ge in E. repeat split.
    + simpl. auto.
    + intros [k Hk]. specialize (Hmax' k). lia.
Qed.

(** The best category of the keyword classifier. *)
Lemma best_of_cases (d : list (str * category_score)) :
  (d = [] /\ best_of d = (lit "Other", (0%nat, [])))
  \/ (In (best_of d) d
      /\ forall e, In e d -> (fst (snd e) <= fst (snd (best_of d)))%nat).
Proof.
  destruct d as [|x l]; [now left|right].
  unfold best_of. split.
  - apply max_by_in.
  - intros e He. now apply (@max_by_ge _ (fun x => fst (snd x)) x l e).
Qed.

Lemma keyword_category (title description : str) :
  let r := keyword_classification uni_lower uni_isalnum uni_isspace
             categories title description in
  let p := preprocess_text uni_lower uni_isalnum uni_isspace
             (title ++ [SPACE] ++ description) in
  (kr_category r = lit "Other" /\ kr_matched_keywords r = []
   /\ kr_category_scores r = [])
  \/ (exists c, In c categories /\ name c = kr_category r
      /\ kr_matched_keywords r = match_keywords uni_lower p (keywords c)
      /\ kr_matched_keywords r <> []).
Proof.
  intros r p. unfold r, keyword_classification.
  cbn [kr_category kr_matched_keywords kr_category_scores]. fold p.
  pose proof (scan_sound p) as Hs.
  destruct (best_of_cases (fst (scan uni_lower categories p)))
    as [[Hnil Hb]|[Hin _]].
  - left. rewrite Hb, Hnil. auto.
  - right.
    destruct (best_of (fst (scan uni_lower categories p))) as [k v] eqn:Eb.
    destruct (Hs k v Hin) as [c [Hc [Hn [Hm [_ Hne]]]]].
    exists c. cbn [fst snd]. rewrite <- Hm. auto.
Qed.


Lemma keyword_confidence_range (title description : str) :
  let r := keyword_classification uni_lower uni_isalnum uni_isspace
             categories title description in
  0 <= kr_confidence r /\ kr_confidence r <= 1.
Proof.
  intros r. unfold r, keyword_classification. cbn [kr_confidence].
  apply confidence_of_range.
Qed.

End KeywordProperties.

(** *** The adapter of the text-generation service *)

(** The payload is an object that has the field [k]. *)
Definition has_field (j : json) (k : str) : bool :=
  match j with
  | JObj d => dict_has k d
  | _ => false
  end.

Section AdapterProperties.

Variable uni_lower : str -> str.
Variable uni_isalnum : char -> bool.
Variable uni_isspace : char -> bool.
Variable categories : list Category.
Variable openai_api_key : option str.
Variable chat_completion : llm_request -> completion.
Variable json_loads : str -> option json.

Local Abbreviation names := (category_names categories).
Local Abbreviation adapter :=
  (openai_classification uni_isspace categories openai_api_key
     chat_completion json_loads).
Local Abbreviation request := (request_of categories).

(** The two coercions of the adapter, on the dictionary. *)
Definition coerce_category (cat : json) (d : list (str * json))
  : list (str * json) :=
  if in_strs cat names then d
  else dict_set (lit "category") (JStr (lit "Other")) d.

Definition coerce_severity (sev : json) (d : list (str * json))
  : list (str * json) :=
  if in_strs sev valid_severities then d
  else dict_set (lit "severity") (JStr (lit "Medium")) d.

Definition validated (cat sev : json) (d : list (str * json))
  : list (str * json) :=
  dict_set (lit "method") (JStr (lit "openai"))
    (coerce_severity sev (coerce_category cat d)).

Lemma validated_category (cat sev : json) (d : list (str * json)) :
  dict_get (lit "category") d = Some cat ->
  dict_get (lit "category") (validated cat sev d)
  = Some (if in_strs cat names then cat else JStr (lit "Other")).
Proof.
  intros H. unfold validated, coerce_severity, coerce_category.
  rewrite dict_get_set_other by reflexivity.
  destruct (in_strs sev valid_severities), (in_strs cat names);
    rewrite ?(@dict_get_set_other _ (lit "severity")) by reflexivity;
    rewrite ?dict_get_set_same; auto.
Qed.

Lemma validated_severity (cat sev : json) (d : list (str * json)) :
  dict_get (lit "severity") d = Some sev ->
  dict_get (lit "severity") (validated cat sev d)
  = Some (if in_strs sev valid_severities then sev else JStr (lit "Medium")).
Proof.
  intros H. unfold validated, coerce_severity, coerce_category.
  rewrite dict_get_set_other by reflexivity.
  destruct (in_strs sev valid_severities), (in_strs cat names);
    rewrite ?dict_get_set_same; auto;
    rewrite ?(@dict_get_set_other _ (lit "category")) by reflexivity; auto.
Qed.

Lemma validated_confidence (cat sev : json) (d : list (str * json)) :
  dict_get (lit "confidence") (validated cat sev d)
  = dict_get (lit "confidence") d.
Proof.
  unfold validated, coerce_severity, coerce_category.
  rewrite dict_get_set_other by reflexivity.
  destruct (in_strs sev valid_severities), (in_strs cat names);
    rewrite ?(@dict_get_set_other _ (lit "severity")) by reflexivity;
    rewrite ?(@dict_get_set_other _ (lit "category")) by reflexivity;
    reflexivity.
Qed.

Lemma validate_response_ok (d : list (str * json)) (cat sev : json)
  (tr : list llm_request) :
  dict_get (lit "category") d = Some cat ->
  dict_get (lit "severity") d = Some sev ->
  validate_response categories (JObj d) tr
  = (Ok (JObj (validated cat sev d)), tr).
Proof.
  intros Hc Hs.
  unfold validate_response, bind, lift, ret, raise, py_in, py_getitem,
    py_setitem, dict_has.
  rewrite Hc, Hs. cbn [negb].
  unfold validated, coerce_severity, coerce_category.
  destruct (in_strs cat names); cbn [negb].
  - rewrite Hs. destruct (in_strs sev valid_severities); reflexivity.
  - rewrite dict_get_set_other by reflexivity. rewrite Hs.
    destruct (in_strs sev valid_severities); reflexivity.
Qed.

Lemma validate_response_fail (j : json) (tr : list llm_request) :
  has_field j (lit "category") && has_field j (lit "severity") = false ->
  exists e, validate_response categories j tr = (Raise e, tr).
Proof.
  intros H.
  unfold validate_response, bind, lift, ret, raise, py_in, py_getitem.
  destruct j as [| b | q | s | l | d | z | | n]; cbn [has_field andb] in H;
    try (eexists; reflexivity).
  - destruct (contains (lit "category") s); cbn [negb];
      [|eexists; reflexivity].
    destruct (contains (lit "severity") s); cbn [negb]; eexists; reflexivity.
  - destruct (existsb (fun y => eq_str y (lit "category")) l); cbn [negb];
      [|eexists; reflexivity].
    destruct (existsb (fun y => eq_str y (lit "severity")) l); cbn [negb];
      eexists; reflexivity.
  - destruct (dict_has (lit "category") d); cbn [negb andb] in *;
      [|eexists; reflexivity].
    rewrite H. cbn [negb]. eexists; reflexivity.
Qed.

Lemma has_field_get (j : json) (k : str) :
  has_field j k = true <->
  exists d v, j = JObj d /\ dict_get k d = Some v.
Proof.
  split.
  - destruct j; simpl; try discriminate. unfold dict_has.
    destruct (dict_get k fields) eqn:E; [eauto|discriminate].
  - intros [d [v [-> E]]]. simpl. unfold dict_has. now rewrite E.
Qed.

Lemma adapter_unconfigured title description location tr :
  configured openai_api_key = false ->
  adapter title description location tr
  = (Raise (Exception (lit "OpenAI API key not configured")), tr).
Proof. intros H. unfold openai_classification. now rewrite H. Qed.

Lemma adapter_transport title description location tr :
  configured openai_api_key = true ->
  chat_completion (request title description location) = NoCompletion ->
  adapter title description location tr
  = (Raise ServiceError, tr ++ [request title description location]).
Proof.
  intros Hk Hc. unfold openai_classification. rewrite Hk. cbn [negb].
  unfold try_except, openai_classification_body, bind, emit, lift.
  now rewrite Hc.
Qed.

Lemma adapter_malformed title description location content tr :
  configured openai_api_key = true ->
  chat_completion (request title description location) = Completion content ->
  json_loads (strip uni_isspace content) = None ->
  adapter title description location tr
  = (Raise (Exception (lit "Invalid response format from OpenAI")),
     tr ++ [request title description location]).
Proof.
  intros Hk Hc Hj. unfold openai_classification. rewrite Hk. cbn [negb].
  unfold try_except, openai_classification_body, bind, emit, lift.
  now rewrite Hc, Hj.
Qed.

Lemma adapter_parsed title description location content j tr :
  configured openai_api_key = true ->
  chat_completion (request title description location) = Completion content ->
  json_loads (strip uni_isspace content) = Some j ->
  adapter title description location tr
  = match validate_response categories j
            (tr ++ [request title description location]) with
    | (Ok r, tr') => (Ok r, tr')
    | (Raise JSONDecodeError, tr') =>
        (Raise (Exception (lit "Invalid response format from OpenAI")), tr')
    | (Raise e, tr') => (Raise e, tr')
    end.
Proof.
  intros Hk Hc Hj. unfold openai_classification. rewrite Hk. cbn [negb].
  unfold try_except, openai_classification_body, bind, emit, lift.
  rewrite Hc, Hj.
  destruct (validate_response categories j
              (tr ++ [request title description location])) as [[r|e] tr'];
    [reflexivity|].
  destruct e; reflexivity.
Qed.

Lemma adapter_ok title description location content d cat sev tr :
  configured openai_api_key = true ->
  chat_completion (request title description location) = Completion content ->
  json_loads (strip uni_isspace content) = Some (JObj d) ->
  dict_get (lit "category") d = Some cat ->
  dict_get (lit "severity") d = Some sev ->
  adapter title description location tr
  = (Ok (JObj (validated cat sev d)),
     tr ++ [request title description location]).
Proof.
  intros Hk Hc Hj Hcat Hsev.
  erewrite adapter_parsed by eassumption.
  erewrite validate_response_ok by eassumption. reflexivity.
Qed.

Lemma adapter_lacking title description location content j tr :
  configured openai_api_key = true ->
  chat_completion (request title description location) = Completion content ->
  json_loads (strip uni_isspace content) = Some j ->
  has_field j (lit "category") && has_field j (lit "severity") = false ->
  exists e, adapter title description location tr
            = (Raise e, tr ++ [request title description location]).
Proof.
  intros Hk Hc Hj Hf.
  erewrite adapter_parsed by eassumption.
  destruct (validate_response_fail j
              (tr ++ [request title description location]) Hf) as [e He].
  rewrite He. destruct e; eexists; reflexivity.
Qed.

(** Every way the adapter returns a result. *)
Lemma adapter_inversion title description location tr r tr' :
  adapter title description location tr = (Ok r, tr') ->
  exists content d cat sev,
    configured openai_api_key = true
    /\ chat_completion (request title description location)
       = Completion content
    /\ json_loads (strip uni_isspace content) = Some (JObj d)
    /\ dict_get (lit "category") d = Some cat
    /\ dict_get (lit "severity") d = Some sev
    /\ r = JObj (validated cat sev d)
    /\ tr' = tr ++ [request title description location].
Proof.
  intros H.
  destruct (configured openai_api_key) eqn:Hk;
    [|rewrite adapter_unconfigured in H by assumption; discriminate].
  destruct (chat_completion (request title description location))
    as [|content] eqn:Hc;
    [rewrite adapter_transport in H by assumption; discriminate|].
  destruct (json_loads (strip uni_isspace content)) as [j|] eqn:Hj;
    [|erewrite adapter_malformed in H by eassumption; discriminate].
  destruct (has_field j (lit "category") && has_field j (lit "severity"))
    eqn:Hf.
  - apply andb_true_iff in Hf as [Hf1 Hf2].
    apply has_field_get in Hf1 as [d [cat [-> Hcat]]].
    apply has_field_get in Hf2 as [d' [sev [E Hsev]]].
    inversion E; subst d'.
    erewrite adapter_ok in H by eassumption.
    inversion H; subst.
    exists content, d, cat, sev. repeat split; assumption.
  - destruct (@adapter_lacking title description location content j tr
                Hk Hc Hj Hf) as [e He].
    rewrite He in H. discriminate.
Qed.

End AdapterProperties.

(** *** The arbiter *)

(** [openai_result.get('confidence', 0.8)] *)
Definition llm_confidence (r : list (str * json)) : json :=
  match dict_get (lit "confidence") r with
  | Some v => v
  | None => JNum (8 # 10)
  end.

(** The second [return] of [hybrid_classification]. *)
Definition hybrid_response (kr : keyword_result) (r : list (str * json))
  (cat sev conf : json) : response :=
  {| success := true; category := cat; severity := sev; confidence := conf;
     extractedInfo := InfoHybrid (JObj r) kr |}.

(** A category of the catalog, or the default one. *)
Definition valid_category (categories : list Category) (j : json) : Prop :=
  exists c, j = JStr c /\ (In c (category_names categories) \/ c = lit "Other").

Definition valid_severity (j : json) : Prop :=
  exists s, j = JStr s /\ In s valid_severities.

Section ArbiterProperties.

Variable uni_lower : str -> str.
Variable uni_isalnum : char -> bool.
Variable uni_isspace : char -> bool.
Variable categories : list Category.
Variable openai_api_key : option str.
Variable chat_completion : llm_request -> completion.
Variable json_loads : str -> option json.

Local Abbreviation kc :=
  (keyword_classification uni_lower uni_isalnum uni_isspace categories).
Local Abbreviation adapter :=
  (openai_classification uni_isspace categories openai_api_key
     chat_completion json_loads).
Local Abbreviation hybrid :=
  (hybrid_classification uni_lower uni_isalnum uni_isspace categories
     openai_api_key chat_completion json_loads).

Lemma hybrid_high title description location tr :
  Qle_bool (7 # 10) (kr_confidence (kc title description)) = true ->
  hybrid title description location tr
  = (Ok (keyword_response (kc title description)), tr).
Proof.
  intros H. unfold hybrid_classification. now rewrite H.
Qed.

Lemma hybrid_unconfigured title description location tr :
  Qle_bool (7 # 10) (kr_confidence (kc title description)) = false ->
  configured openai_api_key = false ->
  hybrid title description location tr
  = (Ok (fallback_response (kc title description)), tr).
Proof.
  intros H Hk. unfold hybrid_classification. rewrite H, Hk. reflexivity.
Qed.

Lemma hybrid_adapter_fail title description location tr e tr' :
  Qle_bool (7 # 10) (kr_confidence (kc title description)) = false ->
  configured openai_api_key = true ->
  adapter title description location tr = (Raise e, tr') ->
  hybrid title description location tr
  = (Ok (fallback_response (kc title description)), tr').
Proof.
  intros H Hk Ha. unfold hybrid_classification. rewrite H, Hk.
  unfold bind, try_except, hybrid_openai, bind. rewrite Ha. reflexivity.
Qed.

Lemma hybrid_adapter_ok title description location tr r cat sev tr' :
  Qle_bool (7 # 10) (kr_confidence (kc title description)) = false ->
  configured openai_api_key = true ->
  adapter title description location tr = (Ok (JObj r), tr') ->
  dict_get (lit "category") r = Some cat ->
  dict_get (lit "severity") r = Some sev ->
  hybrid title description location tr
  = if eq_str cat (kr_category (kc title description))
    then match py_add_float (llm_confidence r) (2 # 10) with
         | Ok q =>
             (Ok (hybrid_response (kc title description) r cat sev
                    (of_float (float_min q 1))), tr')
         | Raise _ => (Ok (fallback_response (kc title description)), tr')
         end
    else (Ok (hybrid_response (kc title description) r cat sev
                (llm_confidence r)), tr').
Proof.
  intros H Hk Ha Hcat Hsev. unfold hybrid_classification. rewrite H, Hk.
  unfold bind, try_except, hybrid_openai, bind. rewrite Ha.
  unfold lift, ret, py_getitem, py_get, llm_confidence.
  rewrite Hcat, Hsev.
  destruct (dict_get (lit "confidence") r) as [v|];
    destruct (eq_str cat (kr_category (kc title description)));
    try reflexivity.
  - destruct (py_add_float v (2 # 10)); reflexivity.
Qed.

Lemma keyword_category_valid title description :
  valid_category categories (JStr (kr_category (kc title description))).
Proof.
  exists (kr_category (kc title description)). split; [reflexivity|].
  destruct (keyword_category uni_lower uni_isalnum uni_isspace categories
              title description) as [[H _]|[c [Hc [Hn _]]]].
  - now right.
  - left. rewrite <- Hn. unfold category_names. now apply in_map.
Qed.

Lemma keyword_severity_valid title description :
  valid_severity (JStr (kr_severity (kc title description))).
Proof.
  exists (kr_severity (kc title description)). split; [reflexivity|].
  apply (keyword_severity uni_lower uni_isalnum uni_isspace categories
           title description).
Qed.

(** What the adapter returns carries a valid category and severity. *)
Lemma adapter_result_valid title description location tr r tr' :
  adapter title description location tr = (Ok r, tr') ->
  exists d cat sev,
    r = JObj d
    /\ dict_get (lit "category") d = Some cat
    /\ dict_get (lit "severity") d = Some sev
    /\ valid_category categories cat /\ valid_severity sev.
Proof.
  intros H.
  apply adapter_inversion in H
    as [content [d [cat [sev [Hk [Hc [Hj [Hcat [Hsev [-> _]]]]]]]]]].
  exists (validated categories cat sev d).
  exists (if in_strs cat (category_names categories)
          then cat else JStr (lit "Other")).
  exists (if in_strs sev valid_severities then sev else JStr (lit "Medium")).
  repeat split.
  - now apply validated_category.
  - now apply validated_severity.
  - destruct (in_strs cat (category_names categories)) eqn:E.
    + apply in_strs_In in E as [s [-> Hs]]. exists s. auto.
    + exists (lit "Other"). auto.
  - destruct (in_strs sev valid_severities) eqn:E.
    + apply in_strs_In in E as [s [-> Hs]]. exists s. auto.
    + exists (lit "Medium"). split; [reflexivity|]. simpl. auto.
Qed.

(** The arbiter always returns a response, with a valid category and a
    valid severity. *)
Lemma hybrid_total title description location tr :
  exists resp tr',
    hybrid title description location tr = (Ok resp, tr')
    /\ success resp = true
    /\ valid_category categories (category resp)
    /\ valid_severity (severity resp).
Proof.
  pose proof (keyword_category_valid title description) as Vc.
  pose proof (keyword_severity_valid title description) as Vs.
  destruct (Qle_bool (7 # 10) (kr_confidence (kc title description))) eqn:H.
  { eexists _, _. rewrite hybrid_high by assumption.
    split; [reflexivity|]. simpl. auto. }
  destruct (configured openai_api_key) eqn:Hk.
  2:{ eexists _, _. rewrite hybrid_unconfigured by assumption.
      split; [reflexivity|]. simpl. auto. }
  destruct (adapter title description location tr) as [[r|e] tr'] eqn:Ha.
  2:{ eexists _, _. erewrite hybrid_adapter_fail by eassumption.
      split; [reflexivity|]. simpl. auto. }
  destruct (adapter_result_valid _ _ _ _ Ha)
    as [d [cat [sev [-> [Hcat [Hsev [Vc' Vs']]]]]]].
  erewrite hybrid_adapter_ok by eassumption.
  destruct (eq_str cat (kr_category (kc title description))).
  - destruct (py_add_float (llm_confidence d) (2 # 10)).
    + eexists _, _. split; [reflexivity|]. simpl. auto.
    + eexists _, _. split; [reflexivity|]. simpl. auto.
  - eexists _, _. split; [reflexivity|]. simpl. auto.
Qed.

End ArbiterProperties.

End Basic.

(* ================================================================= *)
(** ** The enhanced classifier: [EnhancedRAGClassifier] of enhanced_app.py *)

Module Enhanced.

Import PyStr Py.
Local Open Scope py_scope.

(** The value of an entry of [load_categories]. *)
Record category_data : Type := {
  keywords : list str;
  subcategories : list str;
  priority_base : nat
}.

Definition lits (l : list string) : list str := List.map lit l.

Section StaticTables.

Local Open Scope string_scope.

(** [EnhancedRAGClassifier.load_categories] *)
Definition load_categories : list (str * category_data) :=
  [ (lit "Infrastructure",
     {| keywords := lits ["road"; "bridge"; "building"; "construction";
                          "repair"; "maintenance"; "pothole"; "street";
                          "sidewalk"];
        subcategories := lits ["Roads"; "Bridges"; "Public Buildings";
                               "Street Lighting"];
        priority_base := 3 |});
    (lit "Transportation",
     {| keywords := lits ["bus"; "transport"; "traffic"; "vehicle"; "auto";
                          "rickshaw"; "railway"; "station"];
        subcategories := lits ["Public Transport"; "Traffic Management";
                               "Railway Issues"];
        priority_base := 2 |});
    (lit "Water Supply",
     {| keywords := lits ["water"; "tap"; "pipeline"; "shortage"; "quality";
                          "contamination"; "leak"; "pressure"];
        subcategories := lits ["Water Shortage"; "Water Quality";
                               "Pipeline Issues"];
        priority_base := 4 |});
    (lit "Electricity",
     {| keywords := lits ["power"; "electricity"; "outage"; "blackout";
                          "transformer"; "wire"; "meter"; "bill"];
        subcategories := lits ["Power Outage"; "Billing Issues";
                               "Infrastructure"];
        priority_base := 3 |});
    (lit "Sanitation",
     {| keywords := lits ["garbage"; "waste"; "cleaning"; "toilet";
                          "drainage"; "sewage"; "hygiene"];
        subcategories := lits ["Waste Management"; "Public Toilets";
                               "Drainage"];
        priority_base := 3 |});
    (lit "Healthcare",
     {| keywords := lits ["hospital"; "doctor"; "medicine"; "health";
                          "medical"; "treatment"; "emergency"];
        subcategories := lits ["Hospital Services"; "Medicine Availability";
                               "Emergency Care"];
        priority_base := 5 |});
    (lit "Education",
     {| keywords := lits ["school"; "teacher"; "education"; "student";
                          "class"; "book"; "uniform"; "mid-day meal"];
        subcategories := lits ["School Infrastructure"; "Teacher Issues";
                               "Educational Materials"];
        priority_base := 2 |});
    (lit "Public Safety",
     {| keywords := lits ["police"; "crime"; "safety"; "security"; "theft";
                          "violence"; "harassment"];
        subcategories := lits ["Crime"; "Police Response"; "Public Security"];
        priority_base := 4 |});
    (lit "Environment",
     {| keywords := lits ["pollution"; "air"; "noise"; "tree"; "forest";
                          "mining"; "dust"; "smoke"];
        subcategories := lits ["Air Pollution"; "Noise Pollution";
                               "Forest Issues"; "Mining Pollution"];
        priority_base := 3 |});
    (lit "Governance",
     {| keywords := lits ["corruption"; "bribe"; "service"; "officer";
                          "department"; "certificate"; "license"];
        subcategories := lits ["Service Delivery"; "Corruption";
                               "Administrative Issues"];
        priority_base := 2 |});
    (lit "Rural Development",
     {| keywords := lits ["village"; "rural"; "farming"; "agriculture";
                          "irrigation"; "panchayat"; "employment"];
        subcategories := lits ["Agriculture"; "Rural Infrastructure";
                               "Employment Schemes"];
        priority_base := 2 |});
    (lit "Mining Issues",
     {| keywords := lits ["mine"; "coal"; "extraction"; "blast"; "dust";
                          "land acquisition"; "compensation"];
        subcategories := lits ["Coal Mining"; "Land Issues";
                               "Environmental Impact"];
        priority_base := 4 |});
    (lit "Tribal Affairs",
     {| keywords := lits ["tribal"; "adivasi"; "forest rights";
                          "displacement"; "culture"; "reservation"];
        subcategories := lits ["Land Rights"; "Cultural Issues";
                               "Displacement"];
        priority_base := 3 |});
    (lit "Forest Conservation",
     {| keywords := lits ["forest"; "tree cutting"; "wildlife";
                          "conservation"; "encroachment"; "deforestation"];
        subcategories := lits ["Deforestation"; "Wildlife Protection";
                               "Encroachment"];
        priority_base := 3 |}) ].

(** [EnhancedRAGClassifier.load_urgency_keywords] *)
Definition load_urgency_keywords : list (str * list str) :=
  [ (lit "urgent",
     lits ["emergency"; "urgent"; "immediate"; "critical"; "dangerous";
           "life threatening"; "accident"; "fire"; "flood"; "medical";
           "death"; "serious injury"; "breakdown"; "major leak";
           "explosion"; "collapse"; "ambulance needed"]);
    (lit "high",
     lits ["severe"; "major"; "significant"; "widespread"; "affecting many";
           "road blocked"; "power outage"; "water shortage";
           "health hazard"; "safety concern"; "public health"; "broken";
           "damaged"]);
    (lit "medium",
     lits ["problem"; "issue"; "concern"; "complaint"; "needs attention";
           "maintenance required"; "repair needed"; "improvement needed"]) ].

(** The words of the boost of [calculate_urgency]. *)
Definition health_safety_words : list str :=
  lits ["health"; "medical"; "safety"; "danger"; "emergency"].

End StaticTables.

(** What the classifier does that a trace records. *)
Inductive event : Type :=
| LLMCall (text : str)
| ClassifyText (text : str) (location user_phone : json).

(** What [openai.ChatCompletion.create] gives. *)
Inductive completion : Type :=
| NoCompletion
| Completion (content : str).

(** The body of a reply of the [/classify] route, with its status. *)
Inductive reply (A : Type) : Type :=
| Failure (error : str + exn) (status : nat)
| Success (data : A).

Arguments Failure {A} error status.
Arguments Success {A} data.

(** The [success] field of the reply. *)
Definition success {A} (r : reply A) : bool :=
  match r with
  | Failure _ _ => false
  | Success _ => true
  end.

(** [x.strip()] *)
Definition py_strip (uni_isspace : char -> bool) (x : json) : outcome str :=
  match x with
  | JStr s => Ok (strip uni_isspace s)
  | _ => Raise AttributeError
  end.

Section Endpoint.

Variable uni_isspace : char -> bool.

(** [self.classify_text], whatever it computes. *)
Variable A : Type.
Variable classify_text : str -> json -> json -> M event A.

(** The route [/classify]; [data] is what [request.get_json()] returned,
    [None] included. *)
Definition classify_complaint (data : option json) : M event (reply A) :=
  try_except
    match data with
    | None =>
        ret (Failure (inl (lit "Missing 'text' field in request")) 400)
    | Some data =>
        missing <-
          (if falsy data then ret true
           else has_text <- lift (py_in (lit "text") data) ;;
                ret (negb has_text)) ;;
        if missing : bool
        then ret (Failure (inl (lit "Missing 'text' field in request")) 400)
        else
          text <- lift (py_getitem data (lit "text")) ;;
          text <- lift (py_strip uni_isspace text) ;;
          location <- lift (py_get data (lit "location") (JStr [])) ;;
          user_phone <- lift (py_get data (lit "user_phone") (JStr [])) ;;
          if (List.length text <? 10)%nat
          then ret (Failure
                      (inl (lit "Text must be at least 10 characters long"))
                      400)
          else
            emit (ClassifyText text location user_phone) ;;;
            result <- classify_text text location user_phone ;;
            ret (Success result)
    end
    (fun e => ret (Failure (inr e) 500)).

End Endpoint.

Section Classifier.

Variable uni_lower : str -> str.
Variable uni_isspace : char -> bool.

(** [openai.api_key] and the text-generation service. *)
Variable api_key : option str.
Variable chat_completion : str -> completion.

Definition configured : bool :=
  match api_key with
  | Some (_ :: _) => true
  | _ => false
  end.

(** The branch of [calculate_urgency] for one matching keyword. *)
Definition raise_urgency (level : str) (urgency_score : nat) : nat :=
  if eqb level (lit "urgent") then Nat.max urgency_score 8
  else if eqb level (lit "high") then Nat.max urgency_score 6
  else if eqb level (lit "medium") then Nat.max urgency_score 4
  else urgency_score.

(** [EnhancedRAGClassifier.calculate_urgency] *)
Definition calculate_urgency (text : str) : nat :=
  let urgency_score :=
    fold_left
      (fun acc (entry : str * list str) =>
         fold_left
           (fun acc keyword =>
              if contains keyword text then raise_urgency (fst entry) acc
              else acc)
           (snd entry) acc)
      load_urgency_keywords 1%nat in
  if existsb (fun word => contains word text) health_safety_words
  then Nat.min (urgency_score + 2) 10
  else urgency_score.

(** [EnhancedRAGClassifier.determine_priority] *)
Definition determine_priority (urgency_level : nat) (category : str) : str :=
  if (8 <=? urgency_level)%nat then lit "urgent"
  else if (6 <=? urgency_level)%nat then lit "high"
  else if (4 <=? urgency_level)%nat then lit "medium"
  else lit "low".

(** [EnhancedRAGClassifier.classify_with_openai]: the [category] and the
    [confidence] of the dictionary it returns. *)
Definition classify_with_openai (text : str) : M event (str * Q) :=
  if negb configured then ret (lit "Infrastructure", 5 # 10)
  else
    try_except
      (emit (LLMCall text) ;;;
       content <- lift
         match chat_completion text with
         | Completion c => Ok c
         | NoCompletion => Raise ServiceError
         end ;;
       let predicted_category := strip uni_isspace content in
       if dict_has predicted_category load_categories
       then ret (predicted_category, 8 # 10)
       else ret (lit "Infrastructure", 5 # 10))
      (fun _ => ret (lit "Infrastructure", 5 # 10)).

(** The body of [for category, data in self.categories.items()]. *)
Definition scan_category (text_lower : str) (urgency_level : nat)
  (category_scores : list (str * (nat * list str)))
  (entry : str * category_data) : list (str * (nat * list str)) :=
  let matched_keywords :=
    filter (fun keyword => contains keyword text_lower)
      (keywords (snd entry)) in
  let score := List.length matched_keywords in
  if (0 <? score)%nat
  then dict_set (fst entry)
         ((score * priority_base (snd entry) * urgency_level)%nat,
          matched_keywords)
         category_scores
  else category_scores.

End Classifier.

Section ClassifierProperties.

Variable uni_lower : str -> str.
Variable uni_isspace : char -> bool.
Variable api_key : option str.
Variable chat_completion : str -> completion.

Definition known_category (c : str) : Prop :=
  In c (List.map fst load_categories).

Lemma infrastructure_known : known_category (lit "Infrastructure").
Proof. now left. Qed.

Lemma classify_with_openai_total (text : str) (tr : list event) :
  exists c q tr',
    classify_with_openai uni_isspace api_key chat_completion text tr
    = (Ok (c, q), tr')
    /\ known_category c /\ 0 <= q /\ q <= 1.
Proof.
  pose proof infrastructure_known as Hi.
  unfold classify_with_openai.
  destruct (configured api_key); cbn [negb].
  2:{ eexists _, _, _. split; [reflexivity|].
      repeat split; [exact Hi|discriminate|discriminate]. }
  unfold try_except, bind, emit, lift, ret.
  destruct (chat_completion text) as [|content].
  - eexists _, _, _. split; [reflexivity|].
    repeat split; [exact Hi|discriminate|discriminate].
  - destruct (dict_has (strip uni_isspace content) load_categories) eqn:E.
    + eexists _, _, _. split; [reflexivity|].
      repeat split; [|discriminate|discriminate].
      now apply dict_has_In in E.
    + eexists _, _, _. split; [reflexivity|].
      repeat split; [exact Hi|discriminate|discriminate].
Qed.

Lemma scan_fold_known (text_lower : str) (u : nat)
  (l : list (str * category_data)) (d : list (str * (nat * list str))) :
  (forall e, In e l -> known_category (fst e)) ->
  (forall e, In e d -> known_category (fst e)) ->
  forall e, In e (fold_left (scan_category text_lower u) l d) ->
  known_category (fst e).
Proof.
  revert d. induction l as [|x l IH]; intros d Hl Hd; [exact Hd|].
  simpl. apply IH.
  - intros e He. apply Hl. now right.
  - intros [k v] He. unfold scan_category in He.
    destruct (0 <? _)%nat.
    + apply dict_set_in in He as [He|[-> _]].
      * now apply (Hd (k, v)).
      * apply Hl. now left.
    + now apply (Hd (k, v)).
Qed.

Lemma scaled_confidence_range (score : nat) :
  0 <= py_min (of_nat score / 10) 1 /\ py_min (of_nat score / 10) 1 <= 1.
Proof.
  split; [|apply py_min_le_r].
  apply py_min_ge; [|discriminate].
  apply Qle_shift_div_l; [reflexivity|].
  rewrite Qmult_0_l. unfold of_nat, Qle. simpl. lia.
Qed.

End ClassifierProperties.

End Enhanced.

(* ================================================================= *)
(** ** The auxiliary extractors of the enhanced variant *)

Module Extractors.

Import PyStr Py Enhanced.
Local Open Scope py_scope.

Section StaticTables.

Local Open Scope string_scope.

(** [load_jharkhand_data()['districts']] *)
Definition districts : list str :=
  lits ["Bokaro"; "Chatra"; "Deoghar"; "Dhanbad"; "Dumka"; "East Singhbhum";
        "Garhwa"; "Giridih"; "Godda"; "Gumla"; "Hazaribagh"; "Jamtara";
        "Khunti"; "Koderma"; "Latehar"; "Lohardaga"; "Pakur"; "Palamu";
        "Ramgarh"; "Ranchi"; "Sahibganj"; "Seraikela Kharsawan";
        "Simdega"; "West Singhbhum"].

(** [load_jharkhand_data()['district_coordinates']]: latitude, longitude. *)
Definition district_coordinates : list (str * (Q * Q)) :=
  [ (lit "Ranchi", (233441 # 10000, 853096 # 10000));
    (lit "Jamshedpur", (228046 # 10000, 862029 # 10000));
    (lit "Dhanbad", (237957 # 10000, 864304 # 10000));
    (lit "Bokaro", (236693 # 10000, 859590 # 10000)) ].

Definition tribal_districts : list str :=
  lits ["Khunti"; "Gumla"; "Simdega"; "Latehar"; "Pakur"; "Dumka";
        "Sahibganj"; "Godda"].

Definition mining_districts : list str :=
  lits ["Dhanbad"; "Bokaro"; "Ramgarh"; "East Singhbhum"; "West Singhbhum"].

Definition urban_districts : list str :=
  lits ["Ranchi"; "Jamshedpur"; "Dhanbad"; "Bokaro"; "Deoghar"].

(** [base_times] of [estimate_resolution_time] *)
Definition base_times : list (str * nat) :=
  [ (lit "Healthcare", 2%nat); (lit "Public Safety", 4%nat);
    (lit "Water Supply", 24%nat); (lit "Electricity", 12%nat);
    (lit "Infrastructure", 72%nat); (lit "Transportation", 48%nat);
    (lit "Sanitation", 24%nat); (lit "Environment", 48%nat);
    (lit "Education", 168%nat); (lit "Governance", 72%nat) ].

(** [subcategory_keywords] of [suggest_subcategory] *)
Definition subcategory_keywords : list (str * list str) :=
  [ (lit "Roads", lits ["road"; "street"; "pothole"]);
    (lit "Water Shortage", lits ["shortage"; "no water"; "dry"]);
    (lit "Power Outage", lits ["outage"; "blackout"; "no power"]);
    (lit "Hospital Services", lits ["hospital"; "doctor"; "treatment"]);
    (lit "Crime", lits ["theft"; "robbery"; "crime"]) ].

(** [category_questions] of [generate_questions] *)
Definition category_questions : list (str * list str) :=
  [ (lit "Healthcare",
     lits ["Is this an emergency requiring immediate medical attention?"]);
    (lit "Public Safety",
     lits ["Have you reported this to the local police?"]);
    (lit "Environment",
     lits ["Do you have any photos showing the environmental impact?"]);
    (lit "Mining Issues",
     lits ["Are there any safety concerns for nearby residents?"]) ].

Definition time_words : list str :=
  lits ["today"; "yesterday"; "morning"; "evening"; "night"; "afternoon";
        "when"; "time"].

Definition impact_words : list str :=
  lits ["how many"; "extent"; "severity"; "impact"; "affected"].

Definition mining_words : list str := lits ["mine"; "mining"; "coal"].
Definition tribal_words : list str := lits ["tribal"; "village"; "gram"].
Definition urban_words : list str := lits ["city"; "urban"; "municipality"].

End StaticTables.

(** [any(word in text for word in words)] *)
Definition any_in (words : list str) (text : str) : bool :=
  existsb (fun word => contains word text) words.

(** [re.match(r'\d{n}', s)] succeeds: the first [n] characters of [s]
    are there and are decimal digits. *)
Definition digits_at (uni_isdecimal : char -> bool) (n : nat) (s : str)
  : bool :=
  (n <=? List.length s)%nat && forallb uni_isdecimal (firstn n s).

(** [re.search(r'\d{n}', s)] succeeds: the pattern matches at some
    position of [s]. *)
Fixpoint search_digits (uni_isdecimal : char -> bool) (n : nat) (s : str)
  : bool :=
  digits_at uni_isdecimal n s
  || match s with
     | [] => false
     | _ :: s' => search_digits uni_isdecimal n s'
     end.

(** [EnhancedRAGClassifier.estimate_resolution_time] *)
Definition estimate_resolution_time (category : str) (urgency_level : nat)
  : nat :=
  let base_time :=
    match dict_get category base_times with
    | Some t => t
    | None => 48%nat
    end in
  if (8 <=? urgency_level)%nat then base_time / 4
  else if (6 <=? urgency_level)%nat then base_time / 2
  else base_time.

(** The list [questions] of [generate_questions] before the [return]. *)
Definition questions_of (category : str) (missing_info : list str)
  : list str :=
  let questions := [] in
  let questions :=
    if mem (lit "specific_location") missing_info
    then questions
         ++ [lit "Could you provide the exact location or nearest landmark?"]
    else questions in
  let questions :=
    if mem (lit "time_of_incident") missing_info
    then questions ++ [lit "When did you first notice this issue?"]
    else questions in
  let questions :=
    if mem (lit "impact_details") missing_info
    then
      if eqb category (lit "Water Supply")
      then questions
           ++ [lit "How many households are affected by this water issue?"]
      else if eqb category (lit "Infrastructure")
      then questions
           ++ [lit "Is this affecting vehicle movement or pedestrian safety?"]
      else if eqb category (lit "Electricity")
      then questions ++ [lit "How long has the power been out?"]
      else questions
    else questions in
  match dict_get category category_questions with
  | Some qs => questions ++ qs
  | None => questions
  end.

(** [EnhancedRAGClassifier.generate_questions] *)
Definition generate_questions (text category : str)
  (missing_info : list str) : list str :=
  firstn 3 (questions_of category missing_info).

(** The first item of [l] that satisfies [f], for a loop that returns
    or breaks at it. *)
Fixpoint first_such {A} (f : A -> bool) (l : list A) : option A :=
  match l with
  | [] => None
  | x :: l' => if f x then Some x else first_such f l'
  end.

(** What [validate_jharkhand_location] returns: the two-field dictionary
    of the empty input, or the five fields of [result]. *)
Record location_result : Type := {
  valid : bool;
  district : option str;
  suggestions : list str;
  coordinates : option (Q * Q);
  area_type : option str
}.

Inductive location_validation : Type :=
| NoLocation
| Validated (result : location_result).

Section Extractors.

Variable uni_lower : str -> str.
Variable uni_isspace : char -> bool.
Variable uni_isdecimal : char -> bool.

(** [EnhancedRAGClassifier.detect_missing_info]; [location] is whatever
    value the request holds: [location.strip()] raises on a value that is
    not a string. *)
Definition detect_missing_info (text : str) (location : json)
  : outcome (list str) :=
  let text_lower := uni_lower text in
  let missing := [] in
  match
    (if falsy location then Ok true
     else match location with
          | JStr s => Ok (List.length (strip uni_isspace s) <? 5)%nat
          | _ => Raise AttributeError
          end)
  with
  | Raise e => Raise e
  | Ok no_location =>
      let missing :=
        if no_location : bool
        then missing ++ [lit "specific_location"] else missing in
      let missing :=
        if negb (any_in time_words text_lower)
        then missing ++ [lit "time_of_incident"] else missing in
      let missing :=
        if negb (search_digits uni_isdecimal 10 text)
        then missing ++ [lit "contact_number"] else missing in
      let missing :=
        if negb (any_in impact_words text_lower)
        then missing ++ [lit "impact_details"] else missing in
      Ok missing
  end.

(** [EnhancedRAGClassifier.validate_jharkhand_location] *)
Definition validate_jharkhand_location (location_text : str)
  : location_validation :=
  match location_text with
  | [] => NoLocation
  | _ :: _ =>
      let location_lower := uni_lower location_text in
      let found :=
        first_such (fun district => contains (uni_lower district)
                                      location_lower) districts in
      let coords :=
        match found with
        | Some district => dict_get district district_coordinates
        | None => None
        end in
      let hint (l : list str) : list str :=
        match found with Some _ => [] | None => l end in
      let typed : option str * list str :=
        if any_in mining_words location_lower
        then (Some (lit "mining"), hint mining_districts)
        else if any_in tribal_words location_lower
        then (Some (lit "rural/tribal"), hint tribal_districts)
        else if any_in urban_words location_lower
        then (Some (lit "urban"), hint urban_districts)
        else (None, []) in
      let partial :=
        match found with
        | Some _ => []
        | None =>
            filter
              (fun district =>
                 existsb (fun part => contains part location_lower)
                   (split uni_isspace (uni_lower district)))
              districts
        end in
      Validated
        {| valid := match found with Some _ => true | None => false end;
           district := found;
           suggestions := snd typed ++ partial;
           coordinates := coords;
           area_type := fst typed |}
  end.

(** [EnhancedRAGClassifier.suggest_subcategory] *)
Definition suggest_subcategory (text category : str) : option str :=
  match dict_get category load_categories with
  | None => None
  | Some data =>
      let text_lower := uni_lower text in
      let hit :=
        first_such
          (fun subcat =>
             match dict_get subcat subcategory_keywords with
             | Some kws => any_in kws text_lower
             | None => false
             end)
          (subcategories data) in
      match hit with
      | Some subcat => Some subcat
      | None => List.hd_error (subcategories data)
      end
  end.

End Extractors.

(** What [enhance_with_ai] asks of the service: the three fields of the
    prompt. *)
Record enhance_request : Type := {
  eq_title : json;
  eq_description : json;
  eq_location : json
}.

Section Enhance.

Variable api_key : option str.
Variable chat_completion : enhance_request -> completion.
Variable json_loads : str -> option json.

(** [EnhancedRAGClassifier.enhance_with_ai] *)
Definition enhance_with_ai (complaint : json) : M enhance_request json :=
  if negb (configured api_key) then ret complaint
  else
    try_except
      (title <- lift (py_get complaint (lit "title") (JStr [])) ;;
       description <- lift (py_get complaint (lit "description") (JStr [])) ;;
       location <- lift (py_get complaint (lit "location") (JStr [])) ;;
       let request :=
         {| eq_title := title; eq_description := description;
            eq_location := location |} in
       emit request ;;;
       ai_enhancement <- lift
         match chat_completion request with
         | Completion c => Ok c
         | NoCompletion => Raise ServiceError
         end ;;
       let enhancement_data :=
         match json_loads ai_enhancement with
         | Some j => j
         | None => JObj [(lit "ai_suggestions", JStr ai_enhancement)]
         end in
       lift (py_setitem complaint (lit "ai_enhancement") enhancement_data))
      (fun _ => ret complaint).

End Enhance.

End Extractors.

(* ================================================================= *)
(** ** [classify_text] of the enhanced variant *)

Module EnhancedClassifier.

Import PyStr Py Enhanced Extractors.
Local Open Scope py_scope.

Section StaticTables.

Local Open Scope string_scope.

(** [EnhancedRAGClassifier.load_department_mapping] *)
Definition department_mapping : list (str * str) :=
  [ (lit "Infrastructure", lit "Public Works Department");
    (lit "Transportation", lit "Transport Department");
    (lit "Water Supply", lit "Water Resources");
    (lit "Electricity", lit "Power Department");
    (lit "Sanitation", lit "Urban Development");
    (lit "Healthcare", lit "Health Department");
    (lit "Education", lit "Education Department");
    (lit "Public Safety", lit "Police Department");
    (lit "Environment", lit "Environment Department");
    (lit "Governance", lit "Administrative Department");
    (lit "Rural Development", lit "Rural Development");
    (lit "Mining Issues", lit "Mining Department");
    (lit "Tribal Affairs", lit "Tribal Welfare");
    (lit "Forest Conservation", lit "Forest Department") ].

End StaticTables.

(** The dictionary [classify_text] returns; [location_validation] is
    [None] for the empty dictionary of a request without location. *)
Record classification : Type := {
  category : str;
  confidence : Q;
  urgency_level : nat;
  sentiment : str;
  priority : str;
  department : str;
  keywords : list str;
  missing_info : list str;
  suggested_questions : list str;
  location_validation : option Extractors.location_validation;
  subcategory : option str;
  estimated_resolution_time : nat
}.

Section Classifier.

Variable uni_lower : str -> str.
Variable uni_isspace : char -> bool.
Variable uni_isdecimal : char -> bool.

(** [TextBlob(text).sentiment.polarity], [None] when the analysis
    raises. *)
Variable polarity : str -> option Q.

(** [openai.api_key] and the text-generation service. *)
Variable api_key : option str.
Variable chat_completion : str -> completion.

(** [EnhancedRAGClassifier.analyze_sentiment] *)
Definition analyze_sentiment (text : str) : str :=
  match polarity text with
  | Some p =>
      if Qlt_bool p (- (5 # 10)) then lit "angry"
      else if Qlt_bool p (- (1 # 10)) then lit "negative"
      else if Qlt_bool p (1 # 10) then lit "neutral"
      else lit "positive"
  | None => lit "neutral"
  end.

(** The part of [classify_text] from [# Keyword-based classification] to
    the end of [# Determine best category]: the category, the confidence
    and the keywords of the result. *)
Definition best_category_of (text text_lower : str) (urgency_level : nat)
  : M event (str * Q * list str) :=
  let category_scores :=
    fold_left (scan_category text_lower urgency_level) load_categories [] in
  match category_scores with
  | x :: l =>
      let best := max_by (fun e => fst (snd e)) x l in
      ret (fst best,
           py_min (of_nat (fst (snd best)) / 10) 1,
           snd (snd best))
  | [] =>
      ai_result <- classify_with_openai uni_isspace api_key chat_completion
                     text ;;
      ret (fst ai_result, snd ai_result, [])
  end.

(** [self.validate_jharkhand_location(location) if location else {}] *)
Definition location_data_of (location : json)
  : outcome (option Extractors.location_validation) :=
  if falsy location then Ok None
  else match location with
       | JStr s =>
           Ok (Some (validate_jharkhand_location uni_lower uni_isspace s))
       | _ => Raise AttributeError
       end.

(** [EnhancedRAGClassifier.classify_text]; [location] and [user_phone]
    are the values the route read from the request. *)
Definition classify_text (text : str) (location user_phone : json)
  : M event classification :=
  let text_lower := uni_lower text in
  let urgency_level := calculate_urgency text_lower in
  let sentiment := analyze_sentiment text in
  chosen <- best_category_of text text_lower urgency_level ;;
  let best_category := fst (fst chosen) in
  missing_info <- lift (detect_missing_info uni_lower uni_isspace
                          uni_isdecimal text location) ;;
  let suggested_questions :=
    generate_questions text best_category missing_info in
  location_data <- lift (location_data_of location) ;;
  ret {| category := best_category;
         confidence := snd (fst chosen);
         urgency_level := urgency_level;
         sentiment := sentiment;
         priority := determine_priority urgency_level best_category;
         department :=
           match dict_get best_category department_mapping with
           | Some d => d
           | None => lit "General Administration"
           end;
         keywords := snd chosen;
         missing_info := missing_info;
         suggested_questions := suggested_questions;
         location_validation := location_data;
         subcategory := suggest_subcategory uni_lower text best_category;
         estimated_resolution_time :=
           estimate_resolution_time best_category urgency_level |}.

End Classifier.

(** A location [classify_text] can work on: absent, empty or any other
    falsy value, or a string. *)
Definition usable_location (location : json) : bool :=
  falsy location
  || match location with
     | JStr _ => true
     | _ => false
     end.

End EnhancedClassifier.

Module EnhancedClassifierFacts.

Import PyStr Py Enhanced Extractors EnhancedClassifier.

Section Facts.

Variable uni_lower : str -> str.
Variable uni_isspace : char -> bool.
Variable uni_isdecimal : char -> bool.
Variable polarity : str -> option Q.
Variable api_key : option str.
Variable chat_completion : str -> completion.

(** The choice of the category never raises; the category is a key of
    the table and the confidence is between 0 and 1. *)
Lemma best_category_of_total (text text_lower : str) (u : nat)
  (tr : list event) :
  exists chosen tr1,
    best_category_of uni_isspace api_key chat_completion text text_lower u tr
    = (Ok chosen, tr1)
    /\ known_category (fst (fst chosen))
    /\ 0 <= snd (fst chosen) /\ snd (fst chosen) <= 1.
Proof.
  unfold best_category_of.
  pose proof (@scan_fold_known text_lower u load_categories []) as Hk.
  destruct (fold_left (scan_category text_lower u) load_categories [])
    as [|x l] eqn:E.
  - destruct (classify_with_openai_total uni_isspace api_key chat_completion
                text tr) as [c [q [tr' [Hc [Hkn [H0 H1]]]]]].
    unfold bind. rewrite Hc.
    eexists _, _. split; [reflexivity|]. cbn [fst snd]. auto.
  - eexists _, _. split; [reflexivity|]. cbn [fst snd]. split.
    + apply Hk.
      * intros e He. unfold known_category. now apply in_map.
      * intros e [].
      * apply max_by_in.
    + apply scaled_confidence_range.
Qed.

Lemma usable_location_cases (location : json) :
  if usable_location location
  then (exists missing,
          detect_missing_info uni_lower uni_isspace uni_isdecimal
            (@nil char) location = Ok missing)
       /\ exists data, location_data_of uni_lower uni_isspace location
                       = Ok data
  else forall text,
         detect_missing_info uni_lower uni_isspace uni_isdecimal
           text location = Raise AttributeError.
Proof.
  unfold usable_location, detect_missing_info, location_data_of.
  destruct (falsy location) eqn:Hf; cbn [orb].
  - split; eexists; reflexivity.
  - destruct location; try (intros text; reflexivity).
    split; eexists; reflexivity.
Qed.

Lemma detect_missing_info_usable (text : str) (location : json) :
  usable_location location = true ->
  exists missing,
    detect_missing_info uni_lower uni_isspace uni_isdecimal text location
    = Ok missing.
Proof.
  unfold usable_location, detect_missing_info.
  destruct (falsy location) eqn:Hf; cbn [orb].
  - intros _. eexists; reflexivity.
  - destruct location; try discriminate. intros _. eexists; reflexivity.
Qed.

(** [classify_text] on a location it can work on. *)
Lemma classify_text_usable (text : str) (location user_phone : json)
  (tr tr1 : list event) (chosen : str * Q * list str) :
  usable_location location = true ->
  best_category_of uni_isspace api_key chat_completion text
    (uni_lower text) (calculate_urgency (uni_lower text)) tr
  = (Ok chosen, tr1) ->
  exists r,
    classify_text uni_lower uni_isspace uni_isdecimal polarity api_key
      chat_completion text location user_phone tr
    = (Ok r, tr1)
    /\ category r = fst (fst chosen)
    /\ confidence r = snd (fst chosen)
    /\ keywords r = snd chosen
    /\ urgency_level r = calculate_urgency (uni_lower text)
    /\ priority r
       = determine_priority (calculate_urgency (uni_lower text))
           (fst (fst chosen)).
Proof.
  intros Hu Hb.
  destruct (detect_missing_info_usable text location Hu) as [missing Hm].
  pose proof (usable_location_cases location) as Hl.
  rewrite Hu in Hl. destruct Hl as [_ [data Hd]].
  unfold classify_text, bind, lift.
  rewrite Hb, Hm, Hd.
  eexists. split; [reflexivity|]. repeat split.
Qed.

(** [classify_text] on any other location: the call of [strip] raises,
    after the category was chosen. *)
Lemma classify_text_unusable (text : str) (location user_phone : json)
  (tr tr1 : list event) (chosen : str * Q * list str) :
  usable_location location = false ->
  best_category_of uni_isspace api_key chat_completion text
    (uni_lower text) (calculate_urgency (uni_lower text)) tr
  = (Ok chosen, tr1) ->
  classify_text uni_lower uni_isspace uni_isdecimal polarity api_key
    chat_completion text location user_phone tr
  = (Raise AttributeError, tr1).
Proof.
  intros Hu Hb.
  pose proof (usable_location_cases location) as Hl.
  rewrite Hu in Hl.
  unfold classify_text, bind, lift.
  now rewrite Hb, Hl.
Qed.

(** Whenever [classify_text] returns, its category is a key of the table
    and its confidence is between 0 and 1. *)
Lemma classify_text_returned (text : str) (location user_phone : json)
  (tr tr' : list event) (r : classification) :
  classify_text uni_lower uni_isspace uni_isdecimal polarity api_key
    chat_completion text location user_phone tr
  = (Ok r, tr') ->
  known_category (category r)
  /\ 0 <= confidence r /\ confidence r <= 1
  /\ priority r = determine_priority (urgency_level r) (category r).
Proof.
  intros Hrun.
  destruct (best_category_of_total text (uni_lower text)
              (calculate_urgency (uni_lower text)) tr)
    as [chosen [tr1 [Hb [Hk [H0 H1]]]]].
  destruct (usable_location location) eqn:Hu.
  - destruct (@classify_text_usable text location user_phone tr tr1 chosen
                Hu Hb)
      as [r0 [Hr [Hc [Hq [_ [Hul Hp]]]]]].
    rewrite Hr in Hrun. inversion Hrun; subst r0 tr'.
    rewrite Hc, Hq, Hp, Hul. auto.
  - rewrite (@classify_text_unusable text location user_phone tr tr1 chosen
               Hu Hb) in Hrun.
    discriminate.
Qed.

End Facts.

End EnhancedClassifierFacts.

(* ================================================================= *)
(** ** The text normalizer *)

(** C9. The text normalizer [preprocess_text] (lower-case, every character
    that is neither a word character nor whitespace replaced by a space,
    runs of whitespace collapsed to one space, trimmed) is idempotent:
    normalizing an already normalized string gives the same string. *)
Theorem preprocess_text_idempotent
  (uni_lower : PyStr.str -> PyStr.str)
  (uni_isalnum uni_isspace : PyStr.char -> bool)
  (space_isspace : uni_isspace PyStr.SPACE = true)
  (lower_space : uni_lower [PyStr.SPACE] = [PyStr.SPACE])
  (lower_output_fixed :
     forall s c, In c (uni_lower s) -> uni_lower [c] = [c])
  (lower_fixed :
     forall s, (forall c, In c s -> uni_lower [c] = [c]) -> uni_lower s = s)
  (x : PyStr.str) :
  PyStr.preprocess_text uni_lower uni_isalnum uni_isspace
    (PyStr.preprocess_text uni_lower uni_isalnum uni_isspace x)
  = PyStr.preprocess_text uni_lower uni_isalnum uni_isspace x.
Proof.
  destruct x as [|c x]; [reflexivity|].
  change (PyStr.preprocess_text uni_lower uni_isalnum uni_isspace (c :: x))
    with (PyStr.join [PyStr.SPACE]
            (PyStr.split uni_isspace
               (PyStr.re_sub_nonword uni_isalnum uni_isspace
                  (uni_lower (c :: x))))).
  apply PyStr.preprocess_text_normal; try assumption.
  now apply PyStr.preprocess_text_words.
Qed.

Lemma preprocess_text_idempotent_witness :
  let norm := PyStr.preprocess_text PyStr.Ascii7.lower PyStr.Ascii7.isalnum
                PyStr.Ascii7.isspace in
  norm (PyStr.lit "  Water-LEAK!!  near   the_Market. ")
    = PyStr.lit "water leak near the_market"
  /\ norm (norm (PyStr.lit "  Water-LEAK!!  near   the_Market. "))
     = norm (PyStr.lit "  Water-LEAK!!  near   the_Market. ").
Proof.
  split; [reflexivity|].
  apply (@preprocess_text_idempotent PyStr.Ascii7.lower PyStr.Ascii7.isalnum
           PyStr.Ascii7.isspace).
  - reflexivity.
  - reflexivity.
  - exact PyStr.Ascii7.lower_output_fixed.
  - exact PyStr.Ascii7.lower_fixed.
Defined.

(* ================================================================= *)
(** ** A concrete deployment *)

(** A catalog of two categories, a configured credential, the ASCII
    tables, and a text-generation service whose answer is fixed; [loads]
    is [json.loads] on the one payload the service sends. *)
Module Scenario.

Import PyStr Py Basic.

Definition catalog : list Category :=
  [ {| name := lit "Infrastructure";
       keywords := [lit "road"; lit "pothole"; lit "bridge"];
       severity_indicators :=
         [(high, [lit "major"; lit "blocked"]);
          (critical, [lit "collapse"; lit "emergency"])] |};
    {| name := lit "Water Supply";
       keywords := [lit "water"; lit "leak"; lit "tap"];
       severity_indicators :=
         [(low, [lit "minor"]); (critical, [lit "emergency"])] |} ].

Definition key : option str := Some (lit "sk-test").

Definition payload_text : str := lit "{...}".

Definition service (answer : completion) (_ : llm_request) : completion :=
  answer.

Definition loads (payload : option json) (s : str) : option json :=
  if eqb s payload_text then payload else None.

Definition fields (cat sev : string) (conf : option json)
  : list (str * json) :=
  [(lit "category", JStr (lit cat)); (lit "severity", JStr (lit sev))]
  ++ match conf with
     | Some c => [(lit "confidence", c)]
     | None => []
     end.

Definition object (cat sev : string) (conf : option json) : json :=
  JObj (fields cat sev conf).

Definition keyword (title description : str) : keyword_result :=
  keyword_classification Ascii7.lower Ascii7.isalnum Ascii7.isspace catalog
    title description.

Definition adapter (key : option str) (payload : option json)
  : str -> str -> str -> M llm_request json :=
  openai_classification Ascii7.isspace catalog key
    (service (Completion (lit "  {...} "))) (loads payload).

Definition arbiter (key : option str) (payload : option json)
  : str -> str -> str -> M llm_request response :=
  hybrid_classification Ascii7.lower Ascii7.isalnum Ascii7.isspace catalog
    key (service (Completion (lit "  {...} "))) (loads payload).

(** A complaint of fifty words, one of which is a keyword. *)
Definition long_description : str :=
  lit "there is a pothole and nobody of the office came to see it although we have written to them again and again since the last month so we ask you to send someone who can look at it and tell us what will be done and when thank you".

(** A complaint none of whose words is in the catalog. *)
Definition plain_description : str :=
  lit "nobody of the office came to see us although we have written to them".

End Scenario.

(* ================================================================= *)
(** ** The arbiter: short circuit, fallback, corroboration *)

Import PyStr Py.

(** What a computation returned, if it returned. *)
Definition returned {E A} (x : outcome A * list E) : option A :=
  match fst x with
  | Ok a => Some a
  | Raise _ => None
  end.

(** The calls a computation made, started from an empty trace. *)
Definition calls {E A} (x : outcome A * list E) : list E := snd x.

(** C3. When the confidence of the keyword classifier is at least 0.7, the
    arbiter returns the keyword result as it is (category, severity,
    confidence, method [keyword]) and the trace of outbound calls is the one
    it started with: the adapter is not invoked. *)
Theorem keyword_short_circuit
  (uni_lower : str -> str) (uni_isalnum uni_isspace : char -> bool)
  (categories : list Basic.Category) (openai_api_key : option str)
  (chat_completion : Basic.llm_request -> Basic.completion)
  (json_loads : str -> option json)
  (title description location : str) (tr : list Basic.llm_request) :
  let kr := Basic.keyword_classification uni_lower uni_isalnum uni_isspace
              categories title description in
  7 # 10 <= Basic.kr_confidence kr ->
  exists resp,
    Basic.hybrid_classification uni_lower uni_isalnum uni_isspace categories
      openai_api_key chat_completion json_loads title description location tr
    = (Ok resp, tr)
    /\ Basic.success resp = true
    /\ Basic.category resp = JStr (Basic.kr_category kr)
    /\ Basic.severity resp = JStr (Basic.kr_severity kr)
    /\ Basic.confidence resp = JNum (Basic.kr_confidence kr)
    /\ Basic.extractedInfo resp
       = Basic.InfoKeyword (Basic.kr_matched_keywords kr)
           (Basic.kr_category_scores kr)
    /\ Basic.method (Basic.extractedInfo resp) = lit "keyword".
Proof.
  intros kr H. apply Qle_bool_iff in H.
  exists (Basic.keyword_response kr). split.
  - now apply Basic.hybrid_high.
  - repeat split.
Qed.

Lemma keyword_short_circuit_witness :
  7 # 10 <= Basic.kr_confidence
              (Scenario.keyword (lit "Pothole") (lit "on the road"))
  /\ exists resp,
       Scenario.arbiter Scenario.key None
         (lit "Pothole") (lit "on the road") (lit "Ranchi") []
       = (Ok resp, [])
       /\ Basic.success resp = true
       /\ Basic.category resp = JStr (lit "Infrastructure")
       /\ Basic.severity resp = JStr (lit "Medium")
       /\ Basic.confidence resp = JNum 1
       /\ Basic.extractedInfo resp
          = Basic.InfoKeyword [lit "road"; lit "pothole"]
              [(lit "Infrastructure", (2%nat, [lit "road"; lit "pothole"]))]
       /\ Basic.method (Basic.extractedInfo resp) = lit "keyword".
Proof.
  split; [apply Qle_bool_iff; vm_compute; reflexivity|].
  apply (@keyword_short_circuit Ascii7.lower Ascii7.isalnum Ascii7.isspace
           Scenario.catalog Scenario.key
           (Scenario.service (Basic.Completion (lit "  {...} ")))
           (Scenario.loads None)
           (lit "Pothole") (lit "on the road") (lit "Ranchi") []).
  apply Qle_bool_iff; vm_compute; reflexivity.
Defined.

(** C4. When the confidence of the keyword classifier is below 0.7 and
    either no credential is configured or the call of the adapter fails,
    the arbiter returns the category and the severity of the keyword
    classifier, the confidence [max(keyword confidence, 0.3)] and the method
    [keyword_fallback]; a keyword confidence of 0.2 gives exactly 0.3. *)
Theorem fallback_on_llm_failure
  (uni_lower : str -> str) (uni_isalnum uni_isspace : char -> bool)
  (categories : list Basic.Category) (openai_api_key : option str)
  (chat_completion : Basic.llm_request -> Basic.completion)
  (json_loads : str -> option json)
  (title description location : str) (tr : list Basic.llm_request) :
  let kr := Basic.keyword_classification uni_lower uni_isalnum uni_isspace
              categories title description in
  Basic.kr_confidence kr < 7 # 10 ->
  (Basic.configured openai_api_key = false
   \/ exists e tr1,
        Basic.openai_classification uni_isspace categories openai_api_key
          chat_completion json_loads title description location tr
        = (Raise e, tr1)) ->
  exists resp tr',
    Basic.hybrid_classification uni_lower uni_isalnum uni_isspace categories
      openai_api_key chat_completion json_loads title description location tr
    = (Ok resp, tr')
    /\ Basic.success resp = true
    /\ Basic.category resp = JStr (Basic.kr_category kr)
    /\ Basic.severity resp = JStr (Basic.kr_severity kr)
    /\ Basic.confidence resp = JNum (Qmax (Basic.kr_confidence kr) (3 # 10))
    /\ Basic.method (Basic.extractedInfo resp) = lit "keyword_fallback"
    /\ (Basic.kr_confidence kr == 2 # 10 ->
        Basic.confidence resp = JNum (3 # 10)).
Proof.
  intros kr Hlt Hllm.
  assert (Hc : Qle_bool (7 # 10) (Basic.kr_confidence kr) = false).
  { destruct (Qle_bool (7 # 10) (Basic.kr_confidence kr)) eqn:E;
      [|reflexivity].
    apply Qle_bool_iff in E. exfalso. now apply (Qlt_not_le _ _ Hlt). }
  assert (Hret : exists tr',
    Basic.hybrid_classification uni_lower uni_isalnum uni_isspace categories
      openai_api_key chat_completion json_loads title description location tr
    = (Ok (Basic.fallback_response kr), tr')).
  { destruct (Basic.configured openai_api_key) eqn:Hk.
    - destruct Hllm as [Hllm|[e [tr1 Hllm]]]; [discriminate|].
      exists tr1. now apply Basic.hybrid_adapter_fail with e.
    - exists tr. now apply Basic.hybrid_unconfigured. }
  destruct Hret as [tr' Hret].
  exists (Basic.fallback_response kr), tr'.
  split; [exact Hret|]. cbn [Basic.fallback_response Basic.success
    Basic.category Basic.severity Basic.confidence Basic.extractedInfo
    Basic.method].
  repeat split.
  - now rewrite py_max_Qmax.
  - intros E. unfold py_max.
    assert (Hl : Qlt_bool (Basic.kr_confidence kr) (3 # 10) = true).
    { apply Qlt_bool_iff. rewrite E. reflexivity. }
    now rewrite Hl.
Qed.

Lemma fallback_on_llm_failure_witness :
  Basic.kr_confidence
    (Scenario.keyword (lit "Complaint") Scenario.long_description) == 2 # 10
  /\ exists resp tr',
       Scenario.arbiter None None
         (lit "Complaint") Scenario.long_description (lit "Ranchi") []
       = (Ok resp, tr')
       /\ Basic.success resp = true
       /\ Basic.category resp = JStr (lit "Infrastructure")
       /\ Basic.severity resp = JStr (lit "Medium")
       /\ Basic.confidence resp = JNum (3 # 10)
       /\ Basic.method (Basic.extractedInfo resp) = lit "keyword_fallback".
Proof.
  split; [vm_compute; reflexivity|].
  destruct (@fallback_on_llm_failure Ascii7.lower Ascii7.isalnum Ascii7.isspace
              Scenario.catalog None
              (Scenario.service (Basic.Completion (lit "  {...} ")))
              (Scenario.loads None)
              (lit "Complaint") Scenario.long_description (lit "Ranchi") [])
    as [resp [tr' [H [Hs [Hc [Hv [_ [Hm H02]]]]]]]].
  - vm_compute; reflexivity.
  - left; reflexivity.
  - exists resp, tr'. repeat split; try assumption.
    apply H02. vm_compute; reflexivity.
Defined.

(** C5, where the code departs from it: the service answers with the
    category of the keyword classifier, the severity [High] and the
    confidence ["high"], a string.  The adapter succeeds and returns that
    result; adding 0.2 to the string raises inside the [try] of the
    arbiter, whose [except] takes it for a failure of the service, and the
    response is the keyword fallback: the severity [Medium] and the
    confidence 0.3 of the keyword classifier, not those of the result of
    the adapter.  (The confidence of the answer is not validated by the
    adapter: the same missed case as under C1.) *)
Theorem llm_result_dropped_on_string_confidence :
  let payload := Scenario.object "Infrastructure" "High"
                   (Some (JStr (lit "high"))) in
  exists r resp tr',
    Scenario.adapter Scenario.key (Some payload)
      (lit "Complaint") Scenario.long_description (lit "Ranchi") []
    = (Ok (JObj r), tr')
    /\ dict_get (lit "category") r = Some (JStr (lit "Infrastructure"))
    /\ dict_get (lit "severity") r = Some (JStr (lit "High"))
    /\ dict_get (lit "confidence") r = Some (JStr (lit "high"))
    /\ Scenario.arbiter Scenario.key (Some payload)
         (lit "Complaint") Scenario.long_description (lit "Ranchi") []
       = (Ok resp, tr')
    /\ Basic.method (Basic.extractedInfo resp) = lit "keyword_fallback"
    /\ Basic.category resp = JStr (lit "Infrastructure")
    /\ Basic.severity resp = JStr (lit "Medium")
    /\ Basic.confidence resp = JNum (3 # 10).
Proof.
  intros payload. eexists _, _, _.
  split; [vm_compute; reflexivity|].
  split; [reflexivity|]. split; [reflexivity|]. split; [reflexivity|].
  split; [vm_compute; reflexivity|].
  repeat split.
Qed.

(** The second branch of the arbiter on a result whose confidence can be
    added to: the response carries the category and the severity of the
    result, with the method [hybrid]; its confidence is
    [min(confidence + 0.2, 1.0)] when the categories agree and the
    confidence of the result, unmodified, when they do not. *)
Lemma llm_result_final
  (uni_lower : str -> str) (uni_isalnum uni_isspace : char -> bool)
  (categories : list Basic.Category) (openai_api_key : option str)
  (chat_completion : Basic.llm_request -> Basic.completion)
  (json_loads : str -> option json)
  (title description location : str) (tr tr' : list Basic.llm_request)
  (d : list (str * json)) (cat sev : json) :
  let kr := Basic.keyword_classification uni_lower uni_isalnum uni_isspace
              categories title description in
  let agree := eq_str cat (Basic.kr_category kr) in
  let llm_confidence := Basic.llm_confidence d in
  Basic.kr_confidence kr < 7 # 10 ->
  Basic.configured openai_api_key = true ->
  Basic.openai_classification uni_isspace categories openai_api_key
    chat_completion json_loads title description location tr
  = (Ok (JObj d), tr') ->
  dict_get (lit "category") d = Some cat ->
  dict_get (lit "severity") d = Some sev ->
  (agree = true -> exists q, py_add_float llm_confidence (2 # 10) = Ok q) ->
  exists resp,
    Basic.hybrid_classification uni_lower uni_isalnum uni_isspace categories
      openai_api_key chat_completion json_loads title description location tr
    = (Ok resp, tr')
    /\ Basic.success resp = true
    /\ Basic.category resp = cat
    /\ Basic.severity resp = sev
    /\ Basic.method (Basic.extractedInfo resp) = lit "hybrid"
    /\ (agree = true ->
        exists q, py_add_float llm_confidence (2 # 10) = Ok q
          /\ Basic.confidence resp = of_float (float_min q 1))
    /\ (agree = false -> Basic.confidence resp = llm_confidence).
Proof.
  intros kr agree llm_confidence Hlt Hk Ha Hcat Hsev Hnum.
  assert (Hc : Qle_bool (7 # 10) (Basic.kr_confidence kr) = false).
  { destruct (Qle_bool (7 # 10) (Basic.kr_confidence kr)) eqn:E;
      [|reflexivity].
    apply Qle_bool_iff in E. exfalso. now apply (Qlt_not_le _ _ Hlt). }
  pose proof (@Basic.hybrid_adapter_ok uni_lower uni_isalnum uni_isspace
                categories openai_api_key chat_completion json_loads
                title description location tr d cat sev tr'
                Hc Hk Ha Hcat Hsev) as Hrun.
  fold kr in Hrun. fold agree in Hrun. fold llm_confidence in Hrun.
  destruct agree eqn:Hagree.
  - destruct (Hnum eq_refl) as [q Hq]. rewrite Hq in Hrun.
    eexists. split; [exact Hrun|].
    cbn [Basic.hybrid_response Basic.success Basic.category Basic.severity
         Basic.confidence Basic.extractedInfo Basic.method].
    split; [reflexivity|]. split; [reflexivity|]. split; [reflexivity|].
    split; [reflexivity|]. split; [|discriminate].
    intros _. exists q. split; [exact Hq|reflexivity].
  - eexists. split; [exact Hrun|].
    cbn [Basic.hybrid_response Basic.success Basic.category Basic.severity
         Basic.confidence Basic.extractedInfo Basic.method].
    split; [reflexivity|]. split; [reflexivity|]. split; [reflexivity|].
    split; [reflexivity|]. split; [discriminate|reflexivity].
Qed.

(** C1, where the code departs from it: the service answers with the
    confidence 1.7 and a category that is not the one of the keyword
    classifier; the arbiter returns 1.7 as the confidence of the response,
    which is above 1.  (The confidence of the answer is neither validated by
    the adapter, which validates the category and the severity, nor clamped
    by the arbiter, which caps it at 1.0 only when the categories agree.) *)
Theorem llm_confidence_not_clamped :
  let payload := Scenario.object "Water Supply" "High"
                   (Some (JNum (17 # 10))) in
  exists resp tr',
    Scenario.arbiter Scenario.key (Some payload)
      (lit "Complaint") Scenario.plain_description (lit "Ranchi") []
    = (Ok resp, tr')
    /\ Basic.method (Basic.extractedInfo resp) = lit "hybrid"
    /\ Basic.confidence resp = JNum (17 # 10)
    /\ 1 < 17 # 10.
Proof.
  intros payload. eexists _, _. split; [vm_compute; reflexivity|].
  cbn [Basic.confidence Basic.extractedInfo Basic.method].
  repeat split.
Qed.

(** Without the service the confidence of a response is in range: on the
    short circuit and on the fallback it is a number between 0 and 1. *)
Lemma keyword_branches_confidence_range
  (uni_lower : str -> str) (uni_isalnum uni_isspace : char -> bool)
  (categories : list Basic.Category) (title description : str) :
  let kr := Basic.keyword_classification uni_lower uni_isalnum uni_isspace
              categories title description in
  (exists q, Basic.confidence (Basic.keyword_response kr) = JNum q
             /\ 0 <= q /\ q <= 1)
  /\ (exists q, Basic.confidence (Basic.fallback_response kr) = JNum q
                /\ 0 <= q /\ q <= 1).
Proof.
  intros kr.
  destruct (Basic.keyword_confidence_range uni_lower uni_isalnum uni_isspace
              categories title description) as [H0 H1].
  fold kr in H0, H1. split.
  - exists (Basic.kr_confidence kr). auto.
  - exists (py_max (Basic.kr_confidence kr) (3 # 10)).
    split; [reflexivity|]. split.
    + apply Qle_trans with (Basic.kr_confidence kr);
        [exact H0|apply py_max_ge_l].
    + apply py_max_le; [exact H1|discriminate].
Qed.

(* ================================================================= *)
(** ** The adapter *)

(** C6. With a credential configured and a completion received, the
    adapter fails, with an exception that reaches its caller, exactly when
    the payload is not well-formed JSON or is not an object with both a
    [category] and a [severity] field.  Otherwise it returns the object, in
    which a category that is not a name of the catalog has become [Other]
    and a severity that is not one of the four levels has become
    [Medium]. *)
Theorem adapter_failure_iff
  (uni_isspace : char -> bool)
  (categories : list Basic.Category) (openai_api_key : option str)
  (chat_completion : Basic.llm_request -> Basic.completion)
  (json_loads : str -> option json)
  (title description location content : str)
  (tr : list Basic.llm_request) :
  let request := Basic.request_of categories title description location in
  let payload := json_loads (strip uni_isspace content) in
  let run := Basic.openai_classification uni_isspace categories
               openai_api_key chat_completion json_loads
               title description location tr in
  Basic.configured openai_api_key = true ->
  chat_completion request = Basic.Completion content ->
  ((exists e tr', run = (Raise e, tr'))
   <-> (payload = None
        \/ exists j, payload = Some j
             /\ (Basic.has_field j (lit "category") = false
                 \/ Basic.has_field j (lit "severity") = false)))
  /\ (forall d cat sev,
        payload = Some (JObj d) ->
        dict_get (lit "category") d = Some cat ->
        dict_get (lit "severity") d = Some sev ->
        exists r,
          run = (Ok (JObj r), tr ++ [request])
          /\ dict_get (lit "category") r
             = Some (if in_strs cat (Basic.category_names categories)
                     then cat else JStr (lit "Other"))
          /\ dict_get (lit "severity") r
             = Some (if in_strs sev Basic.valid_severities
                     then sev else JStr (lit "Medium"))).
Proof.
  intros request payload run Hk Hc.
  assert (Hok : forall d cat sev,
            payload = Some (JObj d) ->
            dict_get (lit "category") d = Some cat ->
            dict_get (lit "severity") d = Some sev ->
            run = (Ok (JObj (Basic.validated categories cat sev d)),
                   tr ++ [request])).
  { intros d cat sev Hp Hcat Hsev. unfold run.
    now apply Basic.adapter_ok with content. }
  split.
  - split.
    + intros [e [tr' Hfail]].
      destruct payload as [j|] eqn:Hp; [right|now left].
      exists j. split; [reflexivity|].
      destruct (Basic.has_field j (lit "category")) eqn:F1; [|now left].
      destruct (Basic.has_field j (lit "severity")) eqn:F2; [|now right].
      exfalso.
      apply Basic.has_field_get in F1 as [d [cat [-> Hcat]]].
      apply Basic.has_field_get in F2 as [d' [sev [E Hsev]]].
      inversion E; subst d'.
      rewrite (Hok d cat sev eq_refl Hcat Hsev) in Hfail. discriminate.
    + intros [Hp|[j [Hp Hf]]].
      * eexists _, _. unfold run.
        now apply Basic.adapter_malformed with content.
      * assert (Hf' : Basic.has_field j (lit "category")
                      && Basic.has_field j (lit "severity") = false).
        { destruct Hf as [-> | ->]; [reflexivity|apply andb_false_r]. }
        destruct (@Basic.adapter_lacking uni_isspace categories
                    openai_api_key chat_completion json_loads
                    title description location content j tr Hk Hc Hp Hf')
          as [e He].
        exists e. eexists. exact He.
  - intros d cat sev Hp Hcat Hsev.
    exists (Basic.validated categories cat sev d).
    split; [now apply Hok|]. split.
    + now apply Basic.validated_category.
    + now apply Basic.validated_severity.
Qed.

Lemma adapter_failure_iff_witness :
  let payload := Scenario.object "Foobar" "Severe" None in
  exists r tr',
    Scenario.adapter Scenario.key (Some payload)
      (lit "Complaint") Scenario.plain_description (lit "Ranchi") []
    = (Ok (JObj r), tr')
    /\ dict_get (lit "category") r = Some (JStr (lit "Other"))
    /\ dict_get (lit "severity") r = Some (JStr (lit "Medium")).
Proof.
  intros payload.
  destruct (@adapter_failure_iff Ascii7.isspace Scenario.catalog Scenario.key
              (Scenario.service (Basic.Completion (lit "  {...} ")))
              (Scenario.loads (Some payload))
              (lit "Complaint") Scenario.plain_description (lit "Ranchi")
              (lit "  {...} ") [] eq_refl eq_refl) as [_ H].
  destruct (H _ (JStr (lit "Foobar")) (JStr (lit "Severe"))
              ltac:(vm_compute; reflexivity) eq_refl eq_refl)
    as [r [Hrun [Hcat Hsev]]].
  exists r. eexists. split; [exact Hrun|]. split; assumption.
Defined.

(* ================================================================= *)
(** ** The category of a result *)

(** C2. The category of every result is a name of the catalog or the
    default category.  In the basic variant the arbiter always returns a
    response, whose category is a name of [categories] or [Other]; when the
    answer of the service names a category that is not in the catalog, the
    category of the response is [Other].  In the enhanced variant the
    category of every result [classify_text] returns is a key of the table
    of categories; it returns one whenever the location of the request is
    absent, falsy or a string (on any other location the call of [strip]
    raises); and its adapter [classify_with_openai] always returns a key of
    the table, its default [Infrastructure] being one of them. *)
Theorem category_in_catalog_or_default :
  (forall (uni_lower : str -> str) (uni_isalnum uni_isspace : char -> bool)
          (categories : list Basic.Category) (openai_api_key : option str)
          (chat_completion : Basic.llm_request -> Basic.completion)
          (json_loads : str -> option json)
          (title description location : str) (tr : list Basic.llm_request),
      exists resp tr',
        Basic.hybrid_classification uni_lower uni_isalnum uni_isspace
          categories openai_api_key chat_completion json_loads
          title description location tr
        = (Ok resp, tr')
        /\ (exists c, Basic.category resp = JStr c
              /\ (In c (List.map Basic.name categories) \/ c = lit "Other"))
        /\ forall r kr cat,
             Basic.extractedInfo resp = Basic.InfoHybrid (JObj r) kr ->
             (forall content,
                chat_completion
                  (Basic.request_of categories title description location)
                = Basic.Completion content ->
                exists d, json_loads (strip uni_isspace content)
                          = Some (JObj d)
                          /\ dict_get (lit "category") d = Some cat) ->
             in_strs cat (List.map Basic.name categories) = false ->
             Basic.category resp = JStr (lit "Other"))
  /\ (forall (uni_lower : str -> str)
             (uni_isspace uni_isdecimal : char -> bool)
             (polarity : str -> option Q) (api_key : option str)
             (chat_completion : str -> Enhanced.completion)
             (text : str) (location user_phone : json)
             (tr : list Enhanced.event),
        (forall r tr',
           EnhancedClassifier.classify_text uni_lower uni_isspace
             uni_isdecimal polarity api_key chat_completion
             text location user_phone tr
           = (Ok r, tr') ->
           In (EnhancedClassifier.category r)
             (List.map fst Enhanced.load_categories))
        /\ (EnhancedClassifier.usable_location location = true ->
            exists r tr',
              EnhancedClassifier.classify_text uni_lower uni_isspace
                uni_isdecimal polarity api_key chat_completion
                text location user_phone tr
              = (Ok r, tr'))
        /\ (exists c q tr',
              Enhanced.classify_with_openai uni_isspace api_key
                chat_completion text tr
              = (Ok (c, q), tr')
              /\ In c (List.map fst Enhanced.load_categories))).
Proof.
  split.
  - intros.
    destruct (Basic.hybrid_total uni_lower uni_isalnum uni_isspace categories
                openai_api_key chat_completion json_loads
                title description location tr)
      as [resp [tr' [Hrun [_ [Hcat _]]]]].
    exists resp, tr'. split; [exact Hrun|]. split; [exact Hcat|].
    intros r kr cat Hinfo Hpayload Hnot.
    (* the response is the one of the second branch *)
    destruct (Qle_bool (7 # 10)
                (Basic.kr_confidence
                   (Basic.keyword_classification uni_lower uni_isalnum
                      uni_isspace categories title description))) eqn:Hc.
    { rewrite Basic.hybrid_high in Hrun by assumption.
      inversion Hrun; subst. discriminate Hinfo. }
    destruct (Basic.configured openai_api_key) eqn:Hk.
    2:{ rewrite Basic.hybrid_unconfigured in Hrun by assumption.
        inversion Hrun; subst. discriminate Hinfo. }
    destruct (Basic.openai_classification uni_isspace categories
                openai_api_key chat_completion json_loads
                title description location tr) as [[res|e] tr1] eqn:Ha.
    2:{ erewrite Basic.hybrid_adapter_fail in Hrun by eassumption.
        inversion Hrun; subst. discriminate Hinfo. }
    pose proof Ha as Hinv. apply Basic.adapter_inversion in Hinv
      as [content [d [cat0 [sev0 [_ [Hch [Hj [Hcat0 [Hsev0 [-> _]]]]]]]]]].
    destruct (Hpayload content Hch) as [d' [Hj' Hcat']].
    rewrite Hj in Hj'. inversion Hj'; subst d'.
    rewrite Hcat0 in Hcat'. inversion Hcat'; subst cat0.
    pose proof (@Basic.validated_category categories cat sev0 d Hcat0) as Hv.
    unfold Basic.category_names in Hv. rewrite Hnot in Hv.
    assert (Hs : dict_get (lit "severity")
                   (Basic.validated categories cat sev0 d)
                 = Some (if in_strs sev0 Basic.valid_severities
                         then sev0 else JStr (lit "Medium")))
      by now apply Basic.validated_severity.
    erewrite Basic.hybrid_adapter_ok in Hrun by eassumption.
    destruct (eq_str (JStr (lit "Other")) _) eqn:Heq.
    + destruct (py_add_float _ _).
      * inversion Hrun; subst. reflexivity.
      * inversion Hrun; subst. discriminate Hinfo.
    + inversion Hrun; subst. reflexivity.
  - intros. split; [|split].
    + intros r tr' Hrun.
      now apply EnhancedClassifierFacts.classify_text_returned in Hrun.
    + intros Hu.
      destruct (EnhancedClassifierFacts.best_category_of_total uni_isspace
                  api_key chat_completion text (uni_lower text)
                  (Enhanced.calculate_urgency (uni_lower text)) tr)
        as [chosen [tr1 [Hb _]]].
      destruct (@EnhancedClassifierFacts.classify_text_usable uni_lower
                  uni_isspace uni_isdecimal polarity api_key chat_completion
                  text location user_phone tr tr1 chosen Hu Hb)
        as [r [Hrun _]].
      now exists r, tr1.
    + destruct (Enhanced.classify_with_openai_total uni_isspace api_key
                  chat_completion text tr) as [c [q [tr' [Hc [Hk _]]]]].
      now exists c, q, tr'.
Qed.

Lemma category_in_catalog_or_default_witness :
  let payload := Scenario.object "Foobar" "High" (Some (JNum (9 # 10))) in
  exists resp tr',
    Scenario.arbiter Scenario.key (Some payload)
      (lit "Complaint") Scenario.long_description (lit "Ranchi") []
    = (Ok resp, tr')
    /\ Basic.method (Basic.extractedInfo resp) = lit "hybrid"
    /\ Basic.category resp = JStr (lit "Other").
Proof.
  intros payload.
  destruct category_in_catalog_or_default as [H _].
  destruct (H Ascii7.lower Ascii7.isalnum Ascii7.isspace
              Scenario.catalog Scenario.key
              (Scenario.service (Basic.Completion (lit "  {...} ")))
              (Scenario.loads (Some payload))
              (lit "Complaint") Scenario.long_description (lit "Ranchi") [])
    as [resp [tr' [Hrun [_ Hother]]]].
  exists resp, tr'. split; [exact Hrun|].
  vm_compute in Hrun. inversion Hrun; subst resp tr'. clear Hrun.
  split; [reflexivity|].
  eapply Hother with (cat := JStr (lit "Foobar")).
  - reflexivity.
  - intros content Hc. inversion Hc; subst content.
    eexists. split; [vm_compute; reflexivity|reflexivity].
  - vm_compute; reflexivity.
Defined.

(* ================================================================= *)
(** ** The keyword classifier *)





(* ================================================================= *)
(** ** The route [/classify] of the enhanced variant *)

(** C10. In the enhanced variant the route [/classify] rejects a request
    whose [text], a string, has fewer than 10 characters once the
    surrounding whitespace is stripped: the reply has [success] false and
    the error message of the length check, with status 400, and
    [classify_text] is not called (the trace is the one the route started
    with), whatever [classify_text] is.  That the field is present is not
    enough. *)
Theorem short_text_rejected
  (uni_isspace : char -> bool) (A : Type)
  (classify_text : str -> json -> json -> M Enhanced.event A)
  (fields : list (str * json)) (text : str) (tr : list Enhanced.event) :
  dict_get (lit "text") fields = Some (JStr text) ->
  (List.length (strip uni_isspace text) < 10)%nat ->
  exists r,
    Enhanced.classify_complaint uni_isspace classify_text
      (Some (JObj fields)) tr
    = (Ok r, tr)
    /\ Enhanced.success r = false
    /\ r = Enhanced.Failure
             (inl (lit "Text must be at least 10 characters long")) 400.
Proof.
  intros Ht Hlen.
  eexists. split; [|split; [|reflexivity]]; [|reflexivity].
  unfold Enhanced.classify_complaint, try_except, bind, lift, ret.
  assert (Hf : falsy (JObj fields) = false).
  { destruct fields; [discriminate|reflexivity]. }
  rewrite Hf. unfold py_in, dict_has, py_getitem. rewrite Ht. cbn [negb].
  unfold Enhanced.py_strip, py_get.
  apply Nat.ltb_lt in Hlen.
  destruct (dict_get (lit "location") fields);
    destruct (dict_get (lit "user_phone") fields);
    rewrite Hlen; reflexivity.
Qed.

Lemma short_text_rejected_witness :
  let data := JObj [(lit "text", JStr (lit "   pothole  "));
                    (lit "location", JStr (lit "Ranchi"))] in
  exists r,
    Enhanced.classify_complaint Ascii7.isspace
      (EnhancedClassifier.classify_text Ascii7.lower Ascii7.isspace
         Ascii7.isdecimal (fun _ => None) None
         (fun _ => Enhanced.NoCompletion))
      (Some data) []
    = (Ok r, [])
    /\ Enhanced.success r = false
    /\ r = Enhanced.Failure
             (inl (lit "Text must be at least 10 characters long")) 400.
Proof.
  intros data.
  apply (@short_text_rejected Ascii7.isspace _ _ _ (lit "   pothole  ")).
  - reflexivity.
  - vm_compute. lia.
Defined.

(* ================================================================= *)
(** ** More on the normalizer and the keyword classifier *)

Module BasicFacts.

Import Basic.

Lemma startswith_chars (p s : str) (c : char) :
  startswith p s = true -> In c p -> In c s.
Proof.
  revert s. induction p as [|x p IH]; intros s H Hc; [contradiction|].
  destruct s as [|y s]; [discriminate|].
  simpl in H. apply andb_true_iff in H as [Hxy Hp].
  unfold char_eqb in Hxy. apply N.eqb_eq in Hxy. subst y.
  destruct Hc as [<-|Hc]; [now left|right; now apply IH].
Qed.

(** The characters of a substring are characters of the string. *)
Lemma contains_chars (sub s : str) (c : char) :
  contains sub s = true -> In c sub -> In c s.
Proof.
  induction s as [|y s IH]; intros H Hc.
  - simpl in H. rewrite orb_false_r in H.
    now apply (startswith_chars sub [] c).
  - simpl in H. apply orb_true_iff in H as [H|H].
    + now apply (startswith_chars sub (y :: s) c).
    + right. now apply IH.
Qed.

Lemma dict_get_app_none {V} (k : str) (d1 d2 : list (str * V)) :
  dict_get k d1 = None -> dict_get k (d1 ++ d2) = dict_get k d2.
Proof.
  induction d1 as [|[k' v'] d1 IH]; simpl; [reflexivity|].
  destruct (eqb k k'); [discriminate|exact IH].
Qed.

(** A new key goes to the end of the dictionary. *)
Lemma dict_set_fresh {V} (k : str) (v : V) (d : list (str * V)) :
  dict_get k d = None -> dict_set k v d = d ++ [(k, v)].
Proof.
  induction d as [|[k' v'] d IH]; simpl; [reflexivity|].
  destruct (eqb k k'); [discriminate|].
  intros H. now rewrite IH.
Qed.

(** [max] returns the first of the largest items. *)
Lemma max_by_first_aux {A} (key : A -> nat) (l pre mid : list A) (x : A) :
  (forall y, In y pre -> (key y < key x)%nat) ->
  (forall y, In y mid -> (key y <= key x)%nat) ->
  exists l1 l2,
    pre ++ x :: mid ++ l = l1 ++ max_by key x l :: l2
    /\ (forall y, In y l1 -> (key y < key (max_by key x l))%nat)
    /\ (forall y, In y l2 -> (key y <= key (max_by key x l))%nat).
Proof.
  revert pre mid x. induction l as [|z l IH]; intros pre mid x Hpre Hmid.
  - exists pre, mid. rewrite app_nil_r. auto.
  - simpl. destruct (key x <? key z)%nat eqn:E.
    + apply Nat.ltb_lt in E.
      destruct (IH (pre ++ x :: mid) [] z) as [l1 [l2 [Heq H]]].
      * intros y Hy. apply in_app_or in Hy as [Hy|[<-|Hy]].
        -- specialize (Hpre y Hy). lia.
        -- exact E.
        -- specialize (Hmid y Hy). lia.
      * intros y [].
      * exists l1, l2. split; [|exact H].
        rewrite <- Heq. rewrite <- app_assoc. reflexivity.
    + apply Nat.ltb_ge in E.
      destruct (IH pre (mid ++ [z]) x) as [l1 [l2 [Heq H]]].
      * exact Hpre.
      * intros y Hy. apply in_app_or in Hy as [Hy|[<-|[]]]; auto.
      * exists l1, l2. split; [|exact H].
        rewrite <- Heq. rewrite <- app_assoc. reflexivity.
Qed.

Lemma max_by_first {A} (key : A -> nat) (x : A) (l : list A) :
  exists l1 l2,
    x :: l = l1 ++ max_by key x l :: l2
    /\ (forall y, In y l1 -> (key y < key (max_by key x l))%nat)
    /\ (forall y, In y l2 -> (key y <= key (max_by key x l))%nat).
Proof.
  destruct (@max_by_first_aux A key l [] [] x) as [l1 [l2 H]];
    [intros y []|intros y []|].
  exists l1, l2. exact H.
Qed.

(** A cut of [map f (filter g l)] comes from a cut of [l]. *)
Lemma map_filter_split {A B} (f : A -> B) (g : A -> bool) (l : list A)
  (l1 l2 : list B) (m : B) :
  List.map f (filter g l) = l1 ++ m :: l2 ->
  exists L1 c L2,
    l = L1 ++ c :: L2 /\ g c = true /\ f c = m
    /\ List.map f (filter g L1) = l1 /\ List.map f (filter g L2) = l2.
Proof.
  revert l1. induction l as [|a l IH]; intros l1 H.
  - destruct l1; discriminate.
  - simpl in H. destruct (g a) eqn:Ga.
    + destruct l1 as [|b l1].
      * simpl in H. inversion H; subst.
        exists [], a, l. simpl. auto.
      * simpl in H. inversion H; subst.
        destruct (IH l1 H2) as [L1 [c [L2 [-> [Gc [Fc [H1' H2']]]]]]].
        exists (a :: L1), c, L2. simpl. rewrite Ga. simpl.
        repeat split; try assumption. now rewrite H1'.
    + destruct (IH l1 H) as [L1 [c [L2 [-> [Gc [Fc [H1' H2']]]]]]].
      exists (a :: L1), c, L2. simpl. rewrite Ga. auto.
Qed.

Section Scan.

Variable uni_lower : str -> str.
Variable categories : list Category.
Variable p : str.

(** The keywords of a category that occur in the text [p]. *)
Definition hits (c : Category) : list str :=
  match_keywords uni_lower p (keywords c).

Definition hit (c : Category) : bool := (0 <? List.length (hits c))%nat.

Definition entry (c : Category) : str * category_score :=
  (name c, (List.length (hits c), hits c)).

(** With names that differ, [category_scores] lists the categories that
    have a keyword in the text, in the order of the catalog. *)
Lemma scan_fold_nodup (l : list Category) st :
  NoDup (List.map name l) ->
  (forall c, In c l -> dict_get (name c) (fst st) = None) ->
  fst (fold_left (scan_category uni_lower p) l st)
  = fst st ++ List.map entry (filter hit l).
Proof.
  revert st. induction l as [|c l IH]; intros st Hnd Hfresh.
  - simpl. now rewrite app_nil_r.
  - simpl in Hnd. inversion Hnd as [|? ? Hnotin Hnd']; subst.
    cbn [fold_left]. rewrite IH; [|exact Hnd'|].
    + unfold scan_category at 1. cbn [fst]. fold (hits c).
      cbn [filter]. unfold hit at 2.
      destruct (0 <? List.length (hits c))%nat.
      * rewrite dict_set_fresh by (apply Hfresh; now left).
        cbn [List.map]. now rewrite <- app_assoc.
      * reflexivity.
    + intros c' Hc'. unfold scan_category. cbn [fst]. fold (hits c).
      assert (Hne : eqb (name c') (name c) = false).
      { destruct (eqb (name c') (name c)) eqn:E; [|reflexivity].
        apply eqb_eq in E. exfalso. apply Hnotin. rewrite <- E.
        now apply in_map. }
      destruct (0 <? List.length (hits c))%nat.
      * rewrite dict_get_set_other by exact Hne. apply Hfresh. now right.
      * apply Hfresh. now right.
Qed.

Lemma scan_nodup :
  NoDup (List.map name categories) ->
  fst (scan uni_lower categories p) = List.map entry (filter hit categories).
Proof.
  intros Hnd. unfold scan. rewrite scan_fold_nodup; [reflexivity|exact Hnd|].
  intros c _. reflexivity.
Qed.

(** Whatever the names, [category_scores] is empty exactly when no
    category has a keyword in the text. *)
Lemma scan_fold_nil (l : list Category) st :
  fst (fold_left (scan_category uni_lower p) l st) = [] <->
  fst st = [] /\ forall c, In c l -> hits c = [].
Proof.
  revert st. induction l as [|c l IH]; intros st.
  - simpl. split; [intros H; split; [exact H|intros c []]|now intros [H _]].
  - cbn [fold_left]. rewrite IH. unfold scan_category. cbn [fst].
    fold (hits c).
    destruct (hits c) as [|k ks] eqn:E; cbn [List.length Nat.ltb Nat.leb].
    + split.
      * intros [H0 Hl]. split; [exact H0|].
        intros c' [<-|Hc']; [exact E|now apply Hl].
      * intros [H0 Hl]. split; [exact H0|]. intros c' Hc'. apply Hl.
        now right.
    + split.
      * intros [H0 _]. exfalso.
        destruct (fst st) as [|[k' v'] d]; simpl in H0; [discriminate|].
        destruct (eqb (name c) k'); discriminate.
      * intros [_ Hl]. exfalso.
        specialize (Hl c (or_introl eq_refl)). congruence.
Qed.

End Scan.

End BasicFacts.

(** X1. Every character of a normalized text is the space U+0020 or a
    word character that is not whitespace: punctuation and every other
    kind of whitespace are gone. *)
Theorem preprocess_text_alphabet
  (uni_lower : str -> str) (uni_isalnum uni_isspace : char -> bool)
  (text : str) (c : char) :
  In c (preprocess_text uni_lower uni_isalnum uni_isspace text) ->
  c = SPACE \/ (re_word uni_isalnum c = true /\ uni_isspace c = false).
Proof.
  destruct text as [|a text]; [intros []|].
  unfold preprocess_text. intros Hc.
  apply join_chars in Hc as [->|[w [Hw Hc]]]; [now left|].
  set (t := re_sub_nonword uni_isalnum uni_isspace (uni_lower (a :: text)))
    in *.
  pose proof (split_tokens uni_isspace t) as Htok.
  rewrite Forall_forall in Htok. destruct (Htok w Hw) as [_ Hns].
  specialize (Hns c Hc).
  pose proof (split_chars _ _ _ _ Hw Hc) as Hin.
  unfold t, re_sub_nonword in Hin.
  apply in_map_iff in Hin as [c0 [Hc0 _]].
  destruct (re_word uni_isalnum c0 || re_space uni_isspace c0) eqn:Hk.
  - subst c0. right. split; [|exact Hns].
    unfold re_space in Hk. now rewrite Hns, orb_false_r in Hk.
  - now left.
Qed.

Lemma preprocess_text_alphabet_witness :
  preprocess_text Ascii7.lower Ascii7.isalnum Ascii7.isspace
    (lit "Mid-day meal") = lit "mid day meal"
  /\ In 109%N (preprocess_text Ascii7.lower Ascii7.isalnum Ascii7.isspace
                 (lit "Mid-day meal"))
  /\ (109%N = SPACE
      \/ (re_word Ascii7.isalnum 109%N = true
          /\ Ascii7.isspace 109%N = false)).
Proof.
  split; [reflexivity|].
  assert (H : In 109%N (preprocess_text Ascii7.lower Ascii7.isalnum
                          Ascii7.isspace (lit "Mid-day meal"))).
  { vm_compute. auto. }
  split; [exact H|].
  exact (@preprocess_text_alphabet Ascii7.lower Ascii7.isalnum
           Ascii7.isspace (lit "Mid-day meal") 109%N H).
Defined.

(** X2. A normalized text is in the canonical form of its whitespace:
    splitting it at whitespace and joining the words with one space gives
    it back, so it has no leading, trailing or doubled space. *)
Theorem preprocess_text_canonical
  (uni_lower : str -> str) (uni_isalnum uni_isspace : char -> bool)
  (text : str) :
  uni_isspace SPACE = true ->
  let p := preprocess_text uni_lower uni_isalnum uni_isspace text in
  join [SPACE] (split uni_isspace p) = p.
Proof.
  intros Hsp p. unfold p. destruct text as [|a text]; [reflexivity|].
  unfold preprocess_text.
  rewrite split_join; [reflexivity|exact Hsp|apply split_tokens].
Qed.

Lemma preprocess_text_canonical_witness :
  let p := preprocess_text Ascii7.lower Ascii7.isalnum Ascii7.isspace
             (lit "  Gas   leak!! near   MARKET ") in
  p = lit "gas leak near market"
  /\ join [SPACE] (split Ascii7.isspace p) = p.
Proof.
  split; [reflexivity|].
  apply (@preprocess_text_canonical Ascii7.lower Ascii7.isalnum
           Ascii7.isspace (lit "  Gas   leak!! near   MARKET ")).
  reflexivity.
Defined.

(** X3. A keyword whose lower case holds a character that is neither a
    word character nor the space (a hyphen, say) never matches: it does
    not occur in any normalized text, and it is never among the matched
    keywords of the keyword classifier. *)
Theorem punctuated_keyword_never_matches
  (uni_lower : str -> str) (uni_isalnum uni_isspace : char -> bool)
  (categories : list Basic.Category) (kw : str) (c : char)
  (title description : str) :
  In c (uni_lower kw) -> c <> SPACE -> re_word uni_isalnum c = false ->
  (forall text,
     Basic.occurs uni_lower
       (preprocess_text uni_lower uni_isalnum uni_isspace text) kw = false)
  /\ ~ In kw (Basic.kr_matched_keywords
                (Basic.keyword_classification uni_lower uni_isalnum
                   uni_isspace categories title description)).
Proof.
  intros Hc Hsp Hw.
  assert (Hnever : forall text,
            Basic.occurs uni_lower
              (preprocess_text uni_lower uni_isalnum uni_isspace text) kw
            = false).
  { intros text. unfold Basic.occurs.
    destruct (contains (uni_lower kw)
                (preprocess_text uni_lower uni_isalnum uni_isspace text))
      eqn:E; [|reflexivity].
    pose proof (BasicFacts.contains_chars _ _ c E Hc) as Hin.
    apply preprocess_text_alphabet in Hin as [->|[Hw' _]]; congruence. }
  split; [exact Hnever|].
  intros Hin.
  destruct (Basic.keyword_category uni_lower uni_isalnum uni_isspace
              categories title description) as [[_ [Hm _]]|[c0 H]].
  - rewrite Hm in Hin. contradiction.
  - destruct H as [_ [_ [Hm _]]]. rewrite Hm in Hin.
    unfold Basic.match_keywords in Hin. apply filter_In in Hin as [_ Hocc].
    rewrite Hnever in Hocc. discriminate.
Qed.

Lemma punctuated_keyword_never_matches_witness :
  let school :=
    [ {| Basic.name := lit "Education";
         Basic.keywords := [lit "school"; lit "mid-day meal"];
         Basic.severity_indicators := [] |} ] in
  Basic.kr_matched_keywords
    (Basic.keyword_classification Ascii7.lower Ascii7.isalnum Ascii7.isspace
       school (lit "Mid-day meal") (lit "is not served at the school"))
  = [lit "school"]
  /\ ~ In (lit "mid-day meal")
         (Basic.kr_matched_keywords
            (Basic.keyword_classification Ascii7.lower Ascii7.isalnum
               Ascii7.isspace school (lit "Mid-day meal")
               (lit "is not served at the school"))).
Proof.
  intros school. split; [reflexivity|].
  apply (@punctuated_keyword_never_matches Ascii7.lower Ascii7.isalnum
           Ascii7.isspace school (lit "mid-day meal") 45%N).
  - vm_compute. auto.
  - discriminate.
  - reflexivity.
Defined.

(** X4. The keyword classifier falls back to its defaults exactly when no
    keyword of any category occurs in the normalized text (an empty
    catalog included): [category_scores] is then empty, the category is
    [Other], no keyword is matched and the confidence is 0. *)
Theorem no_keyword_default
  (uni_lower : str -> str) (uni_isalnum uni_isspace : char -> bool)
  (categories : list Basic.Category) (title description : str) :
  let r := Basic.keyword_classification uni_lower uni_isalnum uni_isspace
             categories title description in
  let p := preprocess_text uni_lower uni_isalnum uni_isspace
             (title ++ [SPACE] ++ description) in
  (Basic.kr_category_scores r = [] <->
   forall c, In c categories ->
     filter (fun kw => contains (uni_lower kw) p) (Basic.keywords c) = [])
  /\ (Basic.kr_category_scores r = [] ->
      Basic.kr_category r = lit "Other"
      /\ Basic.kr_matched_keywords r = []
      /\ Basic.kr_confidence r == 0).
Proof.
  intros r p. split.
  - unfold r, Basic.keyword_classification. cbn [Basic.kr_category_scores].
    fold p. unfold Basic.scan. rewrite BasicFacts.scan_fold_nil.
    cbn [fst]. unfold BasicFacts.hits, Basic.match_keywords, Basic.occurs.
    split; [now intros [_ H]|auto].
  - unfold r, Basic.keyword_classification.
    cbn [Basic.kr_category_scores Basic.kr_category Basic.kr_matched_keywords
         Basic.kr_confidence]. fold p.
    intros ->. cbn [Basic.best_of fst snd]. repeat split.
    unfold Basic.confidence_of.
    destruct (0 <? _)%nat; [|reflexivity].
    assert (Hz : of_nat 0 / py_max
                   (of_nat (List.length (split uni_isspace p)) * (1 # 10)) 1
                 == 0).
    { unfold Qdiv. apply Qmult_0_l. }
    unfold py_min. destruct (Qlt_bool 1 _) eqn:E; [|exact Hz].
    apply Qlt_bool_iff in E. rewrite Hz in E. discriminate E.
Qed.

(** X5. With category names that differ, the category of the keyword
    classifier is the first category of the catalog among those with the
    most matched keywords: every category before it has fewer of them and
    no category after it has more. *)
Theorem best_category_first_of_the_best
  (uni_lower : str -> str) (uni_isalnum uni_isspace : char -> bool)
  (categories : list Basic.Category) (title description : str) :
  let r := Basic.keyword_classification uni_lower uni_isalnum uni_isspace
             categories title description in
  let p := preprocess_text uni_lower uni_isalnum uni_isspace
             (title ++ [SPACE] ++ description) in
  let matched (c : Basic.Category) :=
    filter (fun kw => contains (uni_lower kw) p) (Basic.keywords c) in
  NoDup (List.map Basic.name categories) ->
  Basic.kr_category_scores r <> [] ->
  exists before best after,
    categories = before ++ best :: after
    /\ Basic.kr_category r = Basic.name best
    /\ Basic.kr_matched_keywords r = matched best
    /\ (forall c, In c before ->
          (List.length (matched c) < List.length (matched best))%nat)
    /\ (forall c, In c after ->
          (List.length (matched c) <= List.length (matched best))%nat).
Proof.
  intros r p matched Hnd Hne.
  unfold r, Basic.keyword_classification in *.
  cbn [Basic.kr_category_scores Basic.kr_category Basic.kr_matched_keywords]
    in *.
  fold p in Hne |- *.
  rewrite (@BasicFacts.scan_nodup uni_lower categories p Hnd) in *.
  set (hit := BasicFacts.hit uni_lower p) in *.
  set (entry := BasicFacts.entry uni_lower p) in *.
  destruct (List.map entry (filter hit categories)) as [|x l] eqn:E;
    [congruence|].
  cbn [Basic.best_of].
  destruct (@BasicFacts.max_by_first _ (fun x => fst (snd x)) x l)
    as [l1 [l2 [Hcut [Hlt Hle]]]].
  pose proof (eq_trans E Hcut) as E'.
  destruct (@BasicFacts.map_filter_split _ _ entry hit categories l1 l2 _ E')
    as [L1 [c [L2 [Hcat [Hhit [Hentry [H1 H2]]]]]]].
  exists L1, c, L2. rewrite <- Hentry in *. cbn [entry BasicFacts.entry fst snd]
    in *.
  assert (Hpos : (0 < List.length (matched c))%nat).
  { unfold hit, BasicFacts.hit in Hhit. apply Nat.ltb_lt in Hhit.
    exact Hhit. }
  repeat split; try assumption; try reflexivity.
  - intros c' Hc'. destruct (hit c') eqn:Hh.
    + apply (Hlt (entry c')). rewrite <- H1. apply in_map.
      apply filter_In. auto.
    + unfold hit, BasicFacts.hit in Hh. apply Nat.ltb_ge in Hh.
      change (BasicFacts.hits uni_lower p c') with (matched c') in Hh. lia.
  - intros c' Hc'. destruct (hit c') eqn:Hh.
    + apply (Hle (entry c')). rewrite <- H2. apply in_map.
      apply filter_In. auto.
    + unfold hit, BasicFacts.hit in Hh. apply Nat.ltb_ge in Hh.
      change (BasicFacts.hits uni_lower p c') with (matched c') in Hh. lia.
Qed.

Lemma best_category_first_of_the_best_witness :
  let r := Scenario.keyword (lit "Water leak") (lit "on the road") in
  Basic.kr_category r = lit "Water Supply"
  /\ exists before best after,
       Scenario.catalog = before ++ best :: after
       /\ Basic.kr_category r = Basic.name best
       /\ (forall c, In c before ->
             (List.length
                (filter (fun kw => contains (Ascii7.lower kw)
                                     (lit "water leak on the road"))
                   (Basic.keywords c))
              < List.length (Basic.kr_matched_keywords r))%nat).
Proof.
  intros r. split; [reflexivity|].
  destruct (@best_category_first_of_the_best Ascii7.lower Ascii7.isalnum
              Ascii7.isspace Scenario.catalog (lit "Water leak")
              (lit "on the road"))
    as [before [best [after [Hcut [Hname [Hm [Hlt _]]]]]]].
  - repeat constructor; simpl; intuition discriminate.
  - vm_compute; discriminate.
  - exists before, best, after. split; [exact Hcut|]. split; [exact Hname|].
    intros c Hc. unfold r, Scenario.keyword. rewrite Hm. now apply Hlt.
Defined.

(* ================================================================= *)
(** ** More on the adapter and the arbiter *)

(** X6. The arbiter never raises, whatever the service and [json.loads]
    do: it returns a response with [success] true, and the confidence of
    the response is bound by the branch taken.  On the short circuit
    (method [keyword]) it is between 0.7 and 1; on the fallback (method
    [keyword_fallback]) it is at least 0.3 and below 0.7; on the merge
    (method [hybrid]) with agreeing categories it is a float that is never
    above 1: a number that is at most 1, or the [NaN] or [-Infinity] of an
    answer of the service that carries one. *)
Theorem confidence_band_of_each_branch
  (uni_lower : str -> str) (uni_isalnum uni_isspace : char -> bool)
  (categories : list Basic.Category) (openai_api_key : option str)
  (chat_completion : Basic.llm_request -> Basic.completion)
  (json_loads : str -> option json)
  (title description location : str) (tr : list Basic.llm_request) :
  exists resp tr',
    Basic.hybrid_classification uni_lower uni_isalnum uni_isspace categories
      openai_api_key chat_completion json_loads title description location tr
    = (Ok resp, tr')
    /\ Basic.success resp = true
    /\ match Basic.extractedInfo resp with
       | Basic.InfoKeyword _ _ =>
           exists q, Basic.confidence resp = JNum q
                     /\ 7 # 10 <= q /\ q <= 1
       | Basic.InfoFallback _ _ =>
           exists q, Basic.confidence resp = JNum q
                     /\ 3 # 10 <= q /\ q < 7 # 10
       | Basic.InfoHybrid _ kr =>
           eq_str (Basic.category resp) (Basic.kr_category kr) = true ->
           match Basic.confidence resp with
           | JNum q => q <= 1
           | JNaN => True
           | JInf negative => negative = true
           | _ => False
           end
       end.
Proof.
  set (kr := Basic.keyword_classification uni_lower uni_isalnum uni_isspace
               categories title description).
  destruct (Basic.keyword_confidence_range uni_lower uni_isalnum uni_isspace
              categories title description) as [H0 H1].
  fold kr in H0, H1.
  assert (Hfb : Qle_bool (7 # 10) (Basic.kr_confidence kr) = false ->
                exists q, Basic.confidence (Basic.fallback_response kr)
                          = JNum q /\ 3 # 10 <= q /\ q < 7 # 10).
  { intros Hc. eexists. split; [reflexivity|]. split; [apply py_max_ge_r|].
    assert (Hlt : Basic.kr_confidence kr < 7 # 10).
    { apply Qnot_le_lt. intros Hle. apply Qle_bool_iff in Hle. congruence. }
    unfold py_max. destruct (Qlt_bool _ _); [reflexivity|exact Hlt]. }
  destruct (Qle_bool (7 # 10) (Basic.kr_confidence kr)) eqn:Hc.
  { eexists _, _. rewrite Basic.hybrid_high by exact Hc.
    split; [reflexivity|]. split; [reflexivity|].
    cbn [Basic.keyword_response Basic.extractedInfo Basic.confidence].
    eexists. split; [reflexivity|]. split; [|exact H1].
    now apply Qle_bool_iff. }
  destruct (Basic.configured openai_api_key) eqn:Hk.
  2:{ eexists _, _. rewrite Basic.hybrid_unconfigured by assumption.
      split; [reflexivity|]. split; [reflexivity|]. now apply Hfb. }
  destruct (Basic.openai_classification uni_isspace categories openai_api_key
              chat_completion json_loads title description location tr)
    as [[r|e] tr'] eqn:Ha.
  2:{ eexists _, _. erewrite Basic.hybrid_adapter_fail by eassumption.
      split; [reflexivity|]. split; [reflexivity|]. now apply Hfb. }
  pose proof Ha as Hv. apply Basic.adapter_result_valid in Hv
    as [d [cat [sev [-> [Hcat [Hsev _]]]]]].
  erewrite Basic.hybrid_adapter_ok by eassumption. fold kr.
  destruct (eq_str cat (Basic.kr_category kr)) eqn:Hagree.
  - destruct (py_add_float (Basic.llm_confidence d) (2 # 10)) as [q|e].
    + eexists _, _. split; [reflexivity|]. split; [reflexivity|].
      cbn [Basic.hybrid_response Basic.extractedInfo Basic.confidence
           Basic.category].
      intros _. destruct q as [q| |[|]]; cbn [float_min of_float];
        [apply py_min_le_r|exact I|reflexivity|apply Qle_refl].
    + eexists _, _. split; [reflexivity|]. split; [reflexivity|].
      now apply Hfb.
  - eexists _, _. split; [reflexivity|]. split; [reflexivity|].
    cbn [Basic.hybrid_response Basic.extractedInfo Basic.confidence
         Basic.category].
    intros E. congruence.
Qed.

(** The trace of the adapter, with a credential. *)
Lemma adapter_trace
  (uni_isspace : char -> bool)
  (categories : list Basic.Category) (openai_api_key : option str)
  (chat_completion : Basic.llm_request -> Basic.completion)
  (json_loads : str -> option json)
  (title description location : str) (tr : list Basic.llm_request) :
  Basic.configured openai_api_key = true ->
  snd (Basic.openai_classification uni_isspace categories
         openai_api_key chat_completion json_loads
         title description location tr)
  = tr ++ [Basic.request_of categories title description location].
Proof.
  intros Hk.
  destruct (chat_completion
              (Basic.request_of categories title description location))
    as [|content] eqn:Hc.
  { now rewrite Basic.adapter_transport. }
  destruct (json_loads (strip uni_isspace content)) as [j|] eqn:Hj.
  2:{ now erewrite Basic.adapter_malformed by eassumption. }
  erewrite Basic.adapter_parsed by eassumption.
  destruct (Basic.has_field j (lit "category")
            && Basic.has_field j (lit "severity")) eqn:Hf.
  - apply andb_true_iff in Hf as [F1 F2].
    apply Basic.has_field_get in F1 as [d [cat [-> Hcat]]].
    apply Basic.has_field_get in F2 as [d' [sev [E Hsev]]].
    inversion E; subst d'.
    now erewrite Basic.validate_response_ok by eassumption.
  - destruct (Basic.validate_response_fail categories j
                (tr ++ [Basic.request_of categories title description
                          location]) Hf) as [e He].
    rewrite He. now destruct e.
Qed.

(** X7. The adapter makes no retry: without a credential it raises
    before any call; with one it makes exactly one call of the service,
    whether it then returns or raises. *)
Theorem adapter_calls_the_service_once
  (uni_isspace : char -> bool)
  (categories : list Basic.Category) (openai_api_key : option str)
  (chat_completion : Basic.llm_request -> Basic.completion)
  (json_loads : str -> option json)
  (title description location : str) (tr : list Basic.llm_request) :
  let run := Basic.openai_classification uni_isspace categories
               openai_api_key chat_completion json_loads
               title description location tr in
  if Basic.configured openai_api_key
  then snd run
       = tr ++ [Basic.request_of categories title description location]
  else run = (Raise (Exception (lit "OpenAI API key not configured")), tr).
Proof.
  intros run. unfold run.
  destruct (Basic.configured openai_api_key) eqn:Hk.
  - now apply adapter_trace.
  - now apply Basic.adapter_unconfigured.
Qed.

(** X8. The arbiter calls the service at most once, and exactly when
    the confidence of the keyword classifier is below 0.7 and a credential
    is configured; otherwise the trace of calls is left as it was. *)
Theorem arbiter_calls_the_service_at_most_once
  (uni_lower : str -> str) (uni_isalnum uni_isspace : char -> bool)
  (categories : list Basic.Category) (openai_api_key : option str)
  (chat_completion : Basic.llm_request -> Basic.completion)
  (json_loads : str -> option json)
  (title description location : str) (tr : list Basic.llm_request) :
  let kr := Basic.keyword_classification uni_lower uni_isalnum uni_isspace
              categories title description in
  snd (Basic.hybrid_classification uni_lower uni_isalnum uni_isspace
         categories openai_api_key chat_completion json_loads
         title description location tr)
  = if Qle_bool (7 # 10) (Basic.kr_confidence kr)
       || negb (Basic.configured openai_api_key)
    then tr
    else tr ++ [Basic.request_of categories title description location].
Proof.
  intros kr.
  destruct (Qle_bool (7 # 10) (Basic.kr_confidence kr)) eqn:Hc.
  { now rewrite Basic.hybrid_high. }
  destruct (Basic.configured openai_api_key) eqn:Hk.
  2:{ now rewrite Basic.hybrid_unconfigured. }
  cbn [orb negb].
  pose proof (@adapter_trace uni_isspace categories
                openai_api_key chat_completion json_loads
                title description location tr Hk) as Hone.
  destruct (Basic.openai_classification uni_isspace categories openai_api_key
              chat_completion json_loads title description location tr)
    as [[r|e] tr'] eqn:Ha; cbn [snd] in Hone; subst tr'.
  2:{ now erewrite Basic.hybrid_adapter_fail by eassumption. }
  pose proof Ha as Hv. apply Basic.adapter_result_valid in Hv
    as [d [cat [sev [-> [Hcat [Hsev _]]]]]].
  erewrite Basic.hybrid_adapter_ok by eassumption.
  destruct (eq_str cat _); [|reflexivity].
  destruct (py_add_float _ _); reflexivity.
Qed.

(** X9. The adapter only touches three fields of the answer of the
    service: the result it returns has the method [openai], and every field
    of the payload other than [category], [severity] and [method] (the
    confidence, the reasoning, the extracted information) is in the result
    as it was in the payload. *)
Theorem adapter_keeps_the_other_fields
  (uni_isspace : char -> bool)
  (categories : list Basic.Category) (openai_api_key : option str)
  (chat_completion : Basic.llm_request -> Basic.completion)
  (json_loads : str -> option json)
  (title description location content : str)
  (tr tr' : list Basic.llm_request) (d : list (str * json)) (r : json) :
  chat_completion (Basic.request_of categories title description location)
  = Basic.Completion content ->
  json_loads (strip uni_isspace content) = Some (JObj d) ->
  Basic.openai_classification uni_isspace categories openai_api_key
    chat_completion json_loads title description location tr
  = (Ok r, tr') ->
  exists fields,
    r = JObj fields
    /\ dict_get (lit "method") fields = Some (JStr (lit "openai"))
    /\ forall k,
         eqb k (lit "category") = false ->
         eqb k (lit "severity") = false ->
         eqb k (lit "method") = false ->
         dict_get k fields = dict_get k d.
Proof.
  intros Hc Hj Ha.
  apply Basic.adapter_inversion in Ha
    as [content' [d' [cat [sev [_ [Hc' [Hj' [_ [_ [-> _]]]]]]]]]].
  rewrite Hc in Hc'. inversion Hc'; subst content'.
  rewrite Hj in Hj'. inversion Hj'; subst d'.
  exists (Basic.validated categories cat sev d).
  split; [reflexivity|]. unfold Basic.validated. split.
  - apply dict_get_set_same.
  - intros k K1 K2 K3.
    rewrite dict_get_set_other by exact K3.
    unfold Basic.coerce_severity, Basic.coerce_category.
    destruct (in_strs sev Basic.valid_severities);
      destruct (in_strs cat (Basic.category_names categories));
      rewrite ?(@dict_get_set_other _ (lit "severity")) by exact K2;
      rewrite ?(@dict_get_set_other _ (lit "category")) by exact K1;
      reflexivity.
Qed.

Lemma adapter_keeps_the_other_fields_witness :
  let payload :=
    JObj (Scenario.fields "Foobar" "High" (Some (JNum (9 # 10)))
          ++ [(lit "reasoning", JStr (lit "a pothole is a road issue"))]) in
  exists fields tr',
    Scenario.adapter Scenario.key (Some payload)
      (lit "Complaint") Scenario.plain_description (lit "Ranchi") []
    = (Ok (JObj fields), tr')
    /\ dict_get (lit "category") fields = Some (JStr (lit "Other"))
    /\ dict_get (lit "method") fields = Some (JStr (lit "openai"))
    /\ dict_get (lit "confidence") fields = Some (JNum (9 # 10))
    /\ dict_get (lit "reasoning") fields
       = Some (JStr (lit "a pothole is a road issue")).
Proof.
  intros payload.
  destruct (Scenario.adapter Scenario.key (Some payload)
              (lit "Complaint") Scenario.plain_description (lit "Ranchi") [])
    as [o tr'] eqn:Ha.
  assert (Hok : exists r, o = Ok r).
  { vm_compute in Ha. inversion Ha. eexists. reflexivity. }
  destruct Hok as [r ->].
  destruct (@adapter_keeps_the_other_fields Ascii7.isspace Scenario.catalog
              Scenario.key
              (Scenario.service (Basic.Completion (lit "  {...} ")))
              (Scenario.loads (Some payload))
              (lit "Complaint") Scenario.plain_description (lit "Ranchi")
              (lit "  {...} ") [] tr' _ r eq_refl eq_refl Ha)
    as [fields [-> [Hm Hkeep]]].
  exists fields, tr'. split; [reflexivity|].
  split; [vm_compute in Ha; inversion Ha; reflexivity|].
  split; [exact Hm|]. split.
  - now rewrite Hkeep.
  - now rewrite Hkeep.
Defined.

(* ================================================================= *)
(** ** The route [/classify] of the basic variant *)

Module BasicRoutes.

(** The body of a reply of the route, with its status. *)
Inductive reply (A : Type) : Type :=
| Failure (error : str + exn) (status : nat)
| Success (data : A).

Arguments Failure {A} error status.
Arguments Success {A} data.

(** [x[:n]]: defined on strings and lists. *)
Definition py_prefix (x : json) (n : nat) : outcome json :=
  match x with
  | JStr s => Ok (JStr (firstn n s))
  | JArr l => Ok (JArr (firstn n l))
  | _ => Raise TypeError
  end.

Section Route.

(** [self.hybrid_classification], on whatever values the request holds. *)
Variable E A : Type.
Variable hybrid_classification : json -> json -> json -> M E A.

(** The route [/classify] of app.py; [data] is what [request.get_json()]
    returned, [None] included. *)
Definition classify_complaint (data : option json) : M E (reply A) :=
  try_except
    match data with
    | None => ret (Failure (inl (lit "No data provided")) 400)
    | Some data =>
        if falsy data
        then ret (Failure (inl (lit "No data provided")) 400)
        else
          (title <- lift (py_get data (lit "title") (JStr [])) ;;
           description <- lift (py_get data (lit "description") (JStr [])) ;;
           location <- lift (py_get data (lit "location") (JStr [])) ;;
           if falsy title && falsy description
           then ret (Failure (inl (lit "Title or description required")) 400)
           else
             (_ <- lift (py_prefix title 50) ;;
              result <- hybrid_classification title description location ;;
              ret (Success result)))%py
    end
    (fun e => ret (Failure (inr e) 500)).

End Route.

End BasicRoutes.

(** The field [k] of the request is absent or holds a falsy value. *)
Definition blank_field (k : str) (fields : list (str * json)) : bool :=
  match dict_get k fields with
  | Some v => falsy v
  | None => true
  end.

(** The field [k] of the request is the string [s], or is absent and [s]
    is the default, the empty string. *)
Definition string_field (k : str) (fields : list (str * json)) (s : str)
  : Prop :=
  dict_get k fields = Some (JStr s) \/ (dict_get k fields = None /\ s = []).

(** X10. The route [/classify] of the basic variant answers a request
    without data, or whose [title] and [description] are both absent or
    empty, with [success] false and status 400, and does not call the
    arbiter: the reply and the trace do not depend on it. *)
Theorem basic_route_requires_text
  (E A : Type) (hybrid_classification : json -> json -> json -> M E A)
  (tr : list E) :
  (forall data,
     match data with Some d => falsy d = true | None => True end ->
     BasicRoutes.classify_complaint hybrid_classification data tr
     = (Ok (BasicRoutes.Failure (inl (lit "No data provided")) 400), tr))
  /\ (forall fields,
        fields <> [] ->
        blank_field (lit "title") fields = true ->
        blank_field (lit "description") fields = true ->
        BasicRoutes.classify_complaint hybrid_classification
          (Some (JObj fields)) tr
        = (Ok (BasicRoutes.Failure
                 (inl (lit "Title or description required")) 400), tr)).
Proof.
  split.
  - intros [d|] H; unfold BasicRoutes.classify_complaint, try_except.
    + now rewrite H.
    + reflexivity.
  - intros fields Hne Ht Hd.
    unfold BasicRoutes.classify_complaint, try_except, bind, lift, py_get.
    assert (Hf : falsy (JObj fields) = false)
      by (destruct fields; [congruence|reflexivity]).
    rewrite Hf. unfold blank_field in Ht, Hd.
    destruct (dict_get (lit "title") fields) as [t|];
      destruct (dict_get (lit "description") fields) as [d|];
      destruct (dict_get (lit "location") fields) as [l|];
      cbn [falsy]; rewrite ?Ht, ?Hd; reflexivity.
Qed.

Lemma basic_route_requires_text_witness :
  let data := JObj [(lit "title", JStr []); (lit "location", JStr (lit "Ranchi"))] in
  BasicRoutes.classify_complaint
    (fun _ _ _ =>
       Scenario.arbiter Scenario.key None (lit "x") (lit "y") (lit "z"))
    (Some data) []
  = (Ok (BasicRoutes.Failure (inl (lit "Title or description required")) 400),
     []).
Proof.
  intros data.
  apply (@basic_route_requires_text Basic.llm_request Basic.response
           (fun _ _ _ =>
              Scenario.arbiter Scenario.key None (lit "x") (lit "y") (lit "z"))
           []).
  - discriminate.
  - reflexivity.
  - reflexivity.
Defined.

(** X11. A request of the basic route whose [title], [description] and
    [location] are strings (or absent), with a title or a description that
    is not empty, is always answered by the response of the arbiter on
    these strings, with [success] true: no failure of the service or of
    its payload turns into an error reply. *)
Theorem basic_route_classifies
  (uni_lower : str -> str) (uni_isalnum uni_isspace : char -> bool)
  (categories : list Basic.Category) (openai_api_key : option str)
  (chat_completion : Basic.llm_request -> Basic.completion)
  (json_loads : str -> option json)
  (hybrid_classification :
     json -> json -> json -> M Basic.llm_request Basic.response)
  (fields : list (str * json)) (title description location : str)
  (tr : list Basic.llm_request) :
  (forall t d l,
     hybrid_classification (JStr t) (JStr d) (JStr l)
     = Basic.hybrid_classification uni_lower uni_isalnum uni_isspace
         categories openai_api_key chat_completion json_loads t d l) ->
  string_field (lit "title") fields title ->
  string_field (lit "description") fields description ->
  string_field (lit "location") fields location ->
  title <> [] \/ description <> [] ->
  exists resp tr',
    BasicRoutes.classify_complaint hybrid_classification
      (Some (JObj fields)) tr
    = (Ok (BasicRoutes.Success resp), tr')
    /\ Basic.hybrid_classification uni_lower uni_isalnum uni_isspace
         categories openai_api_key chat_completion json_loads
         title description location tr
       = (Ok resp, tr')
    /\ Basic.success resp = true.
Proof.
  intros Hagree Ht Hd Hl Hne.
  destruct (Basic.hybrid_total uni_lower uni_isalnum uni_isspace categories
              openai_api_key chat_completion json_loads
              title description location tr)
    as [resp [tr' [Hrun [Hs _]]]].
  exists resp, tr'. split; [|split; assumption].
  assert (Hf : falsy (JObj fields) = false).
  { destruct fields; [|reflexivity].
    destruct Ht as [Ht|[_ ->]]; [discriminate|].
    destruct Hd as [Hd|[_ ->]]; [discriminate|].
    destruct Hne; congruence. }
  assert (Hget : forall k s, string_field k fields s ->
            py_get (JObj fields) k (JStr []) = Ok (JStr s)).
  { intros k s [H|[H ->]]; unfold py_get; now rewrite H. }
  assert (Hany : falsy (JStr title) && falsy (JStr description) = false).
  { destruct title, description; try reflexivity.
    destruct Hne; congruence. }
  unfold BasicRoutes.classify_complaint, try_except, bind, lift.
  rewrite Hf, (Hget _ _ Ht), (Hget _ _ Hd), (Hget _ _ Hl), Hany.
  cbn [BasicRoutes.py_prefix]. rewrite Hagree, Hrun. reflexivity.
Qed.

Lemma basic_route_classifies_witness :
  let data := JObj [(lit "title", JStr (lit "Pothole"));
                    (lit "description", JStr (lit "on the road"))] in
  let arbiter title description location :=
    match title, description, location with
    | JStr t, JStr d, JStr l =>
        Scenario.arbiter Scenario.key None t d l
    | _, _, _ => raise TypeError
    end in
  exists resp tr',
    BasicRoutes.classify_complaint arbiter (Some data) []
    = (Ok (BasicRoutes.Success resp), tr')
    /\ Scenario.arbiter Scenario.key None
         (lit "Pothole") (lit "on the road") [] []
       = (Ok resp, tr')
    /\ Basic.success resp = true.
Proof.
  intros data arbiter.
  apply (@basic_route_classifies Ascii7.lower Ascii7.isalnum Ascii7.isspace
           Scenario.catalog Scenario.key
           (Scenario.service (Basic.Completion (lit "  {...} ")))
           (Scenario.loads None) arbiter
           [(lit "title", JStr (lit "Pothole"));
            (lit "description", JStr (lit "on the road"))]
           (lit "Pothole") (lit "on the road") [] []).
  - reflexivity.
  - left; reflexivity.
  - left; reflexivity.
  - right; split; reflexivity.
  - left; discriminate.
Defined.



(* ================================================================= *)
(** ** More on the enhanced classifier *)

Module EnhancedFacts.

Import Enhanced.

(** The urgency a level of [load_urgency_keywords] raises the score to. *)
Definition level_floor (level : str) : nat :=
  if eqb level (lit "urgent") then 8
  else if eqb level (lit "high") then 6
  else if eqb level (lit "medium") then 4
  else 0.

Lemma raise_urgency_max (level : str) (acc : nat) :
  raise_urgency level acc = Nat.max acc (level_floor level).
Proof.
  unfold raise_urgency, level_floor.
  destruct (eqb level (lit "urgent")); [reflexivity|].
  destruct (eqb level (lit "high")); [reflexivity|].
  destruct (eqb level (lit "medium")); [reflexivity|].
  now rewrite Nat.max_0_r.
Qed.

Lemma level_floor_le (level : str) : (level_floor level <= 8)%nat.
Proof.
  unfold level_floor.
  destruct (eqb level (lit "urgent")); [lia|].
  destruct (eqb level (lit "high")); [lia|].
  destruct (eqb level (lit "medium")); lia.
Qed.

(** The inner loop of [calculate_urgency], over the keywords of a level. *)
Lemma urgency_level_loop (text level : str) (kws : list str) (acc : nat) :
  fold_left
    (fun acc keyword =>
       if contains keyword text then raise_urgency level acc else acc)
    kws acc
  = if existsb (fun keyword => contains keyword text) kws
    then Nat.max acc (level_floor level) else acc.
Proof.
  revert acc. induction kws as [|kw kws IH]; intros acc; [reflexivity|].
  cbn [fold_left existsb]. rewrite IH.
  destruct (contains kw text); cbn [orb].
  - rewrite raise_urgency_max.
    destruct (existsb _ kws); [|reflexivity].
    now rewrite <- Nat.max_assoc, Nat.max_id.
  - reflexivity.
Qed.

(** The outer loop, over any table of levels. *)
Definition urgency_loop (text : str) (table : list (str * list str))
  (acc : nat) : nat :=
  fold_left
    (fun acc (entry : str * list str) =>
       fold_left
         (fun acc keyword =>
            if contains keyword text then raise_urgency (fst entry) acc
            else acc)
         (snd entry) acc)
    table acc.

Lemma urgency_loop_bounds (text : str) (table : list (str * list str))
  (acc : nat) :
  (acc <= urgency_loop text table acc)%nat
  /\ (urgency_loop text table acc <= Nat.max acc 8)%nat
  /\ (forall level kws kw,
        In (level, kws) table -> In kw kws -> contains kw text = true ->
        (level_floor level <= urgency_loop text table acc)%nat)
  /\ ((forall level kws kw,
         In (level, kws) table -> In kw kws -> contains kw text = false) ->
      urgency_loop text table acc = acc).
Proof.
  unfold urgency_loop.
  revert acc. induction table as [|[level kws] table IH]; intros acc.
  - cbn [fold_left]. repeat split; try lia. intros ? ? ? [].
  - cbn [fold_left fst snd]. rewrite urgency_level_loop.
    set (acc' := if existsb (fun keyword => contains keyword text) kws
                 then Nat.max acc (level_floor level) else acc).
    assert (Hacc : (acc <= acc')%nat /\ (acc' <= Nat.max acc 8)%nat).
    { unfold acc'. pose proof (level_floor_le level).
      destruct (existsb _ kws); lia. }
    destruct (IH acc') as [H1 [H2 [H3 H4]]].
    repeat split; try lia.
    + intros lv ks kw [E|Hin] Hkw Hc.
      * inversion E; subst lv ks.
        assert (He : existsb (fun keyword => contains keyword text) kws
                     = true).
        { apply existsb_exists. now exists kw. }
        assert (Hfl : (level_floor level <= acc')%nat).
        { unfold acc'. rewrite He. lia. }
        lia.
      * now apply (H3 lv ks kw).
    + intros Hnone.
      assert (He : existsb (fun keyword => contains keyword text) kws
                   = false).
      { destruct (existsb _ kws) eqn:E; [|reflexivity].
        apply existsb_exists in E as [kw [Hkw Hc]].
        rewrite (Hnone level kws kw (or_introl eq_refl) Hkw) in Hc.
        discriminate. }
      rewrite H4.
      * unfold acc'. now rewrite He.
      * intros lv ks kw Hin. apply (Hnone lv ks kw). now right.
Qed.

Lemma calculate_urgency_unfold (text : str) :
  calculate_urgency text
  = let urgency_score := urgency_loop text load_urgency_keywords 1 in
    if existsb (fun word => contains word text) health_safety_words
    then Nat.min (urgency_score + 2) 10 else urgency_score.
Proof. reflexivity. Qed.

Lemma calculate_urgency_range (text : str) :
  (1 <= calculate_urgency text)%nat /\ (calculate_urgency text <= 10)%nat.
Proof.
  rewrite calculate_urgency_unfold. cbv zeta.
  destruct (urgency_loop_bounds text load_urgency_keywords 1)
    as [H1 [H2 _]].
  destruct (existsb _ health_safety_words); lia.
Qed.

Section Scan.

Variable text_lower : str.
Variable u : nat.

(** The keywords of an entry of the table that occur in the text. *)
Definition hits (entry : str * category_data) : list str :=
  filter (fun keyword => contains keyword text_lower) (keywords (snd entry)).

(** What the scores of [classify_text] hold: under the name of an entry
    of the table, its matched keywords, which are not none, and their
    number times the priority of the entry and the urgency. *)
Definition scores_sound (table : list (str * category_data))
  (d : list (str * (nat * list str))) : Prop :=
  forall k v, In (k, v) d ->
    exists entry, In entry table /\ fst entry = k
      /\ snd v = hits entry /\ hits entry <> []
      /\ fst v = (List.length (hits entry) * priority_base (snd entry) * u)%nat.

Lemma enhanced_scan_fold_sound (table l : list (str * category_data)) d :
  (forall e, In e l -> In e table) ->
  scores_sound table d ->
  scores_sound table (fold_left (scan_category text_lower u) l d).
Proof.
  revert d. induction l as [|x l IH]; intros d Hl Hd; [exact Hd|].
  cbn [fold_left]. apply IH; [intros e He; apply Hl; now right|].
  unfold scan_category. fold (hits x).
  destruct (0 <? List.length (hits x))%nat eqn:E; [|exact Hd].
  intros k v Hin. apply dict_set_in in Hin as [Hin|[-> ->]].
  - now apply Hd.
  - exists x. cbn [fst snd]. repeat split.
    + apply Hl. now left.
    + intros Hnil. rewrite Hnil in E. discriminate.
Qed.

Lemma enhanced_scan_fold_nil (l : list (str * category_data)) d :
  fold_left (scan_category text_lower u) l d = [] <->
  d = [] /\ forall e, In e l -> hits e = [].
Proof.
  revert d. induction l as [|x l IH]; intros d.
  - simpl. split; [intros H; split; [exact H|intros e []]|now intros [H _]].
  - cbn [fold_left]. rewrite IH. unfold scan_category. fold (hits x).
    destruct (hits x) as [|k ks] eqn:E; cbn [List.length Nat.ltb Nat.leb].
    + split.
      * intros [H0 Hl]. split; [exact H0|].
        intros e [<-|He]; [exact E|now apply Hl].
      * intros [H0 Hl]. split; [exact H0|]. intros e He. apply Hl.
        now right.
    + split.
      * intros [H0 _]. exfalso.
        destruct d as [|[k' v'] d]; simpl in H0; [discriminate|].
        destruct (eqb (fst x) k'); discriminate.
      * intros [_ Hl]. exfalso.
        specialize (Hl x (or_introl eq_refl)). congruence.
Qed.

End Scan.

Lemma priority_base_positive (entry : str * category_data) :
  In entry load_categories -> (0 < priority_base (snd entry))%nat.
Proof.
  intros H.
  assert (Hall : forallb (fun e : str * category_data =>
                            (0 <? priority_base (snd e))%nat)
                   load_categories = true) by reflexivity.
  rewrite forallb_forall in Hall. apply Nat.ltb_lt. now apply Hall.
Qed.

End EnhancedFacts.

(** X12. The urgency score is between 1 and 10.  A keyword of the table
    of urgency keywords that occurs in the text raises it to the floor of
    its level at least (8 for [urgent], 6 for [high], 4 for [medium]), and
    it is 1 when the text holds no urgency keyword and no health or safety
    word. *)
Theorem urgency_score_bounds (text : str) :
  let u := Enhanced.calculate_urgency text in
  (1 <= u)%nat /\ (u <= 10)%nat
  /\ (forall level kws kw,
        In (level, kws) Enhanced.load_urgency_keywords ->
        In kw kws -> contains kw text = true ->
        ((if eqb level (lit "urgent") then 8
          else if eqb level (lit "high") then 6
          else if eqb level (lit "medium") then 4 else 0) <= u)%nat)
  /\ ((forall level kws kw,
         In (level, kws) Enhanced.load_urgency_keywords ->
         In kw kws -> contains kw text = false) ->
      (forall word, In word Enhanced.health_safety_words ->
                    contains word text = false) ->
      u = 1%nat).
Proof.
  intros u.
  destruct (EnhancedFacts.calculate_urgency_range text) as [H1 H10].
  split; [exact H1|]. split; [exact H10|].
  unfold u. rewrite EnhancedFacts.calculate_urgency_unfold. cbv zeta.
  destruct (EnhancedFacts.urgency_loop_bounds text
              Enhanced.load_urgency_keywords 1) as [B1 [B2 [B3 B4]]].
  split.
  - intros level kws kw Hin Hkw Hc.
    pose proof (B3 level kws kw Hin Hkw Hc) as Hf.
    pose proof (EnhancedFacts.level_floor_le level) as H8.
    unfold EnhancedFacts.level_floor in Hf, H8.
    destruct (existsb _ Enhanced.health_safety_words); lia.
  - intros Hnone Hhealth.
    assert (He : existsb (fun word => contains word text)
                   Enhanced.health_safety_words = false).
    { destruct (existsb _ Enhanced.health_safety_words) eqn:E;
        [|reflexivity].
      apply existsb_exists in E as [w [Hw Hc]].
      rewrite (Hhealth w Hw) in Hc. discriminate. }
    rewrite He. now apply B4.
Qed.

Lemma urgency_score_bounds_witness :
  Enhanced.calculate_urgency
    (lit "emergency! gas leak explosion near market, people injured")
  = 10%nat
  /\ (8 <= Enhanced.calculate_urgency
             (lit "emergency! gas leak explosion near market, people injured"))%nat
  /\ Enhanced.calculate_urgency (lit "the street light is off") = 1%nat.
Proof.
  split; [reflexivity|]. split.
  - destruct (urgency_score_bounds
                (lit "emergency! gas leak explosion near market, people injured"))
      as [_ [_ [H _]]].
    eapply H with (level := lit "urgent") (kw := lit "explosion").
    + left. reflexivity.
    + vm_compute. auto 20.
    + reflexivity.
  - destruct (urgency_score_bounds (lit "the street light is off"))
      as [_ [_ [_ H]]].
    apply H.
    + intros level kws kw Hin Hkw.
      assert (Hall : forallb
                (fun e : str * list str =>
                   forallb (fun k => negb (contains k
                                             (lit "the street light is off")))
                     (snd e))
                Enhanced.load_urgency_keywords = true) by (vm_compute; reflexivity).
      rewrite forallb_forall in Hall. specialize (Hall _ Hin).
      cbn [snd] in Hall. rewrite forallb_forall in Hall.
      specialize (Hall _ Hkw). now apply negb_true_iff in Hall.
    + intros word Hw.
      assert (Hall : forallb (fun k => negb (contains k
                                               (lit "the street light is off")))
                       Enhanced.health_safety_words = true)
        by (vm_compute; reflexivity).
      rewrite forallb_forall in Hall. specialize (Hall _ Hw).
      now apply negb_true_iff in Hall.
Defined.

(** The two branches of the choice of the category in [classify_text]. *)
Lemma enhanced_best_category_cases
  (uni_isspace : char -> bool)
  (api_key : option str) (chat_completion : str -> Enhanced.completion)
  (text text_lower : str) (u : nat) (tr : list Enhanced.event) :
  let d := fold_left (Enhanced.scan_category text_lower u)
             Enhanced.load_categories [] in
  exists chosen tr1,
    EnhancedClassifier.best_category_of uni_isspace api_key chat_completion
      text text_lower u tr = (Ok chosen, tr1)
    /\ match d with
       | x :: l =>
           tr1 = tr
           /\ snd chosen = snd (snd (max_by (fun e => fst (snd e)) x l))
           /\ snd (fst chosen)
              = py_min (of_nat (fst (snd (max_by (fun e => fst (snd e)) x l)))
                        / 10) 1
       | [] =>
           snd chosen = []
           /\ 0 < snd (fst chosen)
           /\ tr1 = (if Enhanced.configured api_key
                     then tr ++ [Enhanced.LLMCall text] else tr)
       end.
Proof.
  intros d. unfold EnhancedClassifier.best_category_of. fold d.
  destruct d as [|x l].
  - unfold bind. unfold Enhanced.classify_with_openai.
    destruct (Enhanced.configured api_key); cbn [negb].
    + unfold try_except, bind, emit, lift, ret.
      destruct (chat_completion text) as [|content].
      * eexists _, _. split; [reflexivity|]. cbn. repeat split.
      * destruct (dict_has _ Enhanced.load_categories);
          eexists _, _; (split; [reflexivity|]); cbn; repeat split.
    + eexists _, _. split; [reflexivity|]. cbn. repeat split.
  - eexists _, _. split; [reflexivity|]. cbn. repeat split.
Qed.

(** The choice of the category, with its bounds. *)
Lemma enhanced_best_category_bounds
  (uni_lower : str -> str) (uni_isspace : char -> bool)
  (api_key : option str) (chat_completion : str -> Enhanced.completion)
  (text : str) (tr : list Enhanced.event) :
  exists chosen tr1,
    EnhancedClassifier.best_category_of uni_isspace api_key chat_completion
      text (uni_lower text) (Enhanced.calculate_urgency (uni_lower text)) tr
    = (Ok chosen, tr1)
    /\ 0 < snd (fst chosen) /\ snd (fst chosen) <= 1
    /\ (tr1 = tr \/ tr1 = tr ++ [Enhanced.LLMCall text])
    /\ (Enhanced.configured api_key = false -> tr1 = tr)
    /\ ((exists entry kw,
           In entry Enhanced.load_categories
           /\ In kw (Enhanced.keywords (snd entry))
           /\ contains kw (uni_lower text) = true) ->
        tr1 = tr /\ snd chosen <> []).
Proof.
  set (u := Enhanced.calculate_urgency (uni_lower text)).
  destruct (enhanced_best_category_cases uni_isspace api_key
              chat_completion text (uni_lower text) u tr)
    as [chosen [tr1 [Hrun Hcase]]].
  cbv zeta in Hcase.
  destruct (EnhancedClassifierFacts.best_category_of_total uni_isspace
              api_key chat_completion text (uni_lower text) u tr)
    as [chosen0 [tr0 [Hrun0 [_ [_ Hle]]]]].
  rewrite Hrun in Hrun0. inversion Hrun0; subst chosen0 tr0. clear Hrun0.
  destruct (EnhancedFacts.calculate_urgency_range (uni_lower text))
    as [U1 U10]. fold u in U1, U10.
  exists chosen, tr1. split; [exact Hrun|].
  pose proof (@EnhancedFacts.enhanced_scan_fold_sound (uni_lower text) u
                Enhanced.load_categories Enhanced.load_categories []
                (fun e H => H)) as Hsound.
  pose proof (EnhancedFacts.enhanced_scan_fold_nil (uni_lower text) u
                Enhanced.load_categories []) as Hnil.
  destruct (fold_left (Enhanced.scan_category (uni_lower text) u)
              Enhanced.load_categories []) as [|x l] eqn:Ed.
  - destruct Hcase as [Hm [Hpos Htr]].
    split; [exact Hpos|]. split; [exact Hle|]. split; [|split].
    + rewrite Htr. destruct (Enhanced.configured api_key); auto.
    + intros Hk. now rewrite Htr, Hk.
    + intros [entry [kw [Hin [Hkw Hc]]]]. exfalso.
      destruct Hnil as [Hnil _]. destruct (Hnil eq_refl) as [_ Hnone].
      specialize (Hnone entry Hin). unfold EnhancedFacts.hits in Hnone.
      assert (Hf : In kw (filter (fun keyword => contains keyword
                                                   (uni_lower text))
                            (Enhanced.keywords (snd entry))))
        by (apply filter_In; auto).
      rewrite Hnone in Hf. contradiction.
  - destruct Hcase as [Htr [Hm Hconf]].
    assert (Hs : EnhancedFacts.scores_sound (uni_lower text) u
                   Enhanced.load_categories (x :: l)).
    { apply Hsound. intros k v []. }
    set (best := max_by (fun e => fst (snd e)) x l) in *.
    assert (Hb : In best (x :: l)) by apply max_by_in.
    destruct best as [k v] eqn:Eb.
    destruct (Hs k v Hb) as [entry [Hin [_ [Hv [Hne Hscore]]]]].
    cbn [fst snd] in Hm, Hconf.
    split; [|split; [exact Hle|]].
    + rewrite Hconf.
      assert (Hq : 0 < of_nat (fst v) / 10);
        [|unfold py_min; destruct (Qlt_bool _ _); [reflexivity|exact Hq]].
      pose proof (@EnhancedFacts.priority_base_positive entry Hin) as Hp.
      assert (Hl : (0 < List.length (EnhancedFacts.hits (uni_lower text) entry))%nat).
      { destruct (EnhancedFacts.hits (uni_lower text) entry);
          [congruence|simpl; lia]. }
      assert (Hfv : (0 < fst v)%nat) by (rewrite Hscore; nia).
      apply Qlt_shift_div_l; [reflexivity|].
      unfold of_nat, Qlt. simpl. lia.
    + split; [now left|]. split; [intros _; exact Htr|].
      intros _. split; [exact Htr|]. rewrite Hm, Hv. exact Hne.
Qed.

(** X13. [classify_text] of the enhanced variant returns a result when
    the location of the request is absent, falsy or a string, and raises
    [AttributeError] (at [location.strip()]) on any other location.  The
    confidence of a result is above 0 and at most 1 and its urgency between
    1 and 10.  In either case the service is consulted at most once, never
    without a credential, and never when a keyword of a category occurs in
    the lower-cased text: the keywords of a result are then not none. *)
Theorem enhanced_classification_bounds
  (uni_lower : str -> str) (uni_isspace uni_isdecimal : char -> bool)
  (polarity : str -> option Q)
  (api_key : option str) (chat_completion : str -> Enhanced.completion)
  (text : str) (location user_phone : json) (tr : list Enhanced.event) :
  let run := EnhancedClassifier.classify_text uni_lower uni_isspace
               uni_isdecimal polarity api_key chat_completion
               text location user_phone tr in
  let keyword_occurs :=
    exists entry kw,
      In entry Enhanced.load_categories
      /\ In kw (Enhanced.keywords (snd entry))
      /\ contains kw (uni_lower text) = true in
  (snd run = tr \/ snd run = tr ++ [Enhanced.LLMCall text])
  /\ (Enhanced.configured api_key = false -> snd run = tr)
  /\ (keyword_occurs -> snd run = tr)
  /\ if EnhancedClassifier.usable_location location
     then exists r,
            fst run = Ok r
            /\ 0 < EnhancedClassifier.confidence r
            /\ EnhancedClassifier.confidence r <= 1
            /\ (1 <= EnhancedClassifier.urgency_level r)%nat
            /\ (EnhancedClassifier.urgency_level r <= 10)%nat
            /\ (keyword_occurs -> EnhancedClassifier.keywords r <> [])
     else fst run = Raise AttributeError.
Proof.
  intros run keyword_occurs. unfold run.
  destruct (enhanced_best_category_bounds uni_lower uni_isspace api_key
              chat_completion text tr)
    as [chosen [tr1 [Hb [Hpos [Hle [Htr [Hnokey Hkw]]]]]]].
  destruct (EnhancedFacts.calculate_urgency_range (uni_lower text))
    as [U1 U10].
  destruct (EnhancedClassifier.usable_location location) eqn:Hu.
  - destruct (@EnhancedClassifierFacts.classify_text_usable uni_lower
                uni_isspace uni_isdecimal polarity api_key chat_completion
                text location user_phone tr tr1 chosen Hu Hb)
      as [r [Hrun [_ [Hq [Hk [Hul _]]]]]].
    rewrite Hrun. cbn [fst snd].
    split; [exact Htr|]. split; [exact Hnokey|].
    split; [intros H; now apply Hkw|].
    exists r. split; [reflexivity|]. rewrite Hq, Hul, Hk.
    repeat split; try assumption. intros H. now apply Hkw.
  - rewrite (@EnhancedClassifierFacts.classify_text_unusable uni_lower
               uni_isspace uni_isdecimal polarity api_key chat_completion
               text location user_phone tr tr1 chosen Hu Hb).
    cbn [fst snd].
    split; [exact Htr|]. split; [exact Hnokey|].
    split; [intros H; now apply Hkw|reflexivity].
Qed.

(** X14. A text whose lower case holds a keyword of the level [urgent]
    (an emergency, a fire, an explosion) is given an urgency of 8 at least
    and the priority [urgent] by [classify_text], whatever its category,
    when the location of the request is absent, falsy or a string. *)
Theorem urgent_keyword_gives_urgent_priority
  (uni_lower : str -> str) (uni_isspace uni_isdecimal : char -> bool)
  (polarity : str -> option Q)
  (api_key : option str) (chat_completion : str -> Enhanced.completion)
  (text kw : str) (kws : list str) (location user_phone : json)
  (tr : list Enhanced.event) :
  In (lit "urgent", kws) Enhanced.load_urgency_keywords ->
  In kw kws ->
  contains kw (uni_lower text) = true ->
  EnhancedClassifier.usable_location location = true ->
  exists r tr',
    EnhancedClassifier.classify_text uni_lower uni_isspace uni_isdecimal
      polarity api_key chat_completion text location user_phone tr
    = (Ok r, tr')
    /\ (8 <= EnhancedClassifier.urgency_level r)%nat
    /\ EnhancedClassifier.priority r = lit "urgent".
Proof.
  intros Hin Hkw Hc Hu.
  destruct (EnhancedClassifierFacts.best_category_of_total uni_isspace
              api_key chat_completion text (uni_lower text)
              (Enhanced.calculate_urgency (uni_lower text)) tr)
    as [chosen [tr1 [Hb _]]].
  destruct (@EnhancedClassifierFacts.classify_text_usable uni_lower
              uni_isspace uni_isdecimal polarity api_key chat_completion
              text location user_phone tr tr1 chosen Hu Hb)
    as [r [Hrun [_ [_ [_ [Hul Hp]]]]]].
  destruct (EnhancedFacts.urgency_loop_bounds (uni_lower text)
              Enhanced.load_urgency_keywords 1) as [_ [_ [B3 _]]].
  pose proof (B3 _ _ _ Hin Hkw Hc) as Hf.
  change (EnhancedFacts.level_floor (lit "urgent")) with 8%nat in Hf.
  assert (H8 : (8 <= Enhanced.calculate_urgency (uni_lower text))%nat).
  { rewrite EnhancedFacts.calculate_urgency_unfold. cbv zeta.
    destruct (existsb _ Enhanced.health_safety_words); lia. }
  exists r, tr1. split; [exact Hrun|]. split; [now rewrite Hul|].
  rewrite Hp. unfold Enhanced.determine_priority.
  apply Nat.leb_le in H8. now rewrite H8.
Qed.

Lemma urgent_keyword_gives_urgent_priority_witness :
  exists r tr',
    EnhancedClassifier.classify_text Ascii7.lower Ascii7.isspace
      Ascii7.isdecimal (fun _ => None) None (fun _ => Enhanced.NoCompletion)
      (lit "Emergency! Gas leak explosion near market, people injured")
      (JStr (lit "Main Road, Ranchi")) (JStr []) []
    = (Ok r, tr')
    /\ (8 <= EnhancedClassifier.urgency_level r)%nat
    /\ EnhancedClassifier.priority r = lit "urgent".
Proof.
  eapply (@urgent_keyword_gives_urgent_priority Ascii7.lower Ascii7.isspace
            Ascii7.isdecimal (fun _ => None) None
            (fun _ => Enhanced.NoCompletion)
            (lit "Emergency! Gas leak explosion near market, people injured")
            (lit "explosion")).
  - left. reflexivity.
  - vm_compute. auto 20.
  - reflexivity.
  - reflexivity.
Defined.

(* ================================================================= *)
(** ** The route [/classify] of the enhanced variant, in full *)

(** X15. What the route [/classify] of the enhanced variant answers to a
    request that is an object.  Without a [text] field: status 400 and the
    message of the missing field.  With a [text] that is not a string: the
    call of [strip] raises and the reply has status 500.  With a string of
    fewer than 10 characters once stripped: status 400.  Otherwise
    [classify_text] is called once, on the stripped text, the [location]
    and the [user_phone] of the request (an empty string for an absent
    one); its result is returned with [success] true, and an exception it
    raises becomes a reply with status 500. *)
Theorem enhanced_route_decision_table
  (uni_isspace : char -> bool) (A : Type)
  (classify_text : str -> json -> json -> M Enhanced.event A)
  (fields : list (str * json)) (tr : list Enhanced.event) :
  let run := Enhanced.classify_complaint uni_isspace classify_text
               (Some (JObj fields)) tr in
  let field k := match dict_get k fields with
                 | Some v => v
                 | None => JStr []
                 end in
  match dict_get (lit "text") fields with
  | None =>
      run = (Ok (Enhanced.Failure
                   (inl (lit "Missing 'text' field in request")) 400), tr)
  | Some (JStr text) =>
      let text := strip uni_isspace text in
      if (List.length text <? 10)%nat
      then run = (Ok (Enhanced.Failure
                        (inl (lit "Text must be at least 10 characters long"))
                        400), tr)
      else
        let call := Enhanced.ClassifyText text (field (lit "location"))
                      (field (lit "user_phone")) in
        match classify_text text (field (lit "location"))
                (field (lit "user_phone")) (tr ++ [call]) with
        | (Ok result, tr') => run = (Ok (Enhanced.Success result), tr')
        | (Raise e, tr') => run = (Ok (Enhanced.Failure (inr e) 500), tr')
        end
  | Some _ => run = (Ok (Enhanced.Failure (inr AttributeError) 500), tr)
  end.
Proof.
  intros run field. unfold run, field.
  unfold Enhanced.classify_complaint, try_except, bind, lift, ret, emit.
  destruct fields as [|kv fields'] eqn:Ef; [reflexivity|].
  rewrite <- Ef. assert (Hf : falsy (JObj fields) = false) by now subst.
  rewrite Hf. unfold py_in, dict_has, py_getitem, py_get.
  destruct (dict_get (lit "text") fields) as [v|]; [|reflexivity].
  cbn [negb].
  destruct v as [| b | q | text | l | d | z | | n]; try reflexivity.
  cbn [Enhanced.py_strip].
  destruct (dict_get (lit "location") fields);
    destruct (dict_get (lit "user_phone") fields);
    destruct (List.length (strip uni_isspace text) <? 10)%nat;
    try reflexivity;
    match goal with
    | |- context [classify_text ?a ?b ?c ?t] =>
        destruct (classify_text a b c t) as [[result|e] tr']; reflexivity
    end.
Qed.

(* ================================================================= *)
(** ** The auxiliary extractors *)

Module ExtractorFacts.

Import Extractors.

Lemma first_such_some {A} (f : A -> bool) (l : list A) (x : A) :
  first_such f l = Some x ->
  exists before after,
    l = before ++ x :: after /\ f x = true
    /\ forall y, In y before -> f y = false.
Proof.
  induction l as [|a l IH]; [discriminate|].
  simpl. destruct (f a) eqn:E.
  - intros H. inversion H; subst. exists [], l. repeat split; auto.
    intros y [].
  - intros H. destruct (IH H) as [before [after [-> [Hx Hb]]]].
    exists (a :: before), after. repeat split; auto.
    intros y [<-|Hy]; auto.
Qed.

Lemma first_such_none {A} (f : A -> bool) (l : list A) :
  first_such f l = None -> forall y, In y l -> f y = false.
Proof.
  induction l as [|a l IH]; [intros _ y []|].
  simpl. destruct (f a) eqn:E; [discriminate|].
  intros H y [<-|Hy]; auto.
Qed.

Lemma dict_get_In {V} (k : str) (d : list (str * V)) (v : V) :
  dict_get k d = Some v -> In (k, v) d.
Proof.
  induction d as [|[k' v'] d IH]; [discriminate|].
  simpl. destruct (eqb k k') eqn:E.
  - intros H. inversion H; subst. apply eqb_eq in E. subst. now left.
  - intros H. right. now apply IH.
Qed.

Lemma base_time_le (category : str) (t : nat) :
  dict_get category base_times = Some t -> (t <= 168)%nat.
Proof.
  intros H. apply dict_get_In in H.
  assert (Hall : forallb (fun e : str * nat => (snd e <=? 168)%nat) base_times
                 = true) by reflexivity.
  rewrite forallb_forall in Hall. specialize (Hall _ H).
  now apply Nat.leb_le in Hall.
Qed.

Lemma category_question_single (category : str) (qs : list str) :
  dict_get category category_questions = Some qs -> List.length qs = 1%nat.
Proof.
  intros H. apply dict_get_In in H.
  assert (Hall : forallb (fun e : str * list str =>
                            (List.length (snd e) =? 1)%nat)
                   category_questions = true) by reflexivity.
  rewrite forallb_forall in Hall. specialize (Hall _ H).
  now apply Nat.eqb_eq in Hall.
Qed.

Lemma subcategories_not_empty (category : str) (data : Enhanced.category_data) :
  dict_get category Enhanced.load_categories = Some data ->
  Enhanced.subcategories data <> [].
Proof.
  intros H. apply dict_get_In in H.
  assert (Hall : forallb (fun e : str * Enhanced.category_data =>
                            (0 <? List.length (Enhanced.subcategories (snd e)))%nat)
                   Enhanced.load_categories = true) by reflexivity.
  rewrite forallb_forall in Hall. specialize (Hall _ H).
  cbn [snd] in Hall. intros E. rewrite E in Hall. discriminate.
Qed.

End ExtractorFacts.

(** X16. [generate_questions] never has more than three questions to
    return, so its truncation to three drops none: the question on the
    impact is asked for three categories only and the question of the
    category for four others. *)
Theorem questions_are_never_truncated
  (text category : str) (missing_info : list str) :
  Extractors.generate_questions text category missing_info
  = Extractors.questions_of category missing_info
  /\ (List.length
        (Extractors.generate_questions text category missing_info) <= 3)%nat.
Proof.
  assert (Hlen : (List.length (Extractors.questions_of category missing_info)
                  <= 3)%nat).
  { unfold Extractors.questions_of.
    destruct (mem (lit "specific_location") missing_info);
      destruct (mem (lit "time_of_incident") missing_info);
      destruct (mem (lit "impact_details") missing_info);
      try (destruct (eqb category (lit "Water Supply")) eqn:E1;
           [apply eqb_eq in E1; subst category; vm_compute; lia|];
           destruct (eqb category (lit "Infrastructure")) eqn:E2;
           [apply eqb_eq in E2; subst category; vm_compute; lia|];
           destruct (eqb category (lit "Electricity")) eqn:E3;
           [apply eqb_eq in E3; subst category; vm_compute; lia|]);
      (destruct (dict_get category Extractors.category_questions) as [qs|]
         eqn:Eq;
       [apply ExtractorFacts.category_question_single in Eq;
        rewrite ?length_app; cbn [List.length app]; lia
       |cbn [List.length app]; lia]). }
  unfold Extractors.generate_questions. split.
  - now apply firstn_all2.
  - rewrite firstn_all2 by exact Hlen. exact Hlen.
Qed.

(** X17. [suggest_subcategory] answers nothing for a category that is
    not in the table and, for a category of the table, one of the
    subcategories the table declares for it. *)
Theorem subcategory_is_declared
  (uni_lower : str -> str) (text category : str) :
  match dict_get category Enhanced.load_categories with
  | None => Extractors.suggest_subcategory uni_lower text category = None
  | Some data =>
      exists subcat,
        Extractors.suggest_subcategory uni_lower text category = Some subcat
        /\ In subcat (Enhanced.subcategories data)
  end.
Proof.
  unfold Extractors.suggest_subcategory.
  destruct (dict_get category Enhanced.load_categories) as [data|] eqn:E;
    [|reflexivity].
  destruct (Extractors.first_such _ (Enhanced.subcategories data))
    as [s|] eqn:Ef.
  - exists s. split; [reflexivity|].
    apply ExtractorFacts.first_such_some in Ef
      as [before [after [-> _]]].
    apply in_or_app. right. now left.
  - pose proof (ExtractorFacts.subcategories_not_empty _ E) as Hne.
    destruct (Enhanced.subcategories data) as [|s l]; [congruence|].
    exists s. split; [reflexivity|now left].
Qed.

(** X18. The estimate of the resolution time never grows with the
    urgency, and it is at most the 168 hours of the slowest category. *)
Theorem resolution_time_antitone (category : str) (u1 u2 : nat) :
  (u1 <= u2)%nat ->
  (Extractors.estimate_resolution_time category u2
   <= Extractors.estimate_resolution_time category u1)%nat
  /\ (Extractors.estimate_resolution_time category u1 <= 168)%nat.
Proof.
  intros Hle. unfold Extractors.estimate_resolution_time.
  set (base := match dict_get category Extractors.base_times with
               | Some t => t
               | None => 48%nat
               end).
  assert (Hb : (base <= 168)%nat).
  { unfold base.
    destruct (dict_get category Extractors.base_times) eqn:E; [|lia].
    now apply ExtractorFacts.base_time_le in E. }
  assert (H2 : (base / 2 <= base)%nat)
    by (apply Nat.Div0.div_le_upper_bound; lia).
  assert (H4 : (base / 4 <= base / 2)%nat)
    by (apply Nat.div_le_compat_l; lia).
  destruct (8 <=? u1)%nat eqn:A1; destruct (8 <=? u2)%nat eqn:A2;
    destruct (6 <=? u1)%nat eqn:B1; destruct (6 <=? u2)%nat eqn:B2;
    repeat match goal with
           | H : (_ <=? _)%nat = true |- _ => apply Nat.leb_le in H
           | H : (_ <=? _)%nat = false |- _ => apply Nat.leb_gt in H
           end; split; lia.
Qed.

Lemma resolution_time_antitone_witness :
  (Extractors.estimate_resolution_time (lit "Healthcare") 9
   <= Extractors.estimate_resolution_time (lit "Healthcare") 3)%nat
  /\ (Extractors.estimate_resolution_time (lit "Healthcare") 3 <= 168)%nat.
Proof.
  apply (@resolution_time_antitone (lit "Healthcare") 3 9). lia.
Defined.

(** X19. [validate_jharkhand_location] answers the empty location with
    the bare dictionary.  Otherwise the location is valid exactly when the
    lower case of a district of the table occurs in its lower case: the
    district returned is then the first such district of the table, with
    the coordinates the table has for it and no suggestion; when no
    district occurs, the district and the coordinates are [None]. *)
Theorem location_validation_cases
  (uni_lower : str -> str) (uni_isspace : char -> bool)
  (location_text : str) :
  let occurs district :=
    contains (uni_lower district) (uni_lower location_text) in
  match Extractors.validate_jharkhand_location uni_lower uni_isspace
          location_text with
  | Extractors.NoLocation => location_text = []
  | Extractors.Validated r =>
      location_text <> []
      /\ if Extractors.valid r
         then exists before d after,
                Extractors.districts = before ++ d :: after
                /\ Extractors.district r = Some d
                /\ occurs d = true
                /\ (forall d', In d' before -> occurs d' = false)
                /\ Extractors.coordinates r
                   = dict_get d Extractors.district_coordinates
                /\ Extractors.suggestions r = []
         else Extractors.district r = None
              /\ Extractors.coordinates r = None
              /\ forall d, In d Extractors.districts -> occurs d = false
  end.
Proof.
  intros occurs. unfold Extractors.validate_jharkhand_location.
  destruct location_text as [|c rest]; [reflexivity|].
  split; [discriminate|].
  cbn [Extractors.valid Extractors.district Extractors.coordinates
       Extractors.suggestions].
  destruct (Extractors.first_such _ Extractors.districts) as [d|] eqn:Ef.
  - apply ExtractorFacts.first_such_some in Ef
      as [before [after [Hcut [Hd Hb]]]].
    exists before, d, after. repeat split; try assumption.
    destruct (Extractors.any_in Extractors.mining_words _);
      [reflexivity|].
    destruct (Extractors.any_in Extractors.tribal_words _);
      [reflexivity|].
    destruct (Extractors.any_in Extractors.urban_words _); reflexivity.
  - repeat split.
    intros d Hd. exact (@ExtractorFacts.first_such_none _ _ _ Ef d Hd).
Qed.

(** X20. The district of a validated location is never [Jamshedpur],
    which is not in the list of districts, and coordinates are returned for
    the districts [Ranchi], [Dhanbad] and [Bokaro] only. *)
Theorem coordinates_of_three_districts
  (uni_lower : str -> str) (uni_isspace : char -> bool)
  (location_text : str) (r : Extractors.location_result) :
  Extractors.validate_jharkhand_location uni_lower uni_isspace location_text
  = Extractors.Validated r ->
  Extractors.district r <> Some (lit "Jamshedpur")
  /\ (Extractors.coordinates r <> None ->
      Extractors.district r = Some (lit "Ranchi")
      \/ Extractors.district r = Some (lit "Dhanbad")
      \/ Extractors.district r = Some (lit "Bokaro")).
Proof.
  intros Hv.
  pose proof (location_validation_cases uni_lower uni_isspace location_text)
    as H.
  cbv zeta in H. rewrite Hv in H. destruct H as [_ H].
  destruct (Extractors.valid r).
  - destruct H as [before [d [after [Hcut [Hd [_ [_ [Hc _]]]]]]]].
    assert (Hin : In d Extractors.districts).
    { rewrite Hcut. apply in_or_app. right. now left. }
    rewrite Hd, Hc. clear - Hin.
    unfold Extractors.districts, Enhanced.lits in Hin. cbn [List.map] in Hin.
    repeat (destruct Hin as [<-|Hin];
            [split; [discriminate|];
             try (intros Hn; exfalso; apply Hn; reflexivity); auto|]).
    contradiction.
  - destruct H as [-> [-> _]]. split; [discriminate|].
    intros Hn. congruence.
Qed.

Lemma coordinates_of_three_districts_witness :
  exists r,
    Extractors.validate_jharkhand_location Ascii7.lower Ascii7.isspace
      (lit "Main Road, Ranchi")
    = Extractors.Validated r
    /\ Extractors.valid r = true
    /\ Extractors.coordinates r = Some (233441 # 10000, 853096 # 10000)
    /\ Extractors.district r = Some (lit "Ranchi").
Proof.
  eexists. split; [reflexivity|]. split; [reflexivity|].
  split; [reflexivity|].
  destruct (@coordinates_of_three_districts Ascii7.lower Ascii7.isspace
              (lit "Main Road, Ranchi") _ eq_refl) as [_ H].
  destruct H as [H|[H|H]]; [discriminate|exact H|discriminate H|discriminate H].
Defined.

(** X21. [enhance_with_ai] never raises and never loses a field of the
    complaint: it returns the complaint as it is, or the complaint with the
    field [ai_enhancement] set, every other field being kept.  Without a
    credential it returns the complaint and makes no call; with one it
    makes at most one call. *)
Theorem enhancement_keeps_the_complaint
  (api_key : option str)
  (chat_completion : Extractors.enhance_request -> Enhanced.completion)
  (json_loads : str -> option json)
  (complaint : json) (tr : list Extractors.enhance_request) :
  exists r tr',
    Extractors.enhance_with_ai api_key chat_completion json_loads
      complaint tr = (Ok r, tr')
    /\ (r = complaint
        \/ exists d v, complaint = JObj d
             /\ r = JObj (dict_set (lit "ai_enhancement") v d))
    /\ (forall d k, complaint = JObj d ->
          eqb k (lit "ai_enhancement") = false ->
          exists d', r = JObj d' /\ dict_get k d' = dict_get k d)
    /\ (Enhanced.configured api_key = false -> r = complaint /\ tr' = tr)
    /\ (tr' = tr \/ exists request, tr' = tr ++ [request]).
Proof.
  assert (Hsame : forall tr',
            (tr' = tr \/ exists request : Extractors.enhance_request,
                           tr' = tr ++ [request]) ->
            (complaint = complaint
             \/ exists d v, complaint = JObj d
                  /\ complaint = JObj (dict_set (lit "ai_enhancement") v d))
            /\ (forall d k, complaint = JObj d ->
                  eqb k (lit "ai_enhancement") = false ->
                  exists d', complaint = JObj d'
                             /\ dict_get k d' = dict_get k d)).
  { intros tr' _. split; [now left|]. intros d k -> _. now exists d. }
  unfold Extractors.enhance_with_ai.
  destruct (Enhanced.configured api_key) eqn:Hk; cbn [negb].
  2:{ exists complaint, tr. split; [reflexivity|].
      destruct (Hsame tr (or_introl eq_refl)) as [H1 H2]. auto. }
  unfold try_except, bind, lift, emit, py_get, py_setitem.
  destruct complaint as [| b | q | s | l | d | z | | n];
    try (eexists _, _; split; [reflexivity|];
         split; [now left|]; split; [intros ? ? E; discriminate E|];
         split; [intros E; discriminate E|now left]).
  destruct (dict_get (lit "title") d); destruct (dict_get (lit "description") d);
    destruct (dict_get (lit "location") d);
    match goal with
    | |- context [chat_completion ?rq] =>
        destruct (chat_completion rq) as [|content]
    end;
    eexists _, _; (split; [reflexivity|]);
    (split; [first [now left | right; eexists _, _; split; reflexivity]|]);
    (split;
     [intros d0 k E Hne; inversion E; subst d0; eexists;
      (split; [reflexivity|]);
      first [reflexivity | now apply dict_get_set_other]|]);
    (split; [intros E; discriminate E|]);
    right; eexists; reflexivity.
Qed.
